(** * OpenManus-GUI-OMEGA: the feedback-learning pipeline of the backend

    A shallow embedding of the service layer under [backend/services]
    (learning_service.py, feedback_service.py, knowledge_service.py,
    metrics_service.py, ai_service.py, celery_tasks.py) and the properties
    of the pipeline that the design document states about it.

    Conventions of the embedding.
    - Python [float] and PostgreSQL [NUMERIC] values are exact rationals [Q].
    - Python [str] is a [string] holding UTF-8 bytes; [len] counts code
      points, [lower] folds Basic Latin and Latin-1 capitals.
    - Timestamps are seconds since the epoch in [Z]; [DATE(ts)] is the day
      number [ts / 86400].
    - [uuid.uuid4()] draws are explicit arguments, taken to be fresh: the
      primary keys of INSERT are not modelled.  Ids are symbolic strings.
      A value read from a column of type UUID is the driver's [UUID]
      object, not a [str].
    - A database session is a pair of the committed store and the working
      copy of the open transaction.
    - Store operations succeed, with two exceptions: the INSERT of
      [save_feedback], which checks the constraints the schema puts on
      what the caller supplies, and [run_learning_session], whose recovery
      path writes state: there the operations that raise are a parameter
      of the run.
    - A module is loaded by executing it.  A [def] statement evaluates the
      annotations of its signature when it runs (Python up to 3.13; no
      module of the repository defers them), so a name an annotation uses
      without the module binding it raises [NameError] at import.  The
      functions of a module are given as their bodies run once the module
      is loaded; a name a body uses without the module binding it raises
      [NameError] when the body runs.
    - In the runner, [_run_knowledge_expansion] and
      [_run_comprehensive_analysis] are parameters; [LearningService.run]
      is the runner with the handlers of the service. *)

From Stdlib Require Import List String Ascii Bool Arith ZArith QArith Qminmax.
From Stdlib Require Import Lia Lqa Sorted DecimalString.
From Corelib Require PrimFloat.
Import ListNotations.

Local Open Scope string_scope.
Local Open Scope Z_scope.

(** ** Fragments of the Python runtime *)

Module Py.

(** The exceptions the services can meet. *)
Inductive exn : Type :=
| NameError (name : string)
| AttributeError (cls attr : string)
| TypeError (msg : string)
| ValueError (msg : string)
| StoreError (msg : string).

(** [str(e)] *)
Definition str_of_exn (e : exn) : string :=
  match e with
  | NameError n => "name '" ++ n ++ "' is not defined"
  | AttributeError c a => "'" ++ c ++ "' object has no attribute '" ++ a ++ "'"
  | TypeError m => m
  | ValueError m => m
  | StoreError m => m
  end.

Inductive outcome (A : Type) : Type :=
| Ok (a : A)
| Raise (e : exn).
Arguments Ok {A} a.
Arguments Raise {A} e.

Definition bind {A B} (m : outcome A) (k : A -> outcome B) : outcome B :=
  match m with
  | Ok a => k a
  | Raise e => Raise e
  end.

(** Looking a name up in the globals of a module: the names the module
    imports or defines.  A name that is not bound raises [NameError]. *)
Definition load_global (globals : list string) (name : string) : outcome unit :=
  if existsb (String.eqb name) globals then Ok tt else Raise (NameError name).

(** Looking a method up on an instance of a class, given the methods the
    class defines. *)
Definition getattr (cls : string) (methods : list string) (name : string)
  : outcome unit :=
  if existsb (String.eqb name) methods then Ok tt
  else Raise (AttributeError cls name).

(** The names of the built-in namespace that signatures use. *)
Definition builtins : list string :=
  ["str"; "int"; "float"; "bool"; "list"; "dict"; "None"].

(** Evaluating names in order, as the annotations of the signatures of a
    class body are: the first name that is neither bound in the module nor
    built in raises. *)
Fixpoint eval_names (globals names : list string) : outcome unit :=
  match names with
  | [] => Ok tt
  | name :: tl =>
      bind (load_global (globals ++ builtins)%list name)
           (fun _ => eval_names globals tl)
  end.

(** A value that names a row: a [str], as a caller of the API passes it, or
    the [UUID] object the driver returns for a column of type UUID.  Both
    are accepted where a statement binds a parameter. *)
Inductive rowkey : Type :=
| Str (s : string)
| UUID (s : string).

Definition rowkey_text (k : rowkey) : string :=
  match k with
  | Str s => s
  | UUID s => s
  end.

(** [d.get(key, default)] on a dict whose key may be absent. *)
Definition dict_get {A} (v : option A) (default : A) : A :=
  match v with
  | Some a => a
  | None => default
  end.

(** *** Numbers *)

Definition Qltb (x y : Q) : bool := negb (Qle_bool y x).

(** [max(a, b)]: the first argument unless the second is greater. *)
Definition max (a b : Q) : Q := if Qltb a b then b else a.

(** [min(a, b)]: the first argument unless the second is smaller. *)
Definition min (a b : Q) : Q := if Qltb b a then b else a.

(** [sum(l)] *)
Definition sum (l : list Q) : Q := fold_left Qplus l 0%Q.

(** [l[-n:]] *)
Definition last_n {A} (n : nat) (l : list A) : list A :=
  skipn (List.length l - n) l.

(** *** Strings *)

Definition is_continuation (c : ascii) : bool :=
  let n := nat_of_ascii c in (128 <=? n)%nat && (n <=? 191)%nat.

(** [len(s)] for a [str]: the number of code points. *)
Fixpoint len (s : string) : nat :=
  match s with
  | EmptyString => O
  | String c s' => ((if is_continuation c then 0 else 1) + len s')%nat
  end.

Definition lower_ascii (c : ascii) : ascii :=
  let n := nat_of_ascii c in
  if (65 <=? n)%nat && (n <=? 90)%nat then ascii_of_nat (n + 32) else c.

(** The second byte of a two-byte sequence starting with C3 encodes
    U+00C0..U+00FF; the capitals are U+00C0..U+00DE without U+00D7. *)
Definition is_latin1_upper (c : ascii) : bool :=
  let n := nat_of_ascii c in
  (128 <=? n)%nat && (n <=? 158)%nat && negb (n =? 151)%nat.

(** [s.lower()]; code points outside Basic Latin and Latin-1 are kept. *)
Fixpoint lower (s : string) : string :=
  match s with
  | EmptyString => EmptyString
  | String c1 tl =>
      match tl with
      | String c2 rest =>
          if (nat_of_ascii c1 =? 195)%nat && is_latin1_upper c2
          then String c1 (String (ascii_of_nat (nat_of_ascii c2 + 32)) (lower rest))
          else String (lower_ascii c1) (lower tl)
      | EmptyString => String (lower_ascii c1) EmptyString
      end
  end.

(** [needle in hay] *)
Fixpoint contains (needle hay : string) : bool :=
  match hay with
  | EmptyString => String.prefix needle EmptyString
  | String _ hay' => String.prefix needle hay || contains needle hay'
  end.

(** [any(word in s for word in words)] *)
Definition any_in (words : list string) (s : string) : bool :=
  existsb (fun w => contains w s) words.

(** [sep.join(l)] *)
Fixpoint join (sep : string) (l : list string) : string :=
  match l with
  | [] => ""
  | [x] => x
  | x :: tl => x ++ sep ++ join sep tl
  end.

(** The separators of [s.split()] within Basic Latin. *)
Definition is_space (c : ascii) : bool :=
  let n := nat_of_ascii c in
  (n =? 32)%nat || ((9 <=? n)%nat && (n <=? 13)%nat)
  || ((28 <=? n)%nat && (n <=? 31)%nat).

(** [len(s.split())]: [in_word] tells whether the previous character
    belonged to a word. *)
Fixpoint count_words (in_word : bool) (s : string) : nat :=
  match s with
  | EmptyString => O
  | String c s' =>
      if is_space c then count_words false s'
      else ((if in_word then 0 else 1) + count_words true s')%nat
  end.

Definition word_count (s : string) : nat := count_words false s.

(** Truth value of an optional string: [None] and [""] are false. *)
Definition truthy (s : option string) : bool :=
  match s with
  | Some (String _ _) => true
  | _ => false
  end.

End Py.

(** ** The relational store *)

Module Store.

(** JSON values, as stored in JSONB columns and returned by handlers.
    [json.dumps] of a value is the value itself. *)
#[warnings="-register-all"]
Inductive json : Type :=
| JNull
| JBool (b : bool)
| JInt (z : Z)
| JNum (q : Q)
| JStr (s : string)
| JList (l : list json)
| JDict (d : list (string * json)).

(** A Python dict with string keys, in insertion order. *)
Definition dict : Type := list (string * json).

(** [json.dumps] of a value that holds a row key: the encoder has no
    case for a [UUID] object. *)
Definition dumps_rowkey (k : Py.rowkey) : Py.outcome json :=
  match k with
  | Py.Str s => Py.Ok (JStr s)
  | Py.UUID _ =>
      Py.Raise (Py.TypeError "Object of type UUID is not JSON serializable")
  end.

(** [key in d] *)
Definition has_key (key : string) (d : dict) : bool :=
  existsb (fun kv => String.eqb key (fst kv)) d.

(** [d[key]], when the key is present. *)
Fixpoint lookup (key : string) (d : dict) : option json :=
  match d with
  | [] => None
  | (k, v) :: tl => if String.eqb key k then Some v else lookup key tl
  end.

(** JSONB concatenation [a || b]: the keys of [b] replace those of [a]. *)
Definition jsonb_concat (a b : dict) : dict :=
  (filter (fun kv => negb (has_key (fst kv) b)) a ++ b)%list.

(** Status of a learning session: the four values the code writes. *)
Inductive Status : Type := pending | running | completed | failed.

Definition Status_eqb (a b : Status) : bool :=
  match a, b with
  | pending, pending | running, running
  | completed, completed | failed, failed => true
  | _, _ => false
  end.

Record Feedback : Type := mkFeedback {
  f_id : string;
  f_message_id : string;
  f_user_id : option string;
  f_conversation_id : string;
  rating : Z;
  comment : option string;
  feedback_type : string;
  processed : bool;
  f_created_at : Z
}.

Record Message : Type := mkMessage {
  m_id : string;
  m_conversation_id : string;
  sender : string;
  content : string;
  m_timestamp : Z;
  m_metadata : dict
}.

Record KnowledgeItem : Type := mkKnowledgeItem {
  k_id : string;
  title : string;
  k_content : string;
  category : option string;
  tags : list string;
  source : string;
  confidence_score : Q;
  usage_count : Z;
  last_used_at : option Z;
  k_created_at : Z;
  k_updated_at : Z;
  chromadb_id : string;
  k_metadata : dict
}.

Record Metric : Type := mkMetric {
  metric_name : string;
  metric_value : Q;
  metric_type : string;
  labels : dict;
  timestamp : Z;
  context : dict
}.

Record LearningSession : Type := mkLearningSession {
  ls_id : string;
  session_type : string;
  status : Status;
  input_data : option json;
  output_data : option json;
  started_at : Z;
  completed_at : option Z;
  error_message : option string
}.

(** The tables the pipeline reads and writes. *)
Record t : Type := mkStore {
  feedback : list Feedback;
  messages : list Message;
  knowledge_base : list KnowledgeItem;
  performance_metrics : list Metric;
  learning_sessions : list LearningSession
}.

Definition set_messages (f : list Message -> list Message) (s : t) : t :=
  mkStore (feedback s) (f (messages s)) (knowledge_base s)
          (performance_metrics s) (learning_sessions s).

Definition set_knowledge_base
  (f : list KnowledgeItem -> list KnowledgeItem) (s : t) : t :=
  mkStore (feedback s) (messages s) (f (knowledge_base s))
          (performance_metrics s) (learning_sessions s).

Definition set_performance_metrics (f : list Metric -> list Metric) (s : t) : t :=
  mkStore (feedback s) (messages s) (knowledge_base s)
          (f (performance_metrics s)) (learning_sessions s).

Definition set_learning_sessions
  (f : list LearningSession -> list LearningSession) (s : t) : t :=
  mkStore (feedback s) (messages s) (knowledge_base s)
          (performance_metrics s) (f (learning_sessions s)).

(** [UPDATE learning_sessions SET ... WHERE id = :session_id] *)
Definition update_session (id : string) (f : LearningSession -> LearningSession)
  (s : t) : t :=
  set_learning_sessions
    (map (fun r => if String.eqb (ls_id r) id then f r else r)) s.

(** [SELECT ... FROM learning_sessions WHERE id = :session_id] *)
Definition find_session (id : string) (s : t) : option LearningSession :=
  find (fun r => String.eqb (ls_id r) id) (learning_sessions s).

(** An [AsyncSession]: the committed store and the working copy that the
    statements of the open transaction have produced. *)
Record Session : Type := mkSession {
  committed : t;
  working : t
}.

(** [session_factory()] *)
Definition open (s : t) : Session := mkSession s s.

(** [session.execute] of a writing statement *)
Definition execute (f : t -> t) (s : Session) : Session :=
  mkSession (committed s) (f (working s)).

(** [session.commit()] *)
Definition commit (s : Session) : Session :=
  mkSession (working s) (working s).

(** [session.rollback()] *)
Definition rollback (s : Session) : Session :=
  mkSession (committed s) (committed s).

(** Leaving [async with ... as session]: what was not committed is lost. *)
Definition close (s : Session) : t := committed s.

Definition seconds_per_day : Z := 86400.

(** [DATE(ts)] *)
Definition DATE (ts : Z) : Z := ts / seconds_per_day.

(** [CURRENT_DATE - INTERVAL 'n days'], as a timestamp *)
Definition current_date_minus (now days : Z) : Z :=
  (DATE now - days) * seconds_per_day.

(** [datetime.now() - timedelta(days=n)] *)
Definition now_minus_days (now days : Z) : Z :=
  now - days * seconds_per_day.

End Store.

(** ** knowledge_service.py *)

Module KnowledgeService.
Import Py Store.

(** The names bound in the module: its imports and its class. *)
Definition globals : list string :=
  ["uuid"; "json"; "Optional"; "List"; "Dict"; "Any"; "AsyncSession";
   "text"; "datetime"; "logger"; "KnowledgeService"].

(** The names the annotations of the class body evaluate, signature by
    signature. *)
Definition annotations : list string :=
  ["AsyncSession"; "str"; "str"; "Optional"; "str"; "Optional"; "List"; "str";
   "str"; "float"; "str";
   "AsyncSession"; "str"; "Optional"; "Dict"; "str"; "Any";
   "str"; "int"; "Optional"; "str"; "str";
   "AsyncSession"; "Dict"; "str"; "Any";
   "AsyncSession"; "Dict"; "str"; "Any";
   "AsyncSession"; "int"].

(** Executing knowledge_service.py. *)
Definition import_module : outcome unit := eval_names globals annotations.

(** [add_knowledge_item]: INSERT INTO knowledge_base, then commit; returns
    the new id.  [knowledge_id] and [chromadb] are the two uuid4 draws;
    the columns the statement leaves out take their defaults. *)
Definition add_knowledge_item (knowledge_id chromadb : string) (now : Z)
  (db_session : Session) (title content : string) (category : option string)
  (tags : list string) (source : string) (confidence_score : Q)
  : Session * string :=
  let row :=
    mkKnowledgeItem knowledge_id title content category tags source
      confidence_score 0 None now now chromadb
      [("created_by", JStr "system");
       ("content_length", JInt (Z.of_nat (len content)));
       ("word_count", JInt (Z.of_nat (word_count content)))] in
  (commit (execute (set_knowledge_base (fun kb => (kb ++ [row])%list)) db_session),
   knowledge_id).

(** The WHERE clause of the retention sweep. *)
Definition sweep_selects (cutoff_date : Z) (k : KnowledgeItem) : bool :=
  match last_used_at k with
  | None => true
  | Some t => t <? cutoff_date
  end
  && (usage_count k <? 5)
  && Qltb (Store.confidence_score k) (5 # 10)
  && negb (String.eqb (Store.source k) "admin_input").

(** [DELETE FROM knowledge_base WHERE id IN (...)] *)
Definition delete_ids (ids : list string) (s : Store.t) : Store.t :=
  set_knowledge_base
    (filter (fun k => negb (existsb (String.eqb (k_id k)) ids))) s.

(** The body of [cleanup_old_knowledge] inside its [try], for a module
    whose globals are [g]. *)
Definition cleanup_body (g : list string) (db_session : Session)
  (now days_threshold : Z) : outcome Session :=
  bind (load_global g "datetime") (fun _ =>
  bind (load_global g "timedelta") (fun _ =>
    let cutoff_date := now_minus_days now days_threshold in
    let items_to_remove :=
      filter (sweep_selects cutoff_date) (knowledge_base (working db_session)) in
    match items_to_remove with
    | [] => Ok db_session
    | _ :: _ =>
        let item_ids := map k_id items_to_remove in
        Ok (commit (execute (delete_ids item_ids) db_session))
    end)).

(** [cleanup_old_knowledge] with its handler: on any exception the
    session is rolled back and the error is logged. *)
Definition cleanup_old_knowledge_in (g : list string) (db_session : Session)
  (now days_threshold : Z) : Session :=
  match cleanup_body g db_session now days_threshold with
  | Ok s => s
  | Raise _ => rollback db_session
  end.

Definition cleanup_old_knowledge : Session -> Z -> Z -> Session :=
  cleanup_old_knowledge_in globals.

Definition default_days_threshold : Z := 90.

(** [category], [last_used_at]: a NULL column is [None] *)
Definition json_of_option {A} (f : A -> json) (v : option A) : json :=
  match v with
  | Some a => f a
  | None => JNull
  end.

(** The dict [get_knowledge_item] builds from the row it selected (the
    [isoformat] rendering of a timestamp is kept as the timestamp). *)
Definition item_dict (k : KnowledgeItem) : dict :=
  [("id", JStr (k_id k));
   ("title", JStr (title k));
   ("content", JStr (k_content k));
   ("category", json_of_option JStr (category k));
   ("tags", JList (map JStr (tags k)));
   ("source", JStr (Store.source k));
   ("confidence_score",
    if Qeq_bool (Store.confidence_score k) 0 then JInt 0
    else JNum (Store.confidence_score k));
   ("usage_count", JInt (usage_count k));
   ("last_used_at", json_of_option JInt (last_used_at k));
   ("created_at", JInt (k_created_at k));
   ("updated_at", JInt (k_updated_at k));
   ("metadata", JDict (k_metadata k))].

(** [SET usage_count = usage_count + 1, last_used_at = CURRENT_TIMESTAMP] *)
Definition touch (now : Z) (k : KnowledgeItem) : KnowledgeItem :=
  mkKnowledgeItem (k_id k) (title k) (k_content k) (category k) (tags k)
    (Store.source k) (Store.confidence_score k) (usage_count k + 1) (Some now)
    (k_created_at k) (k_updated_at k) (chromadb_id k) (k_metadata k).

(** [get_knowledge_item]: the row is selected, then its usage is counted
    and committed; the dict returned is built from the row as selected. *)
Definition get_knowledge_item (now : Z) (db_session : Session)
  (knowledge_id : string) : Session * option dict :=
  match find (fun k => String.eqb (k_id k) knowledge_id)
             (knowledge_base (working db_session)) with
  | None => (db_session, None)
  | Some row =>
      (commit (execute
         (set_knowledge_base
            (map (fun k => if String.eqb (k_id k) knowledge_id
                           then touch now k else k)))
         db_session),
       Some (item_dict row))
  end.

(** The [feedback_data] dict of [update_knowledge_from_feedback]: a key
    that is absent is [None]. *)
Record FeedbackData : Type := mkFeedbackData {
  fd_rating : option Z;
  fd_comment : option string
}.

(** [update_knowledge_from_feedback] *)
Definition update_knowledge_from_feedback (knowledge_id chromadb : string)
  (now : Z) (db_session : Session) (feedback_data : FeedbackData) : Session :=
  if (4 <=? dict_get (fd_rating feedback_data) 0)
     && truthy (fd_comment feedback_data) then
    let comment := dict_get (fd_comment feedback_data) "" in
    if (50 <? len comment)%nat then
      fst (add_knowledge_item knowledge_id chromadb now db_session
             "Conhecimento extraído de feedback positivo" comment
             (Some "feedback_derived") [] "user_feedback" (8 # 10))
    else db_session
  else db_session.

End KnowledgeService.

(** ** metrics_service.py *)

Module MetricsService.
Import Py Store.

(** The methods class [MetricsService] defines.  There is no
    [record_system_metric] among them. *)
Definition methods : list string :=
  ["__init__"; "record_metric"; "get_system_metrics";
   "_get_system_resource_metrics"; "get_performance_trends";
   "cleanup_old_metrics"].

(** The names bound when the class statement of metrics_service.py runs:
    the imports of the module.  [Optional] is not among them. *)
Definition globals : list string :=
  ["json"; "psutil"; "Dict"; "Any"; "List"; "AsyncSession"; "text";
   "datetime"; "timedelta"; "logger"].

(** The names the annotations of the class body evaluate, signature by
    signature; the first signature is that of [record_metric], with
    [labels: Optional[Dict[str, str]]]. *)
Definition annotations : list string :=
  ["AsyncSession"; "str"; "float"; "str"; "Optional"; "Dict"; "str"; "str";
   "Optional"; "Dict"; "str"; "Any";
   "AsyncSession"; "Dict"; "str"; "Any";
   "Dict"; "str"; "Any";
   "AsyncSession"; "int"; "Dict"; "str"; "List"; "Dict"; "str"; "Any";
   "AsyncSession"].

(** Executing metrics_service.py: the class statement raises when the
    signature of [record_metric] is evaluated. *)
Definition import_module : outcome unit := eval_names globals annotations.

(** [record_metric], as its body runs in a module whose class statement
    has completed: INSERT INTO performance_metrics, then commit. *)
Definition record_metric (now : Z) (db_session : Session)
  (metric_name : string) (metric_value : Q) (metric_type : string)
  (labels context : dict) : Session :=
  let row := mkMetric metric_name metric_value metric_type labels now context in
  commit (execute (set_performance_metrics (fun ms => (ms ++ [row])%list)) db_session).

(** Insertion of a day into an ascending list without duplicates. *)
Fixpoint insert_day (d : Z) (l : list Z) : list Z :=
  match l with
  | [] => [d]
  | x :: tl =>
      if d <? x then d :: l
      else if d =? x then l
      else x :: insert_day d tl
  end.

(** The groups of [GROUP BY DATE(ts) ORDER BY date]: the distinct days of
    the rows, ascending. *)
Definition days_of (stamps : list Z) : list Z :=
  fold_right insert_day [] (map DATE stamps).

(** [AVG(x)] over a non-empty group *)
Definition AVG (xs : list Q) : Q :=
  (Py.sum xs / inject_Z (Z.of_nat (List.length xs)))%Q.

(** [float(v) if v else 0] *)
Definition float_or_zero (v : Q) : Q :=
  if Qeq_bool v 0 then 0%Q else v.

Record ResponseTimePoint : Type := mkResponseTimePoint {
  rt_date : Z;
  avg_response_time : Q;
  sample_count : Z
}.

Record SatisfactionPoint : Type := mkSatisfactionPoint {
  sat_date : Z;
  avg_rating : Q;
  feedback_count : Z
}.

Record Trends : Type := mkTrends {
  response_time : list ResponseTimePoint;
  user_satisfaction : list SatisfactionPoint
}.

(** [get_performance_trends]: the two daily series since
    [datetime.now() - timedelta(days)], ordered by date. *)
Definition get_performance_trends (db_session : Session) (now days : Z)
  : Trends :=
  let since_date := now_minus_days now days in
  let ms :=
    filter (fun m => String.eqb (metric_name m) "response_time"
                     && (since_date <=? timestamp m))
           (performance_metrics (working db_session)) in
  let fs :=
    filter (fun f => since_date <=? f_created_at f)
           (Store.feedback (working db_session)) in
  mkTrends
    (map (fun d =>
            let grp := filter (fun m => DATE (timestamp m) =? d) ms in
            mkResponseTimePoint d
              (float_or_zero (AVG (map metric_value grp)))
              (Z.of_nat (List.length grp)))
         (days_of (map timestamp ms)))
    (map (fun d =>
            let grp := filter (fun f => DATE (f_created_at f) =? d) fs in
            mkSatisfactionPoint d
              (float_or_zero (AVG (map (fun f => inject_Z (rating f)) grp)))
              (Z.of_nat (List.length grp)))
         (days_of (map f_created_at fs))).

(** [self.metrics_retention_days] *)
Definition metrics_retention_days : Z := 30.

(** [cleanup_old_metrics]: DELETE the metrics older than the retention,
    then commit. *)
Definition cleanup_old_metrics (now : Z) (db_session : Session) : Session :=
  let cutoff_date := now_minus_days now metrics_retention_days in
  commit (execute
    (set_performance_metrics
       (filter (fun m => negb (timestamp m <? cutoff_date))))
    db_session).

End MetricsService.

(** ** ai_service.py *)

Module AIService.
Import Py.

(** [self.model_config] *)
Record ModelConfig : Type := mkModelConfig {
  temperature : Q;
  max_tokens : Z;
  top_p : Q;
  frequency_penalty : Q;
  presence_penalty : Q
}.

(** The configuration [__init__] installs. *)
Definition initial_model_config : ModelConfig :=
  mkModelConfig (7 # 10) 2048 (9 # 10) 0 0.

Definition set_temperature (v : Q) (c : ModelConfig) : ModelConfig :=
  mkModelConfig v (max_tokens c) (top_p c) (frequency_penalty c)
                (presence_penalty c).

Definition set_top_p (v : Q) (c : ModelConfig) : ModelConfig :=
  mkModelConfig (temperature c) (max_tokens c) v (frequency_penalty c)
                (presence_penalty c).

Definition set_frequency_penalty (v : Q) (c : ModelConfig) : ModelConfig :=
  mkModelConfig (temperature c) (max_tokens c) (top_p c) v
                (presence_penalty c).

(** The [feedback_analysis] dict: a key that is absent is [None]. *)
Record FeedbackAnalysis : Type := mkFeedbackAnalysis {
  average_rating : option Q;
  total_feedback : option Z;
  negative_feedback_rate : option Q;
  optimization_type : option string
}.

(** [optimize_model_parameters]: the new value of [self.model_config]. *)
Definition optimize_model_parameters (feedback_analysis : FeedbackAnalysis)
  (model_config : ModelConfig) : ModelConfig :=
  let avg_rating := dict_get (average_rating feedback_analysis) 3%Q in
  let feedback_count := dict_get (total_feedback feedback_analysis) 0 in
  let c1 :=
    if Qltb avg_rating 3 && (10 <=? feedback_count) then
      set_temperature
        (Py.max (3 # 10) (temperature model_config - (1 # 10))) model_config
    else if Qltb 4 avg_rating && (10 <=? feedback_count) then
      set_temperature
        (Py.min (9 # 10) (temperature model_config + (1 # 10))) model_config
    else model_config in
  let negative_feedback_rate :=
    dict_get (negative_feedback_rate feedback_analysis) 0%Q in
  if Qltb (3 # 10) negative_feedback_rate then
    let c2 := set_top_p (Py.max (7 # 10) (top_p c1 - (1 # 10))) c1 in
    set_frequency_penalty
      (Py.min 1 (frequency_penalty c2 + (1 # 10))) c2
  else c1.

(** The safety bounds of the configuration. *)
Definition within_bounds (c : ModelConfig) : Prop :=
  ((3 # 10) <= temperature c /\ temperature c <= (9 # 10)
   /\ (7 # 10) <= top_p c /\ frequency_penalty c <= 1)%Q.

(** [self.performance_metrics] *)
Record PerformanceMetrics : Type := mkPerformanceMetrics {
  total_requests : Z;
  average_response_time : Q;
  success_rate : Q;
  error_count : Z
}.

(** The counters [__init__] installs. *)
Definition initial_performance_metrics : PerformanceMetrics :=
  mkPerformanceMetrics 0 0 0 0.

(** [_update_performance_metrics] *)
Definition _update_performance_metrics (response_time : Q) (success : bool)
  (m : PerformanceMetrics) : PerformanceMetrics :=
  let total_requests := total_requests m + 1 in
  if success then
    let current_avg := average_response_time m in
    let new_avg :=
      (((current_avg * inject_Z (total_requests - 1)) + response_time)
       / inject_Z total_requests)%Q in
    let success_count := total_requests - error_count m in
    mkPerformanceMetrics total_requests new_avg
      (inject_Z success_count / inject_Z total_requests)%Q (error_count m)
  else
    let error_count := error_count m + 1 in
    let success_count := total_requests - error_count in
    mkPerformanceMetrics total_requests (average_response_time m)
      (inject_Z success_count / inject_Z total_requests)%Q error_count.

(** How a generation ends: with its response time, or with an exception. *)
Inductive generation : Type :=
| answered (response_time : Q)
| raised.

(** The call [generate_response] and [generate_response_stream] make when
    a generation ends. *)
Definition account (m : PerformanceMetrics) (g : generation)
  : PerformanceMetrics :=
  match g with
  | answered response_time => _update_performance_metrics response_time true m
  | raised => _update_performance_metrics 0 false m
  end.

(** The counters after a sequence of generations. *)
Definition after_generations (gs : list generation) : PerformanceMetrics :=
  fold_left account gs initial_performance_metrics.

End AIService.

(** The two temperature steps of [optimize_model_parameters] on binary64
    floats, as Python computes them: a check of the rational model against
    the floats on the numbers of the scenarios. *)

Module Binary64.
Import PrimFloat.

#[warnings="-inexact-float"]
Definition conservative_step (t : float) : float :=
  let a := 0.3%float in
  let b := sub t 0.1%float in
  if ltb a b then b else a.

#[warnings="-inexact-float"]
Definition creative_step (t : float) : float :=
  let a := 0.9%float in
  let b := add t 0.1%float in
  if ltb b a then b else a.

#[warnings="-inexact-float"]
Definition initial_temperature : float := 0.7%float.

#[warnings="-inexact-float"]
Definition bounds : float * float := (0.3%float, 0.9%float).

#[warnings="-inexact-float"]
Definition six_tenths : float := 0.6%float.

End Binary64.

(** ** feedback_service.py *)

Module FeedbackService.
Import Py Store.

(** The names bound in the module.  [json] is not among them. *)
Definition globals : list string :=
  ["uuid"; "Optional"; "List"; "Dict"; "Any"; "AsyncSession"; "text";
   "select"; "func"; "datetime"; "timedelta"; "logger"; "FeedbackService"].

(** The names the annotations of the class body evaluate, signature by
    signature. *)
Definition annotations : list string :=
  ["AsyncSession"; "str"; "Optional"; "str"; "int"; "Optional"; "str"; "str";
   "str";
   "AsyncSession"; "str";
   "AsyncSession"; "str";
   "AsyncSession"; "int"; "Dict"; "str"; "Any";
   "AsyncSession"; "List"; "str";
   "AsyncSession"; "List"; "str"].

(** Executing feedback_service.py. *)
Definition import_module : outcome unit := eval_names globals annotations.

Definition feedback_threshold : Z := 3.

(** [SELECT COUNT( * ) FROM feedback WHERE message_id = :message_id] *)
Definition feedback_count (message_id : string) (s : Store.t) : Z :=
  Z.of_nat (List.length
    (filter (fun f => String.eqb (f_message_id f) message_id) (Store.feedback s))).

(** [_trigger_learning_session], for a module whose globals are [g]:
    the arguments of [execute] are evaluated before the statement runs. *)
Definition _trigger_learning_session_in (g : list string)
  (session_id : string) (now : Z) (db_session : Session)
  (message_id : string) : Session :=
  match
    bind (load_global g "uuid") (fun _ =>
    bind (load_global g "text") (fun _ =>
    bind (load_global g "json") (fun _ =>
      let row :=
        mkLearningSession session_id "feedback_analysis" pending
          (Some (JDict [("message_id", JStr message_id)]))
          None now None None in
      Ok (commit (execute
            (set_learning_sessions (fun l => (l ++ [row])%list)) db_session)))))
  with
  | Ok s => s
  | Raise _ => db_session
  end.

Definition _check_learning_trigger_in (g : list string)
  (session_id : string) (now : Z) (db_session : Session)
  (message_id : string) : Session :=
  if feedback_threshold <=? feedback_count message_id (working db_session)
  then _trigger_learning_session_in g session_id now db_session message_id
  else db_session.

Definition _check_learning_trigger :=
  _check_learning_trigger_in globals.

(** The constraints the schema puts on what the caller of
    [save_feedback] supplies for a row of [feedback]:
    [rating INTEGER CHECK (rating >= 1 AND rating <= 5)],
    [user_id UUID REFERENCES users(id)] (NULL is accepted) and
    [feedback_type VARCHAR(50)].  [users] holds the ids of the table
    [users].  The first constraint that fails is the error of the INSERT. *)
Definition insert_feedback_error (users : list string)
  (user_id : option string) (rating : Z) (feedback_type : string)
  : option exn :=
  if negb ((1 <=? rating) && (rating <=? 5)) then
    Some (StoreError "violates check constraint feedback_rating_check")
  else if match user_id with
          | None => false
          | Some u => negb (existsb (String.eqb u) users)
          end then
    Some (StoreError "violates foreign key constraint feedback_user_id_fkey")
  else if (50 <? len feedback_type)%nat then
    Some (StoreError "value too long for type character varying(50)")
  else None.

(** [save_feedback]: [feedback_id] and [session_id] are the uuid4 draws,
    [users] the ids of the table [users].  An INSERT that the schema
    refuses raises; the handler rolls back and raises again. *)
Definition save_feedback (feedback_id session_id : string) (now : Z)
  (users : list string) (db_session : Session) (message_id : string)
  (user_id : option string) (rating : Z) (comment : option string)
  (feedback_type : string) : Session * outcome string :=
  match find (fun m => String.eqb (m_id m) message_id)
             (messages (working db_session)) with
  | None =>
      (rollback db_session,
       Raise (ValueError ("Mensagem " ++ message_id ++ " não encontrada")))
  | Some m =>
      match insert_feedback_error users user_id rating feedback_type with
      | Some err => (rollback db_session, Raise err)
      | None =>
          let row :=
            mkFeedback feedback_id message_id user_id (m_conversation_id m)
              rating comment feedback_type false now in
          let s1 :=
            commit (execute
              (fun st => mkStore (Store.feedback st ++ [row])%list
                 (messages st) (knowledge_base st) (performance_metrics st)
                 (learning_sessions st)) db_session) in
          (_check_learning_trigger session_id now s1 message_id,
           Ok feedback_id)
      end
  end.

(** [SET processed = true] *)
Definition set_processed (f : Feedback) : Feedback :=
  mkFeedback (f_id f) (f_message_id f) (f_user_id f) (f_conversation_id f)
    (rating f) (comment f) (feedback_type f) true (f_created_at f).

(** [mark_feedback_processed]: nothing for an empty list; otherwise UPDATE
    feedback SET processed = true WHERE id IN (...), then commit. *)
Definition mark_feedback_processed (db_session : Session)
  (feedback_ids : list string) : Session :=
  match feedback_ids with
  | [] => db_session
  | _ :: _ =>
      commit (execute
        (fun st =>
           mkStore
             (map (fun f => if existsb (String.eqb (f_id f)) feedback_ids
                            then set_processed f else f)
                  (Store.feedback st))
             (messages st) (knowledge_base st) (performance_metrics st)
             (learning_sessions st))
        db_session)
  end.

End FeedbackService.

(** ** learning_service.py *)

Module LearningService.
Import Py Store.

Definition feedback_threshold : Z := 3.

(** [self.learning_metrics] *)
Record LearningMetrics : Type := mkLearningMetrics {
  total_sessions : Z;
  successful_optimizations : Z;
  knowledge_items_created : Z;
  model_adjustments : Z
}.

(** The in-memory state reachable from the service: its counters and the
    configuration of the [ai_service] it was constructed with. *)
Record Service : Type := mkService {
  learning_metrics : LearningMetrics;
  model_config : AIService.ModelConfig
}.

Definition incr_total_sessions (v : Service) : Service :=
  let m := learning_metrics v in
  mkService (mkLearningMetrics (total_sessions m + 1)
               (successful_optimizations m) (knowledge_items_created m)
               (model_adjustments m)) (model_config v).

Definition incr_successful_optimizations (v : Service) : Service :=
  let m := learning_metrics v in
  mkService (mkLearningMetrics (total_sessions m)
               (successful_optimizations m + 1) (knowledge_items_created m)
               (model_adjustments m)) (model_config v).

Definition incr_knowledge_items_created (v : Service) : Service :=
  let m := learning_metrics v in
  mkService (mkLearningMetrics (total_sessions m)
               (successful_optimizations m) (knowledge_items_created m + 1)
               (model_adjustments m)) (model_config v).

Definition incr_model_adjustments (v : Service) : Service :=
  let m := learning_metrics v in
  mkService (mkLearningMetrics (total_sessions m)
               (successful_optimizations m) (knowledge_items_created m)
               (model_adjustments m + 1)) (model_config v).

(** What one call draws from its environment: the clock, the rendering
    [strftime('%d/%m/%Y')] of today, and the uuid4 draws, indexed by the
    place of the call that makes them. *)
Record Env : Type := mkEnv {
  now : Z;
  today : string;
  uuid4 : nat -> string
}.

(** A method called as [obj.m(name, value, labels)] that writes through
    the store. *)
Definition bound_method : Type := string -> Q -> dict -> Session -> Session.

(** A type-specific handler of a learning session. *)
Definition handler : Type :=
  Env -> Service -> Session -> string -> Service * Session * dict.

(** [_process_positive_feedback] *)
Definition _process_positive_feedback (e : Env) (v : Service)
  (session : Session) (message_content : string) (comment : option string)
  (conversation_id : string) : Service * Session :=
  let '(v1, s1) :=
    if (100 <? len message_content)%nat then
      let '(s, _) :=
        KnowledgeService.add_knowledge_item (uuid4 e 0) (uuid4 e 1) (now e)
          session ("Resposta bem avaliada - " ++ today e) message_content
          (Some "respostas_positivas") [] "feedback_positivo" (9 # 10) in
      (incr_knowledge_items_created v, s)
    else (v, session) in
  if truthy comment && (20 <? len (dict_get comment ""))%nat then
    let '(s, _) :=
      KnowledgeService.add_knowledge_item (uuid4 e 2) (uuid4 e 3) (now e)
        s1 ("Insight do usuário - " ++ today e) (dict_get comment "")
        (Some "insights_usuarios") [] "comentario_positivo" (8 # 10) in
    (v1, s)
  else (v1, s1).

(** The improvement areas [_process_negative_feedback] identifies. *)
Definition improvement_areas (comment : option string) : list string :=
  if truthy comment then
    let comment_lower := lower (dict_get comment "") in
    ((if any_in ["lento"; "devagar"; "demora"] comment_lower
      then ["performance"] else [])
     ++ (if any_in ["errado"; "incorreto"; "impreciso"] comment_lower
         then ["accuracy"] else [])
     ++ (if any_in ["confuso"; "não entendi"; "vago"] comment_lower
         then ["clarity"] else [])
     ++ (if any_in ["incompleto"; "faltou"] comment_lower
         then ["completeness"] else []))%list
  else [].

(** The loop [for area in improvement_areas: await
    self.metrics_service.record_system_metric(...)] on a metrics service
    whose class defines [methods]; [record] is what the call does when the
    name resolves.  Returns the session reached and the exception that
    ended the loop, if any. *)
Fixpoint record_improvement_areas (methods : list string)
  (record : bound_method) (areas : list string) (conversation_id : string)
  (session : Session) : Session * option exn :=
  match areas with
  | [] => (session, None)
  | area :: tl =>
      match getattr "MetricsService" methods "record_system_metric" with
      | Raise err => (session, Some err)
      | Ok _ =>
          record_improvement_areas methods record tl conversation_id
            (record ("improvement_needed_" ++ area) 1%Q
               [("conversation_id", JStr conversation_id);
                ("source", JStr "negative_feedback")] session)
      end
  end.

(** [UPDATE messages SET metadata = metadata || :flag WHERE id = (SELECT
    message_id FROM feedback WHERE conversation_id = :conv_id)].  The
    scalar subquery fails on more than one row (the state of the
    transaction after that error is not tracked); the statement is not
    committed here. *)
Definition flag_for_review (areas : list string) (conversation_id : string)
  (session : Session) : Session * option exn :=
  let flag :=
    [("needs_review", JBool true);
     ("improvement_areas", JList (map JStr areas))] in
  match filter (fun f => String.eqb (f_conversation_id f) conversation_id)
               (Store.feedback (working session)) with
  | [] => (session, None)
  | [f] =>
      (execute (set_messages (map (fun msg =>
         if String.eqb (m_id msg) (f_message_id f)
         then mkMessage (m_id msg) (m_conversation_id msg) (sender msg)
                (content msg) (m_timestamp msg)
                (jsonb_concat (m_metadata msg) flag)
         else msg))) session, None)
  | _ :: _ :: _ =>
      (session,
       Some (StoreError
               "more than one row returned by a subquery used as an expression"))
  end.

(** [_process_negative_feedback] *)
Definition _process_negative_feedback (methods : list string)
  (record : bound_method) (session : Session) (message_content : string)
  (comment : option string) (conversation_id : string) : Session :=
  let areas := improvement_areas comment in
  match record_improvement_areas methods record areas conversation_id
          session with
  | (s1, Some _) => s1
  | (s1, None) => fst (flag_for_review areas conversation_id s1)
  end.

(** [AVG(rating)] over the selected rows: NULL when there is none. *)
Definition AVG_rating (rows : list Feedback) : option Q :=
  match rows with
  | [] => None
  | _ :: _ => Some (MetricsService.AVG (map (fun f => inject_Z (rating f)) rows))
  end.

(** [float(avg_rating) if avg_rating else 0] *)
Definition float_or_0 (avg_rating : option Q) : json :=
  match avg_rating with
  | None => JInt 0
  | Some q => if Qeq_bool q 0 then JInt 0 else JNum q
  end.

Definition message_feedback (message_id : string) (s : Store.t)
  : list Feedback :=
  filter (fun f => String.eqb (f_message_id f) message_id) (Store.feedback s).

(** [_check_model_optimization_trigger]: the session after it and the
    tasks handed to [asyncio.create_task], as (session id, type).  The
    parameters of the INSERT are built before the statement runs:
    [json.dumps] of the dict that holds [message_id] raises on a [UUID]
    object, and the handler of the function logs the exception. *)
Definition _check_model_optimization_trigger (e : Env) (session : Session)
  (message_id : rowkey) : Session * list (string * string) :=
  let rows := message_feedback (rowkey_text message_id) (working session) in
  let count := Z.of_nat (List.length rows) in
  let avg_rating := AVG_rating rows in
  if feedback_threshold <=? count then
    let session_id := uuid4 e 4 in
    match dumps_rowkey message_id with
    | Raise _ => (session, [])
    | Ok trigger_message_id =>
        let row :=
          mkLearningSession session_id "model_optimization" pending
            (Some (JDict [("trigger_message_id", trigger_message_id);
                          ("feedback_count", JInt count);
                          ("avg_rating", float_or_0 avg_rating)]))
            None (now e) None None in
        (commit (execute (set_learning_sessions (fun l => (l ++ [row])%list))
                   session),
         [(session_id, "model_optimization")])
    end
  else (session, []).

(** [process_feedback_for_learning]: the service, the store after the
    session is closed, and the tasks created.  [message_id] is the value
    of the column [feedback.message_id] of the row read, a [UUID]. *)
Definition process_feedback_for_learning (methods : list string)
  (record : bound_method) (e : Env) (v : Service) (db : Store.t)
  (feedback_id : string) (rating : Z) (comment : option string)
  : Service * Store.t * list (string * string) :=
  let session := open db in
  match find (fun f => String.eqb (f_id f) feedback_id)
             (Store.feedback (working session)) with
  | None => (v, close session, [])
  | Some f =>
      match find (fun msg => String.eqb (m_id msg) (f_message_id f))
                 (messages (working session)) with
      | None => (v, close session, [])
      | Some msg =>
          let message_id := UUID (f_message_id f) in
          let conversation_id := f_conversation_id f in
          let message_content := content msg in
          let '(v1, s1) :=
            if 4 <=? rating then
              _process_positive_feedback e v session message_content
                comment conversation_id
            else if rating <=? 2 then
              (v, _process_negative_feedback methods record session
                    message_content comment conversation_id)
            else (v, session) in
          let '(s2, tasks) :=
            _check_model_optimization_trigger e s1 message_id in
          (v1, close s2, tasks)
      end
  end.

(** [_analyze_negative_patterns] *)
Definition _analyze_negative_patterns (comments : list string)
  : list string :=
  match comments with
  | [] => []
  | _ :: _ =>
      let all_comments := lower (join " " comments) in
      ((if any_in ["muito longo"; "extenso"; "prolixo"] all_comments
        then ["response_length"] else [])
       ++ (if any_in ["técnico"; "complexo"; "difícil"] all_comments
           then ["technical_complexity"] else [])
       ++ (if any_in ["impreciso"; "errado"; "incorreto"] all_comments
           then ["technical_accuracy"] else [])
       ++ (if any_in ["vago"; "genérico"; "superficial"] all_comments
           then ["response_depth"] else []))%list
  end.

(** The tags the loop over the patterns appends. *)
Definition pattern_optimizations (patterns : list string) : list string :=
  flat_map (fun pattern =>
    if String.eqb pattern "response_length"
    then ["response_length_adjustment"]
    else if String.eqb pattern "technical_accuracy"
    then ["technical_accuracy_improvement"]
    else []) patterns.

(** The rows of [WHERE created_at >= CURRENT_DATE - INTERVAL '7 days'] *)
Definition window_feedback (now : Z) (s : Store.t) : list Feedback :=
  filter (fun f => current_date_minus now 7 <=? f_created_at f)
         (Store.feedback s).

(** [x / total if total > 0 else 0] *)
Definition rate (x total : Z) : json :=
  if 0 <? total then JNum (inject_Z x / inject_Z total) else JInt 0.

(** [_run_model_optimization].  The aggregate query always returns one
    row; with no feedback in the window its average is NULL and the
    comparison [avg_rating < 3.0] raises [TypeError], which the handler
    turns into a result with an [error] key. *)
Definition _run_model_optimization (e : Env) (v : Service)
  (session : Session) (session_id : string) : Service * Session * dict :=
  let rows := window_feedback (now e) (working session) in
  let avg_rating := AVG_rating rows in
  let total_feedback := Z.of_nat (List.length rows) in
  let negative_feedback :=
    Z.of_nat (List.length (filter (fun f => rating f <=? 2) rows)) in
  let positive_feedback :=
    Z.of_nat (List.length (filter (fun f => 4 <=? rating f) rows)) in
  let analysis :=
    JDict [("avg_rating", float_or_0 avg_rating);
           ("total_feedback", JInt total_feedback);
           ("negative_rate", rate negative_feedback total_feedback);
           ("positive_rate", rate positive_feedback total_feedback)] in
  match avg_rating with
  | None =>
      (v, session,
       [("error", JStr (str_of_exn (TypeError
          "'<' not supported between instances of 'NoneType' and 'float'")))])
  | Some avg =>
      let tune (mode : string) :=
        incr_model_adjustments
          (mkService (learning_metrics v)
             (AIService.optimize_model_parameters
                (AIService.mkFeedbackAnalysis (Some avg) (Some total_feedback)
                   None (Some mode))
                (model_config v))) in
      let '(v1, applied) :=
        if Qltb avg 3 && (10 <=? total_feedback) then
          (tune "conservative", ["conservative_tuning"])
        else if Qltb 4 avg && (10 <=? total_feedback) then
          (tune "creative", ["creative_tuning"])
        else (v, []) in
      let '(negative_patterns, applied') :=
        if 5 <? negative_feedback then
          let negative_comments :=
            flat_map (fun f => match comment f with
                               | Some c => [c]
                               | None => []
                               end)
                     (filter (fun f => rating f <=? 2) rows) in
          let patterns := _analyze_negative_patterns negative_comments in
          ([("negative_patterns", JList (map JStr patterns))],
           pattern_optimizations patterns)
        else ([], []) in
      (v1, session,
       ([("session_id", JStr session_id);
         ("analysis", analysis);
         ("optimizations_applied", JList (map JStr (applied ++ applied')%list))]
        ++ negative_patterns)%list)
  end.

(** Which of the store operations of [run_learning_session] raise, and
    with what: the first UPDATE, the final UPDATE, and the UPDATE of the
    [except] branch. *)
Record StoreFaults : Type := mkStoreFaults {
  on_promote : option exn;
  on_finalize : option exn;
  on_recovery : option exn
}.

Definition no_faults : StoreFaults := mkStoreFaults None None None.

(** [SET status = 'running', started_at = CURRENT_TIMESTAMP] *)
Definition mark_running (now : Z) (r : LearningSession) : LearningSession :=
  mkLearningSession (ls_id r) (session_type r) running (input_data r)
    (output_data r) now (completed_at r) (error_message r).

(** [SET status = :status, completed_at = CURRENT_TIMESTAMP,
    output_data = :output] *)
Definition finalize (now : Z) (result : dict) (r : LearningSession)
  : LearningSession :=
  mkLearningSession (ls_id r) (session_type r)
    (if has_key "error" result then failed else completed)
    (input_data r) (Some (JDict result)) (started_at r) (Some now)
    (error_message r).

(** [SET status = 'failed', completed_at = CURRENT_TIMESTAMP,
    error_message = :error] *)
Definition mark_failed (now : Z) (error : string) (r : LearningSession)
  : LearningSession :=
  mkLearningSession (ls_id r) (session_type r) failed (input_data r)
    (output_data r) (started_at r) (Some now) (Some error).

(** The [except] branch: a new session writes the failure; an error of
    that write is swallowed. *)
Definition recover (faults : StoreFaults) (e : Env) (err : exn)
  (db : Store.t) (session_id : string) : Store.t :=
  match on_recovery faults with
  | Some _ => db
  | None =>
      close (commit (execute
        (update_session session_id (mark_failed (now e) (str_of_exn err)))
        (open db)))
  end.

(** *** Knowledge expansion *)

(** The values of a list without repetition, each at its first place. *)
Fixpoint distinct {A} (eqb : A -> A -> bool) (l : list A) : list A :=
  match l with
  | [] => []
  | x :: tl => x :: filter (fun y => negb (eqb x y)) (distinct eqb tl)
  end.

Definition technical_terms : list string :=
  ["python"; "javascript"; "api"; "database"; "sql"; "machine learning";
   "ai"; "algoritmo"; "programação"; "desenvolvimento"; "sistema"].

(** The dict [_identify_knowledge_gap] returns. *)
Record Gap : Type := mkGap {
  topic : string;
  suggested_content : string;
  confidence : Q;
  gap_source : string
}.

Definition gap_json (g : Gap) : json :=
  JDict [("topic", JStr (topic g));
         ("suggested_content", JStr (suggested_content g));
         ("confidence", JNum (confidence g));
         ("source", JStr (gap_source g))].

(** [_identify_knowledge_gap] *)
Definition _identify_knowledge_gap (response_content : string) : option Gap :=
  let content_lower := lower response_content in
  let identified_topics :=
    filter (fun term => contains term content_lower) technical_terms in
  match identified_topics with
  | first :: _ =>
      Some (mkGap first
              ("Informações detalhadas sobre " ++ first
               ++ " baseadas em feedback negativo")
              (6 # 10) "gap_analysis")
  | [] => None
  end.

(** A row of the query of [_run_knowledge_expansion]: a response text, the
    number of feedback rows on the messages that carry it, their average
    rating. *)
Definition ProblematicResponse : Type := (string * Z * Q)%type.

(** The query: assistant messages of the last 14 days joined with their
    feedback, grouped by content, kept when there are at least two ratings
    of average at most 2.5, ten rows at most.  [order] is the order in
    which the store returns the groups for ORDER BY COUNT(f.id) DESC, which
    leaves the order of equal counts open. *)
Definition problematic_responses
  (order : list ProblematicResponse -> list ProblematicResponse)
  (now : Z) (s : Store.t) : list ProblematicResponse :=
  let ms :=
    filter (fun m => String.eqb (sender m) "assistant"
                     && (current_date_minus now 14 <=? m_timestamp m))
           (messages s) in
  let group c :=
    let fs :=
      flat_map (fun m =>
                  if String.eqb (content m) c
                  then filter (fun f => String.eqb (f_message_id f) (m_id m))
                              (Store.feedback s)
                  else [])
               ms in
    (c, Z.of_nat (List.length fs),
     MetricsService.AVG (map (fun f => inject_Z (rating f)) fs)) in
  let having (g : ProblematicResponse) :=
    (2 <=? snd (fst g)) && Qle_bool (snd g) (25 # 10) in
  firstn 10
    (order (filter having (map group (distinct String.eqb (map content ms))))).

(** The loop of [_run_knowledge_expansion] from its [i]-th row on: the
    service, the session, the gaps found so far and the counter
    [new_knowledge_items]. *)
Fixpoint expand_knowledge (e : Env) (i : nat)
  (rows : list ProblematicResponse)
  (acc : Service * Session * list Gap * Z) : Service * Session * list Gap * Z :=
  match rows with
  | [] => acc
  | (response_content, _, _) :: tl =>
      let '(v, session, gaps, new_knowledge_items) := acc in
      match _identify_knowledge_gap response_content with
      | Some gap =>
          let '(s, _) :=
            KnowledgeService.add_knowledge_item
              (uuid4 e (10 + 2 * i)) (uuid4 e (11 + 2 * i)) (now e) session
              ("Lacuna identificada: " ++ topic gap) (suggested_content gap)
              (Some "lacunas_identificadas") [] "learning_session" (6 # 10) in
          expand_knowledge e (S i) tl
            (incr_knowledge_items_created v, s, (gaps ++ [gap])%list,
             new_knowledge_items + 1)
      | None => expand_knowledge e (S i) tl acc
      end
  end.

(** [_run_knowledge_expansion] *)
Definition _run_knowledge_expansion
  (order : list ProblematicResponse -> list ProblematicResponse)
  (e : Env) (v : Service) (session : Session) (session_id : string)
  : Service * Session * dict :=
  let rows := problematic_responses order (now e) (working session) in
  let '(v1, s1, gaps, new_knowledge_items) :=
    expand_knowledge e 0 rows (v, session, [], 0) in
  (v1, s1,
   [("session_id", JStr session_id);
    ("problematic_responses_found", JInt (Z.of_nat (List.length rows)));
    ("knowledge_gaps_identified", JList (map gap_json gaps));
    ("new_knowledge_items", JInt new_knowledge_items)]).

(** *** Comprehensive analysis *)

(** [str(n)] for an [int] *)
Definition str_of_int (n : Z) : string := NilZero.string_of_int (Z.to_int n).

Record PerformanceDay : Type := mkPerformanceDay {
  pd_date : Z;
  pd_avg_response_time : Q;
  request_count : Z
}.

Record SatisfactionDay : Type := mkSatisfactionDay {
  sd_date : Z;
  sd_avg_rating : Q;
  sd_feedback_count : Z
}.

Record Topic : Type := mkTopic {
  tp_category : string;
  tp_usage_count : Z;
  tp_avg_confidence : Q
}.

(** [_generate_system_insights] *)
Definition _generate_system_insights (performance_trend : list PerformanceDay)
  (satisfaction_trend : list SatisfactionDay) (popular_topics : list Topic)
  : list string :=
  let on_performance :=
    if (3 <=? List.length performance_trend)%nat then
      let recent_times :=
        map pd_avg_response_time (last_n 3 performance_trend) in
      let avg_recent :=
        (Py.sum recent_times
         / inject_Z (Z.of_nat (List.length recent_times)))%Q in
      if Qltb 3 avg_recent then
        ["Performance degradada nos últimos dias - considerar otimização"]
      else if Qltb avg_recent 1 then
        ["Performance excelente - sistema otimizado"]
      else []
    else [] in
  let on_satisfaction :=
    if (3 <=? List.length satisfaction_trend)%nat then
      let recent_ratings := map sd_avg_rating (last_n 3 satisfaction_trend) in
      let avg_rating :=
        (Py.sum recent_ratings
         / inject_Z (Z.of_nat (List.length recent_ratings)))%Q in
      if Qltb 4 avg_rating then
        ["Alta satisfação do usuário - manter estratégias atuais"]
      else if Qltb avg_rating 3 then
        ["Satisfação baixa - revisar qualidade das respostas"]
      else []
    else [] in
  let on_topics :=
    match popular_topics with
    | [] => []
    | top_topic :: _ =>
        (("Tópico mais popular: " ++ tp_category top_topic ++ " ("
          ++ str_of_int (tp_usage_count top_topic) ++ " usos)")
         :: (if Qltb (tp_avg_confidence top_topic) (7 # 10) then
               ["Baixa confiança no tópico " ++ tp_category top_topic
                ++ " - necessita melhoria"]
             else []))
    end in
  (on_performance ++ on_satisfaction ++ on_topics)%list.

(** The recommendation one insight gives, if any. *)
Definition recommendation_for (insight : string) : list string :=
  let l := lower insight in
  if contains "performance degradada" l then
    ["Otimizar infraestrutura ou modelo para melhorar tempo de resposta"]
  else if contains "satisfação baixa" l then
    ["Revisar prompts do sistema e qualidade das respostas"]
  else if contains "baixa confiança" l then
    ["Expandir base de conhecimento em tópicos com baixa confiança"]
  else if contains "alta satisfação" l then
    ["Documentar estratégias atuais como melhores práticas"]
  else [].

(** [_generate_recommendations] *)
Definition _generate_recommendations (insights : list string) : list string :=
  match flat_map recommendation_for insights with
  | [] =>
      ["Continuar monitoramento e coleta de feedback";
       "Expandir base de conhecimento com novos tópicos"]
  | recommendations => recommendations
  end.

(** A row of the topics query: category (NULL is a group of its own),
    number of items, average confidence. *)
Definition TopicRow : Type := (option string * Z * Q)%type.

Definition option_string_eqb (a b : option string) : bool :=
  match a, b with
  | Some x, Some y => String.eqb x y
  | None, None => true
  | _, _ => false
  end.

(** The daily response times of the last 30 days, newest day first, 30
    rows at most: GROUP BY DATE(timestamp) ORDER BY date DESC LIMIT 30. *)
Definition performance_trend_query (now : Z) (s : Store.t)
  : list PerformanceDay :=
  let ms :=
    filter (fun m => String.eqb (metric_name m) "response_time"
                     && (current_date_minus now 30 <=? timestamp m))
           (performance_metrics s) in
  firstn 30
    (rev (map (fun d =>
                 let grp := filter (fun m => DATE (timestamp m) =? d) ms in
                 mkPerformanceDay d
                   (MetricsService.float_or_zero
                      (MetricsService.AVG (map metric_value grp)))
                   (Z.of_nat (List.length grp)))
              (MetricsService.days_of (map timestamp ms)))).

(** The daily ratings of the last 30 days, newest day first. *)
Definition satisfaction_trend_query (now : Z) (s : Store.t)
  : list SatisfactionDay :=
  let fs :=
    filter (fun f => current_date_minus now 30 <=? f_created_at f)
           (Store.feedback s) in
  firstn 30
    (rev (map (fun d =>
                 let grp := filter (fun f => DATE (f_created_at f) =? d) fs in
                 mkSatisfactionDay d
                   (MetricsService.float_or_zero
                      (MetricsService.AVG
                         (map (fun f => inject_Z (rating f)) grp)))
                   (Z.of_nat (List.length grp)))
              (MetricsService.days_of (map f_created_at fs)))).

(** The categories of the items used in the last 30 days, ten at most.
    [order] is the order in which the store returns the groups for ORDER
    BY usage_count DESC. *)
Definition popular_topics_query (order : list TopicRow -> list TopicRow)
  (now : Z) (s : Store.t) : list Topic :=
  let ks :=
    filter (fun k => match last_used_at k with
                     | Some t => current_date_minus now 30 <=? t
                     | None => false
                     end)
           (knowledge_base s) in
  let group c : TopicRow :=
    let grp := filter (fun k => option_string_eqb (category k) c) ks in
    (c, Z.of_nat (List.length grp),
     MetricsService.AVG (map Store.confidence_score grp)) in
  map (fun row : TopicRow =>
         mkTopic
           (if truthy (fst (fst row)) then dict_get (fst (fst row)) ""
            else "Sem categoria")
           (snd (fst row))
           (MetricsService.float_or_zero (snd row)))
      (firstn 10
         (order (map group (distinct option_string_eqb (map category ks))))).

(** A value [float(x) if x else 0]: the [int] 0 or a [float]. *)
Definition json_number (q : Q) : json :=
  if Qeq_bool q 0 then JInt 0 else JNum q.

Definition performance_day_json (d : PerformanceDay) : json :=
  JDict [("date", JInt (pd_date d));
         ("avg_response_time", json_number (pd_avg_response_time d));
         ("request_count", JInt (request_count d))].

Definition satisfaction_day_json (d : SatisfactionDay) : json :=
  JDict [("date", JInt (sd_date d));
         ("avg_rating", json_number (sd_avg_rating d));
         ("feedback_count", JInt (sd_feedback_count d))].

Definition topic_json (t : Topic) : json :=
  JDict [("category", JStr (tp_category t));
         ("usage_count", JInt (tp_usage_count t));
         ("avg_confidence", json_number (tp_avg_confidence t))].

(** [_run_comprehensive_analysis] (a date is kept as its day number) *)
Definition _run_comprehensive_analysis
  (order : list TopicRow -> list TopicRow)
  (e : Env) (v : Service) (session : Session) (session_id : string)
  : Service * Session * dict :=
  let performance_trend := performance_trend_query (now e) (working session) in
  let satisfaction_trend :=
    satisfaction_trend_query (now e) (working session) in
  let popular_topics := popular_topics_query order (now e) (working session) in
  let insights :=
    _generate_system_insights performance_trend satisfaction_trend
      popular_topics in
  (v, session,
   [("session_id", JStr session_id);
    ("analysis_period", JStr "30 days");
    ("performance_trend",
     JList (map performance_day_json (last_n 7 performance_trend)));
    ("satisfaction_trend",
     JList (map satisfaction_day_json (last_n 7 satisfaction_trend)));
    ("popular_topics", JList (map topic_json popular_topics));
    ("insights", JList (map JStr insights));
    ("recommendations", JList (map JStr (_generate_recommendations insights)))]).

Section Runner.

(** The two handlers no property below depends on. *)
Variables _run_knowledge_expansion _run_comprehensive_analysis : handler.

Definition dispatch (e : Env) (v : Service) (session : Session)
  (session_id session_type : string) : Service * Session * dict :=
  if String.eqb session_type "model_optimization" then
    _run_model_optimization e v session session_id
  else if String.eqb session_type "knowledge_expansion" then
    _run_knowledge_expansion e v session session_id
  else if String.eqb session_type "comprehensive_analysis" then
    _run_comprehensive_analysis e v session session_id
  else
    (v, session,
     [("error", JStr ("Tipo de sessão desconhecido: " ++ session_type))]).

(** The first statement pair of the runner: UPDATE to [running], commit. *)
Definition promote (e : Env) (session : Session) (session_id : string)
  : Session :=
  commit (execute (update_session session_id (mark_running (now e)))
            session).

(** [run_learning_session]: the service and the committed store. *)
Definition run_learning_session (faults : StoreFaults) (e : Env)
  (v : Service) (db : Store.t) (session_id session_type : string)
  : Service * Store.t :=
  let session := open db in
  match on_promote faults with
  | Some err => (v, recover faults e err (close session) session_id)
  | None =>
      let s1 := promote e session session_id in
      let '(v1, s2, result) := dispatch e v s1 session_id session_type in
      match on_finalize faults with
      | Some err => (v1, recover faults e err (close s2) session_id)
      | None =>
          let s3 :=
            commit (execute
              (update_session session_id (finalize (now e) result)) s2) in
          let v2 := incr_total_sessions v1 in
          (if has_key "error" result then v2
           else incr_successful_optimizations v2,
           close s3)
      end
  end.

End Runner.

(** [run_learning_session] with the handlers of the service; the two
    arguments are the orders in which the store returns the rows of the
    two queries that sort by a count. *)
Definition run
  (order_responses : list ProblematicResponse -> list ProblematicResponse)
  (order_topics : list TopicRow -> list TopicRow)
  : StoreFaults -> Env -> Service -> Store.t -> string -> string
    -> Service * Store.t :=
  run_learning_session (_run_knowledge_expansion order_responses)
    (_run_comprehensive_analysis order_topics).

End LearningService.

(** ** celery_tasks.py *)

Module CeleryTasks.
Import Py Store.

(** [_extract_improvement_area] *)
Definition _extract_improvement_area (comment : string) : string :=
  let comment_lower := lower comment in
  if any_in ["lento"; "devagar"; "demora"; "tempo"] comment_lower then
    "performance"
  else if any_in ["errado"; "incorreto"; "erro"; "impreciso"] comment_lower then
    "accuracy"
  else if any_in ["confuso"; "não entendi"; "unclear"; "vago"] comment_lower then
    "clarity"
  else if any_in ["incompleto"; "faltou"; "mais detalhes"] comment_lower then
    "completeness"
  else "general".

(** [sum(l) / len(l)] *)
Definition mean (l : list Q) : Q :=
  (Py.sum l / inject_Z (Z.of_nat (List.length l)))%Q.

Definition satisfaction_alert (avg_recent : Q) : dict :=
  [("type", JStr "satisfaction_decline");
   ("severity", JStr "high");
   ("avg_rating", JNum avg_recent);
   ("recommendation",
    JStr "Revisar qualidade das respostas e considerar ajustes no modelo")].

Definition performance_alert (avg_recent_time : Q) : dict :=
  [("type", JStr "performance_degradation");
   ("severity", JStr "medium");
   ("avg_response_time", JNum avg_recent_time);
   ("recommendation",
    JStr "Otimizar performance do modelo ou infraestrutura")].

(** The satisfaction half of [_analyze_performance_trends_async]. *)
Definition check_satisfaction (now : Z)
  (satisfaction_trend : list MetricsService.SatisfactionPoint)
  (session : Session) : Session :=
  if (3 <=? List.length satisfaction_trend)%nat then
    let recent_ratings :=
      map MetricsService.avg_rating (last_n 3 satisfaction_trend) in
    let avg_recent := mean recent_ratings in
    if Qltb avg_recent 3 then
      MetricsService.record_metric now session "system_alert" avg_recent
        "gauge" [("alert_type", JStr "satisfaction_decline")]
        (satisfaction_alert avg_recent)
    else session
  else session.

(** The response-time half. *)
Definition check_response_time (now : Z)
  (response_time_trend : list MetricsService.ResponseTimePoint)
  (session : Session) : Session :=
  if (3 <=? List.length response_time_trend)%nat then
    let recent_times :=
      map MetricsService.avg_response_time (last_n 3 response_time_trend) in
    let avg_recent_time := mean recent_times in
    if Qltb 5 avg_recent_time then
      MetricsService.record_metric now session "system_alert" avg_recent_time
        "gauge" [("alert_type", JStr "performance_degradation")]
        (performance_alert avg_recent_time)
    else session
  else session.

(** [_analyze_performance_trends_async]: the committed store and the
    returned summary ([analysis_date] is kept as the clock reading). *)
Definition _analyze_performance_trends_async (now : Z) (db : Store.t)
  : Store.t * dict :=
  let session := open db in
  let trends := MetricsService.get_performance_trends session now 7 in
  let satisfaction_trend := MetricsService.user_satisfaction trends in
  let s1 := check_satisfaction now satisfaction_trend session in
  let response_time_trend := MetricsService.response_time trends in
  let s2 := check_response_time now response_time_trend s1 in
  (close s2,
   [("trends_analyzed",
     JInt (Z.of_nat (List.length satisfaction_trend
                     + List.length response_time_trend)));
    ("alerts_generated", JInt 0);
    ("analysis_date", JInt now)]).

(** The names bound in the module: its imports, its three service
    instances and its functions.  [text] is not among them. *)
Definition globals : list string :=
  ["asyncio"; "json"; "uuid"; "Dict"; "Any"; "List"; "datetime"; "timedelta";
   "current_task"; "celery_app"; "AsyncSessionLocal"; "FeedbackService";
   "KnowledgeService"; "MetricsService"; "logger"; "feedback_service";
   "knowledge_service"; "metrics_service"; "analyze_feedback_batch";
   "_analyze_feedback_batch_async"; "_extract_improvement_area";
   "optimize_model_parameters"; "_optimize_model_parameters_async";
   "generate_embeddings"; "cleanup_old_data"; "_cleanup_old_data_async";
   "backup_knowledge_base"; "_backup_knowledge_base_async";
   "analyze_performance_trends"; "_analyze_performance_trends_async";
   "process_conversation_learning"; "_process_conversation_learning_async";
   "_extract_conversation_topics"; "health_check"].

(** Executing celery_tasks.py: after the imports of the libraries, the
    three service modules are imported in turn and instantiated. *)
Definition import_module : outcome unit :=
  bind FeedbackService.import_module (fun _ =>
  bind KnowledgeService.import_module (fun _ =>
       MetricsService.import_module)).

(** The task [analyze_performance_trends] as a worker runs it: the module
    is imported, then the coroutine runs to its end. *)
Definition analyze_performance_trends (now : Z) (db : Store.t)
  : Store.t * outcome dict :=
  match import_module with
  | Raise err => (db, Raise err)
  | Ok _ =>
      let '(db', summary) := _analyze_performance_trends_async now db in
      (db', Ok summary)
  end.

(** The counters of [analysis_results]. *)
Record BatchAnalysis : Type := mkBatchAnalysis {
  positive_feedback : Z;
  negative_feedback : Z;
  improvement_areas : list string;
  knowledge_updates : Z
}.

(** The loop of [_analyze_feedback_batch_async] from its [i]-th row on. *)
Fixpoint analyze_rows (e : LearningService.Env) (i : nat)
  (feedbacks : list Feedback) (acc : Session * BatchAnalysis)
  : Session * BatchAnalysis :=
  match feedbacks with
  | [] => acc
  | f :: tl =>
      let '(session, a) := acc in
      let step :=
        if 4 <=? rating f then
          if truthy (comment f) && (50 <? len (dict_get (comment f) ""))%nat then
            (fst (KnowledgeService.add_knowledge_item
                    (LearningService.uuid4 e (2 * i))
                    (LearningService.uuid4 e (2 * i + 1))
                    (LearningService.now e) session
                    "Conhecimento de feedback positivo"
                    (dict_get (comment f) "") (Some "feedback_derived") []
                    "user_feedback" (8 # 10)),
             mkBatchAnalysis (positive_feedback a + 1) (negative_feedback a)
               (improvement_areas a) (knowledge_updates a + 1))
          else
            (session,
             mkBatchAnalysis (positive_feedback a + 1) (negative_feedback a)
               (improvement_areas a) (knowledge_updates a))
        else if rating f <=? 2 then
          (session,
           mkBatchAnalysis (positive_feedback a) (negative_feedback a + 1)
             (if truthy (comment f) then
                (improvement_areas a
                 ++ [_extract_improvement_area (dict_get (comment f) "")])%list
              else improvement_areas a)
             (knowledge_updates a))
        else acc in
      analyze_rows e (S i) tl step
  end.

(** [_analyze_feedback_batch_async] in a module whose globals are [g]:
    the committed store and the value returned or the exception raised.
    [order] is the order in which the store returns the unprocessed rows
    for ORDER BY created_at DESC; the draw after the rows' is the batch
    id. *)
Definition _analyze_feedback_batch_async_in (g : list string)
  (order : list Feedback -> list Feedback) (e : LearningService.Env)
  (db : Store.t) : Store.t * outcome dict :=
  match bind (load_global g "AsyncSessionLocal")
             (fun _ => load_global g "text") with
  | Raise err => (db, Raise err)
  | Ok _ =>
      let session := open db in
      let feedbacks :=
        firstn 100
          (order (filter (fun f => negb (processed f))
                         (Store.feedback (working session)))) in
      match feedbacks with
      | [] => (close session, Ok [("status", JStr "no_feedback_to_process")])
      | _ :: _ =>
          let '(s1, a) :=
            analyze_rows e 0 feedbacks (session, mkBatchAnalysis 0 0 [] 0) in
          let s2 :=
            FeedbackService.mark_feedback_processed s1 (map f_id feedbacks) in
          let s3 :=
            MetricsService.record_metric (LearningService.now e) s2
              "feedback_analysis_processed"
              (inject_Z (Z.of_nat (List.length feedbacks))) "counter"
              [("batch_id",
                JStr (LearningService.uuid4 e (2 * List.length feedbacks)))]
              [] in
          (close s3,
           Ok [("processed_count", JInt (Z.of_nat (List.length feedbacks)));
               ("positive_feedback", JInt (positive_feedback a));
               ("negative_feedback", JInt (negative_feedback a));
               ("improvement_areas", JList (map JStr (improvement_areas a)));
               ("knowledge_updates", JInt (knowledge_updates a))])
      end
  end.

Definition _analyze_feedback_batch_async :=
  _analyze_feedback_batch_async_in globals.

(** A row of [conversations], as far as the cleanup reads it. *)
Record Conversation : Type := mkConversation {
  cv_id : string;
  cv_status : string;
  cv_updated_at : Z
}.

(** [_cleanup_old_data_async] in a module whose globals are [g]: the
    committed conversations and store, and the value returned or the
    exception raised. *)
Definition _cleanup_old_data_async_in (g : list string) (now : Z)
  (conversations : list Conversation) (db : Store.t)
  : list Conversation * Store.t * outcome dict :=
  match bind (load_global g "AsyncSessionLocal") (fun _ =>
        bind (load_global g "datetime") (fun _ =>
        bind (load_global g "timedelta") (fun _ =>
              load_global g "text"))) with
  | Raise err => (conversations, db, Raise err)
  | Ok _ =>
      let cutoff_date := now_minus_days now 90 in
      let archived (c : Conversation) :=
        (cv_updated_at c <? cutoff_date) && String.eqb (cv_status c) "active" in
      let s1 := MetricsService.cleanup_old_metrics now (open db) in
      let stale (r : LearningSession) :=
        (started_at r <? cutoff_date)
        && (Status_eqb (status r) completed || Status_eqb (status r) failed) in
      let s2 :=
        commit (execute
          (set_learning_sessions (filter (fun r => negb (stale r)))) s1) in
      (map (fun c => if archived c
                     then mkConversation (cv_id c) "archived" (cv_updated_at c)
                     else c) conversations,
       close s2,
       Ok [("conversations_archived",
            JInt (Z.of_nat (List.length (filter archived conversations))));
           ("metrics_cleaned", JInt 0);
           ("sessions_cleaned",
            JInt (Z.of_nat (List.length
                    (filter stale (learning_sessions (working s1))))))])
  end.

Definition _cleanup_old_data_async := _cleanup_old_data_async_in globals.

(** [topic_keywords], in the order of the dict *)
Definition topic_keywords : list (string * list string) :=
  [("tecnologia", ["python"; "código"; "programação"; "api"; "sistema"]);
   ("ajuda", ["como"; "ajuda"; "problema"; "erro"; "dúvida"]);
   ("informação", ["o que é"; "explique"; "definição"; "conceito"]);
   ("configuração", ["configurar"; "instalar"; "setup"; "config"])].

(** [_extract_conversation_topics] *)
Definition _extract_conversation_topics (messages : list string)
  : list string :=
  let all_text := lower (join " " messages) in
  firstn 3
    (map fst (filter (fun tk => any_in (snd tk) all_text) topic_keywords)).

End CeleryTasks.

(** ** Vocabulary of the design document *)

Module Spec.
Import Store.

(** The session names the message in its input data, under the key either
    trigger writes. *)
Definition references (message_id : string) (r : LearningSession) : bool :=
  match input_data r with
  | Some (JDict d) =>
      match lookup "trigger_message_id" d, lookup "message_id" d with
      | Some (JStr m), _ => String.eqb m message_id
      | _, Some (JStr m) => String.eqb m message_id
      | _, _ => false
      end
  | _ => false
  end.

(** The sessions for a message that are pending or running. *)
Definition pending_or_running_for (message_id : string) (s : Store.t)
  : list LearningSession :=
  filter (fun r => references message_id r
                   && (Status_eqb (status r) pending
                       || Status_eqb (status r) running))
         (learning_sessions s).

(** The improvement-area taxonomy. *)
Definition taxonomy : list string :=
  ["performance"; "accuracy"; "clarity"; "completeness"; "general"].

(** Terminal states of the lifecycle. *)
Definition terminal (st : Status) : bool :=
  Status_eqb st completed || Status_eqb st failed.

End Spec.

(** ** Sample data *)

Module Scenario.
Import Store.

(** A knowledge item that was never used, created at the epoch by a
    learning session, with the given confidence and usage count. *)
Definition unused_item (confidence : Q) (usage : Z) : KnowledgeItem :=
  mkKnowledgeItem "k1" "Lacuna identificada: api"
    "Informações detalhadas sobre api baseadas em feedback negativo"
    (Some "lacunas_identificadas") [] "learning_session" confidence usage
    None 0 0 "x1" [].

(** A clock reading one hundred days after the epoch. *)
Definition day_100 : Z := 100 * seconds_per_day.

Definition knowledge_only (k : KnowledgeItem) : Store.t :=
  mkStore [] [] [k] [] [].

(** One assistant message and feedback on it. *)
Definition message_1 : Message :=
  mkMessage "m1" "c1" "assistant" "Resposta curta." 1000 [].

Definition feedback_on_m1 (id : string) (r : Z) (c : option string) (t : Z)
  : Feedback :=
  mkFeedback id "m1" None "c1" r c "general" false t.

(** Two neutral ratings of the message are stored. *)
Definition two_ratings : Store.t :=
  mkStore [feedback_on_m1 "f1" 3 None 1100; feedback_on_m1 "f2" 3 None 1200]
    [message_1] [] [] [].

(** A third rating of the message arrives, with a comment. *)
Definition third_rating (r : Z) (c : string) : Store.t :=
  mkStore (Store.feedback two_ratings
           ++ [feedback_on_m1 "f3" r (Some c) 1300])%list
    [message_1] [] [] [].

Definition praise : string := "Explicação muito clara e objetiva, obrigado!".

Definition complaint : string := "Muito lento e confuso".

(** Ten low ratings, of average 1.5. *)
Definition low_ratings : list Z := [1; 1; 2; 2; 1; 2; 1; 2; 1; 2].

(** The draws of one call: uuids [tag0], [tag1], ... *)
Definition env (now : Z) (tag : string) : LearningService.Env :=
  LearningService.mkEnv now "04/11/2026"
    (fun k => tag ++ String (ascii_of_nat (48 + k)) "").

(** A handler that does nothing but name the session. *)
Definition idle_handler : LearningService.handler :=
  fun _ v session session_id => (v, session, [("session_id", JStr session_id)]).

(** A store holding one learning session, with no feedback. *)
Definition one_session (r : LearningSession) : Store.t :=
  mkStore [] [] [] [] [r].

(** A session that completed at time 50 with an empty list of tags. *)
Definition completed_session : LearningSession :=
  mkLearningSession "s1" "model_optimization" completed
    (Some (JDict [("trigger_message_id", JStr "m1")]))
    (Some (JDict [("session_id", JStr "s1");
                  ("optimizations_applied", JList [])]))
    40 (Some 50) None.

(** A pending session that names message [m1], as the trigger is written
    to insert it. *)
Definition pending_session : LearningSession :=
  mkLearningSession "s1" "model_optimization" pending
    (Some (JDict [("trigger_message_id", JStr "m1")])) None 40 None None.

(** Three days of response times, one sample a day: 6.2, 5.8 and 6.5
    seconds on days 97, 98 and 99. *)
Definition response_time_on (day : Z) (seconds : Q) : Metric :=
  mkMetric "response_time" seconds "gauge" [] (day * seconds_per_day + 3600) [].

Definition slow_days : Store.t :=
  mkStore [] []  []
    [response_time_on 97 (62 # 10); response_time_on 98 (58 # 10);
     response_time_on 99 (65 # 10)] [].

(** The ten ratings arrive on day 99, one an hour, on one message; a
    [model_optimization] session is pending. *)
Definition low_rated_week : Store.t :=
  mkStore
    (map (fun ir =>
            mkFeedback (fst (fst ir)) "m1" None "c1" (snd ir) None "general"
              false (99 * seconds_per_day + 3600 * snd (fst ir)))
         (combine
            [("g0", 0); ("g1", 1); ("g2", 2); ("g3", 3); ("g4", 4);
             ("g5", 5); ("g6", 6); ("g7", 7); ("g8", 8); ("g9", 9)]
            low_ratings))
    [message_1] [] [] [pending_session].

Definition fresh_service : LearningService.Service :=
  LearningService.mkService (LearningService.mkLearningMetrics 0 0 0 0)
    AIService.initial_model_config.

(** A recording method, for a metrics service that had one. *)
Definition record_as_gauge : LearningService.bound_method :=
  fun name value labels session =>
    MetricsService.record_metric 0 session name value "gauge" labels [].

End Scenario.

(** ** Sequences of calls *)

Module Calls.
Import Store.

(** [get_knowledge_item] called once at each of the times, on one id. *)
Definition read_at (times : list Z) (db_session : Session)
  (knowledge_id : string) : Session :=
  fold_left (fun s t => fst (KnowledgeService.get_knowledge_item t s knowledge_id))
            times db_session.

(** [_analyze_performance_trends_async] run twice at the same reading of
    the clock. *)
Definition analyze_twice (now : Z) (db : Store.t) : Store.t :=
  fst (CeleryTasks._analyze_performance_trends_async now
         (fst (CeleryTasks._analyze_performance_trends_async now db))).

(** Metrics of a day 60 and a day 99, read on day 100. *)
Definition old_and_recent_metrics : Store.t :=
  mkStore [] [] []
    [Scenario.response_time_on 60 (12 # 10);
     Scenario.response_time_on 99 (15 # 10)] [].

(** The generations of a sequence that ended with an exception. *)
Definition raised_in (gs : list AIService.generation) : nat :=
  List.length
    (filter (fun g => match g with
                      | AIService.raised => true
                      | AIService.answered _ => false
                      end) gs).

(** The counters agree with each other. *)
Definition counters_consistent (m : AIService.PerformanceMetrics) : Prop :=
  0 <= AIService.error_count m <= AIService.total_requests m
  /\ (AIService.success_rate m * inject_Z (AIService.total_requests m)
      == inject_Z (AIService.total_requests m - AIService.error_count m))%Q
  /\ (0 <= AIService.success_rate m)%Q /\ (AIService.success_rate m <= 1)%Q.

(** An assistant message about an API, rated 1 and 2 on the day it was
    sent. *)
Definition poorly_rated_response : Store.t :=
  mkStore
    [mkFeedback "f1" "m2" None "c1" 1 None "general" false 1100;
     mkFeedback "f2" "m2" None "c1" 2 None "general" false 1200]
    [mkMessage "m2" "c1" "assistant" "A API devolve a lista em JSON." 1000 []]
    [] [] [].

(** [_run_knowledge_expansion] run twice, the second time on what the
    first left. *)
Definition expand_twice
  (order : list LearningService.ProblematicResponse
           -> list LearningService.ProblematicResponse)
  (e1 e2 : LearningService.Env) (v : LearningService.Service)
  (session : Session) (id1 id2 : string)
  : LearningService.Service * Session * dict :=
  let out1 := LearningService._run_knowledge_expansion order e1 v session id1 in
  LearningService._run_knowledge_expansion order e2 (fst (fst out1))
    (snd (fst out1)) id2.

(** Response times of five days, read on day 100: four seconds on days
    95 to 97, half a second on days 98 and 99. *)
Definition recovered_days : Store.t :=
  mkStore [] [] []
    [Scenario.response_time_on 95 4; Scenario.response_time_on 96 4;
     Scenario.response_time_on 97 4; Scenario.response_time_on 98 (1 # 2);
     Scenario.response_time_on 99 (1 # 2)] [].

End Calls.

(** * Properties *)

(** ** The Python fragments *)

Example lower_latin1 : Py.lower "NÃO Entendi" = "não entendi".
Proof. reflexivity. Qed.

Example len_counts_code_points : Py.len "não" = 3%nat.
Proof. reflexivity. Qed.

Example contains_substring :
  Py.contains "lento" "muito lento hoje" = true
  /\ Py.contains "lento" "muito rapido" = false.
Proof. split; reflexivity. Qed.

Example last_n_short : Py.last_n 3 [1; 2] = [1; 2].
Proof. reflexivity. Qed.

Example last_n_long : Py.last_n 3 [1; 2; 3; 4] = [2; 3; 4].
Proof. reflexivity. Qed.

Lemma Qltb_true (x y : Q) : Py.Qltb x y = true <-> (x < y)%Q.
Proof.
  unfold Py.Qltb. rewrite negb_true_iff, <- not_true_iff_false, Qle_bool_iff.
  split; [apply Qnot_le_lt | apply Qlt_not_le].
Qed.

Lemma Qltb_false (x y : Q) : Py.Qltb x y = false <-> (y <= x)%Q.
Proof.
  unfold Py.Qltb. rewrite negb_false_iff. apply Qle_bool_iff.
Qed.

Lemma py_max_Qmax (a b : Q) : (Py.max a b == Qmax a b)%Q.
Proof.
  unfold Py.max. destruct (Py.Qltb a b) eqn:E.
  - apply Qltb_true in E. symmetry. apply Q.max_r. now apply Qlt_le_weak.
  - apply Qltb_false in E. symmetry. now apply Q.max_l.
Qed.

Lemma py_min_Qmin (a b : Q) : (Py.min a b == Qmin a b)%Q.
Proof.
  unfold Py.min. destruct (Py.Qltb b a) eqn:E.
  - apply Qltb_true in E. symmetry. apply Q.min_r. now apply Qlt_le_weak.
  - apply Qltb_false in E. symmetry. now apply Q.min_l.
Qed.

Lemma py_max_bounds (lo x hi : Q) :
  (lo <= hi -> x <= hi -> lo <= Py.max lo x /\ Py.max lo x <= hi)%Q.
Proof.
  intros Hlh Hx. unfold Py.max. destruct (Py.Qltb lo x) eqn:E.
  - apply Qltb_true in E. split; [now apply Qlt_le_weak | assumption].
  - split; [apply Qle_refl | assumption].
Qed.

Lemma py_min_bounds (lo x hi : Q) :
  (lo <= hi -> lo <= x -> lo <= Py.min hi x /\ Py.min hi x <= hi)%Q.
Proof.
  intros Hlh Hx. unfold Py.min. destruct (Py.Qltb x hi) eqn:E.
  - apply Qltb_true in E. split; [assumption | now apply Qlt_le_weak].
  - split; [assumption | apply Qle_refl].
Qed.

(** ** ParameterTuner: [AIService.optimize_model_parameters] *)

Section Tuner.
Import AIService.

Variable feedback_analysis : FeedbackAnalysis.
Variable c : ModelConfig.

Let avg_rating := Py.dict_get (average_rating feedback_analysis) 3%Q.
Let feedback_count := Py.dict_get (total_feedback feedback_analysis) 0.
Let negative_rate := Py.dict_get (negative_feedback_rate feedback_analysis) 0%Q.
Let c' := optimize_model_parameters feedback_analysis c.

Lemma tuner_temperature_cases :
  temperature c' = temperature c
  \/ temperature c' = Py.max (3 # 10) (temperature c - (1 # 10))
  \/ temperature c' = Py.min (9 # 10) (temperature c + (1 # 10)).
Proof.
  subst c'. unfold optimize_model_parameters.
  destruct (Py.Qltb _ 3 && _); [right; left|];
    [|destruct (Py.Qltb 4 _ && _); [right; right | left]];
    destruct (Py.Qltb (3 # 10) _); reflexivity.
Qed.

Lemma tuner_conservative :
  (avg_rating < 3)%Q -> 10 <= feedback_count ->
  temperature c' = Py.max (3 # 10) (temperature c - (1 # 10)).
Proof.
  intros Ha Hn. subst c'. unfold optimize_model_parameters.
  apply Qltb_true in Ha. apply Z.leb_le in Hn.
  fold avg_rating feedback_count. rewrite Ha, Hn. cbn [andb].
  destruct (Py.Qltb (3 # 10) _); reflexivity.
Qed.

Lemma tuner_creative :
  (4 < avg_rating)%Q -> 10 <= feedback_count ->
  temperature c' = Py.min (9 # 10) (temperature c + (1 # 10)).
Proof.
  intros Ha Hn. subst c'. unfold optimize_model_parameters.
  assert (Hlt : Py.Qltb avg_rating 3 = false).
  { apply Qltb_false. apply Qlt_le_weak. eapply Qlt_trans; [|exact Ha]. reflexivity. }
  apply Qltb_true in Ha. apply Z.leb_le in Hn.
  fold avg_rating feedback_count. rewrite Hlt, Ha, Hn. cbn [andb].
  destruct (Py.Qltb (3 # 10) _); reflexivity.
Qed.

Lemma tuner_negative_guard :
  ((3 # 10) < negative_rate)%Q ->
  top_p c' = Py.max (7 # 10) (top_p c - (1 # 10))
  /\ frequency_penalty c' = Py.min 1 (frequency_penalty c + (1 # 10)).
Proof.
  intros Hn. subst c'. unfold optimize_model_parameters.
  apply Qltb_true in Hn. fold negative_rate. rewrite Hn.
  destruct (Py.Qltb _ 3 && _); [|destruct (Py.Qltb 4 _ && _)]; split; reflexivity.
Qed.

Lemma tuner_negative_guard_off :
  (negative_rate <= 3 # 10)%Q ->
  top_p c' = top_p c /\ frequency_penalty c' = frequency_penalty c.
Proof.
  intros Hn. subst c'. unfold optimize_model_parameters.
  apply Qltb_false in Hn. fold negative_rate. rewrite Hn.
  destruct (Py.Qltb _ 3 && _); [|destruct (Py.Qltb 4 _ && _)]; split; reflexivity.
Qed.

End Tuner.

Lemma py_max_lower (lo x : Q) : (lo <= Py.max lo x)%Q.
Proof.
  unfold Py.max. destruct (Py.Qltb lo x) eqn:E.
  - apply Qltb_true in E. now apply Qlt_le_weak.
  - apply Qle_refl.
Qed.

Lemma py_min_upper (hi x : Q) : (Py.min hi x <= hi)%Q.
Proof.
  unfold Py.min. destruct (Py.Qltb x hi) eqn:E.
  - apply Qltb_true in E. now apply Qlt_le_weak.
  - apply Qle_refl.
Qed.

Lemma tuner_keeps_bounds (fa : AIService.FeedbackAnalysis)
  (c : AIService.ModelConfig) :
  AIService.within_bounds c ->
  AIService.within_bounds (AIService.optimize_model_parameters fa c).
Proof.
  intros (Ht1 & Ht2 & Hp & Hf). unfold AIService.within_bounds.
  assert (Htemp : (3 # 10 <= AIService.temperature (AIService.optimize_model_parameters fa c)
                   <= 9 # 10)%Q).
  { destruct (tuner_temperature_cases fa c) as [E | [E | E]]; rewrite E.
    - now split.
    - apply py_max_bounds; [discriminate | lra].
    - apply py_min_bounds; [discriminate | lra]. }
  destruct Htemp as [Hlo Hhi]. repeat split; try assumption.
  - destruct (Qlt_le_dec (3 # 10)
                (Py.dict_get (AIService.negative_feedback_rate fa) 0%Q)) as [G | G].
    + destruct (tuner_negative_guard fa c G) as [E _]. rewrite E. apply py_max_lower.
    + destruct (tuner_negative_guard_off fa c G) as [E _]. now rewrite E.
  - destruct (Qlt_le_dec (3 # 10)
                (Py.dict_get (AIService.negative_feedback_rate fa) 0%Q)) as [G | G].
    + destruct (tuner_negative_guard fa c G) as [_ E]. rewrite E. apply py_min_upper.
    + destruct (tuner_negative_guard_off fa c G) as [_ E]. now rewrite E.
Qed.

(** On binary64 floats the conservative step from 0.7 is the float 0.6,
    and the creative step from 0.7 stays within the bounds. *)
Lemma steps_binary64 :
  Binary64.conservative_step Binary64.initial_temperature = Binary64.six_tenths
  /\ PrimFloat.leb (Binary64.creative_step Binary64.initial_temperature)
       (snd Binary64.bounds) = true
  /\ PrimFloat.leb (fst Binary64.bounds)
       (Binary64.creative_step Binary64.initial_temperature) = true.
Proof. repeat split; reflexivity. Qed.

(** C4. For any feedback statistics and any starting configuration within
    the safety bounds, the configuration left by the parameter tuner
    satisfies temperature in [0.3, 0.9], top_p >= 0.7 and
    frequency_penalty <= 1.0.  In conservative mode (average rating below
    3.0 over at least 10 entries) the temperature becomes
    max(0.3, current - 0.1); in creative mode (average above 4.0 over at
    least 10 entries) it becomes min(0.9, current + 0.1); and a negative
    feedback rate above 0.3 sets top_p to max(0.7, current - 0.1) and
    frequency_penalty to min(1.0, current + 0.1) whatever the mode. *)
Theorem tuner_output_within_bounds (fa : AIService.FeedbackAnalysis)
  (c : AIService.ModelConfig) (Hc : AIService.within_bounds c) :
  let avg_rating := Py.dict_get (AIService.average_rating fa) 3%Q in
  let feedback_count := Py.dict_get (AIService.total_feedback fa) 0 in
  let negative_rate := Py.dict_get (AIService.negative_feedback_rate fa) 0%Q in
  let c' := AIService.optimize_model_parameters fa c in
  AIService.within_bounds c'
  /\ ((avg_rating < 3)%Q -> 10 <= feedback_count ->
      (AIService.temperature c' == Qmax (3 # 10) (AIService.temperature c - (1 # 10)))%Q)
  /\ ((4 < avg_rating)%Q -> 10 <= feedback_count ->
      (AIService.temperature c' == Qmin (9 # 10) (AIService.temperature c + (1 # 10)))%Q)
  /\ (((3 # 10) < negative_rate)%Q ->
      (AIService.top_p c' == Qmax (7 # 10) (AIService.top_p c - (1 # 10)))%Q
      /\ (AIService.frequency_penalty c'
          == Qmin 1 (AIService.frequency_penalty c + (1 # 10)))%Q).
Proof.
  intros avg_rating feedback_count negative_rate c'. subst c'.
  split; [now apply tuner_keeps_bounds|]. split; [|split].
  - intros Ha Hn. rewrite (tuner_conservative fa c Ha Hn). apply py_max_Qmax.
  - intros Ha Hn. rewrite (tuner_creative fa c Ha Hn). apply py_min_Qmin.
  - intros Hg. destruct (tuner_negative_guard fa c Hg) as [Ep Ef].
    rewrite Ep, Ef. split; [apply py_max_Qmax | apply py_min_Qmin].
Qed.

(** The tuner at the initial configuration, for ten entries of average 1.5
    with a negative rate of 0.4. *)
Lemma tuner_output_within_bounds_witness :
  AIService.within_bounds AIService.initial_model_config
  /\ AIService.within_bounds
       (AIService.optimize_model_parameters
          (AIService.mkFeedbackAnalysis (Some (15 # 10)) (Some 10)
             (Some (4 # 10)) (Some "conservative"))
          AIService.initial_model_config).
Proof.
  assert (H : AIService.within_bounds AIService.initial_model_config).
  { unfold AIService.within_bounds, Qle. cbn. lia. }
  split; [exact H|].
  exact (proj1 (tuner_output_within_bounds
                  (AIService.mkFeedbackAnalysis (Some (15 # 10)) (Some 10)
                     (Some (4 # 10)) (Some "conservative"))
                  AIService.initial_model_config H)).
Defined.

(** ** Retention sweep: [KnowledgeService.cleanup_old_knowledge] *)

Lemma timedelta_unbound :
  existsb (String.eqb "timedelta") KnowledgeService.globals = false.
Proof. reflexivity. Qed.

Lemma sweep_selects_iff (cutoff : Z) (k : Store.KnowledgeItem) :
  KnowledgeService.sweep_selects cutoff k = true <->
  (Store.last_used_at k = None
   \/ exists t, Store.last_used_at k = Some t /\ t < cutoff)
  /\ Store.usage_count k < 5
  /\ (Store.confidence_score k < 5 # 10)%Q
  /\ Store.source k <> "admin_input".
Proof.
  unfold KnowledgeService.sweep_selects.
  rewrite !andb_true_iff, negb_true_iff, Z.ltb_lt, Qltb_true, String.eqb_neq.
  split.
  - intros [[[Hu Hc] Hq] Hs]. repeat split; try assumption.
    destruct (Store.last_used_at k) as [t|]; [right | now left].
    exists t. split; [reflexivity | now apply Z.ltb_lt].
  - intros (Hu & Hc & Hq & Hs). repeat split; try assumption.
    destruct Hu as [-> | (t & -> & Ht)]; [reflexivity | now apply Z.ltb_lt].
Qed.

Lemma filter_all {A} (l : list A) : filter (fun _ => true) l = l.
Proof. induction l as [|x l IH]; [reflexivity | cbn; now rewrite IH]. Qed.

(** Were [timedelta] bound, the sweep would delete the rows whose id is the
    id of a selected row. *)
Lemma cleanup_with_timedelta (db_session : Store.Session) (now days : Z) :
  let kb := Store.knowledge_base (Store.working db_session) in
  let ids :=
    map Store.k_id
      (filter (KnowledgeService.sweep_selects (Store.now_minus_days now days)) kb) in
  Store.knowledge_base
    (Store.committed
       (KnowledgeService.cleanup_old_knowledge_in
          ("timedelta" :: KnowledgeService.globals) db_session now days))
  = match ids with
    | [] => Store.knowledge_base (Store.committed db_session)
    | _ :: _ =>
        filter (fun k => negb (existsb (String.eqb (Store.k_id k)) ids)) kb
    end.
Proof.
  cbv zeta. unfold KnowledgeService.cleanup_old_knowledge_in,
    KnowledgeService.cleanup_body.
  cbn [Py.bind Py.load_global existsb String.eqb Ascii.eqb Bool.eqb orb
       KnowledgeService.globals].
  destruct (filter _ _) as [|k0 sel]; reflexivity.
Qed.

(** C10. [cleanup_old_knowledge] refers to [timedelta], which its module
    never binds: for every session, clock reading and threshold the body
    raises [NameError] before any query runs; the handler rolls the session
    back and the operation returns without raising.  No row of the committed
    knowledge base is deleted or changed, and the working copy is the
    committed store again. *)
Theorem cleanup_old_knowledge_is_inert (db_session : Store.Session)
  (now days_threshold : Z) :
  KnowledgeService.cleanup_body KnowledgeService.globals db_session now
    days_threshold = Py.Raise (Py.NameError "timedelta")
  /\ KnowledgeService.cleanup_old_knowledge db_session now days_threshold
     = Store.rollback db_session
  /\ Store.committed
       (KnowledgeService.cleanup_old_knowledge db_session now days_threshold)
     = Store.committed db_session
  /\ Store.knowledge_base
       (Store.working
          (KnowledgeService.cleanup_old_knowledge db_session now days_threshold))
     = Store.knowledge_base (Store.committed db_session).
Proof.
  repeat split; reflexivity.
Qed.

(** C5 (as amended). An item that was never used and does not come from
    [admin_input] satisfies the selection of the retention sweep when its
    confidence is below 0.5 and its usage count is 0; it does not when its
    usage count is 10, and it does not when its confidence is 0.6, whatever
    its usage count and age. *)
Theorem retention_sweep_eligibility (cutoff : Z) (k : Store.KnowledgeItem)
  (Hused : Store.last_used_at k = None)
  (Hsource : String.eqb (Store.source k) "admin_input" = false) :
  ((Store.confidence_score k < 5 # 10)%Q -> Store.usage_count k = 0 ->
   KnowledgeService.sweep_selects cutoff k = true)
  /\ (Store.usage_count k = 10 ->
      KnowledgeService.sweep_selects cutoff k = false)
  /\ ((Store.confidence_score k == 6 # 10)%Q ->
      KnowledgeService.sweep_selects cutoff k = false).
Proof.
  unfold KnowledgeService.sweep_selects. rewrite Hused, Hsource. cbn [negb].
  repeat split.
  - intros Hq Hu. rewrite Hu. apply Qltb_true in Hq. now rewrite Hq.
  - intros Hu. rewrite Hu. reflexivity.
  - intros Hq. assert (E : Py.Qltb (Store.confidence_score k) (5 # 10) = false).
    { apply Qltb_false. rewrite Hq. discriminate. }
    rewrite E. now rewrite andb_false_r.
Qed.

Lemma retention_sweep_eligibility_witness :
  Store.last_used_at (Scenario.unused_item (4 # 10) 0) = None
  /\ String.eqb (Store.source (Scenario.unused_item (4 # 10) 0)) "admin_input"
     = false
  /\ KnowledgeService.sweep_selects
       (Store.now_minus_days Scenario.day_100 90)
       (Scenario.unused_item (4 # 10) 0) = true.
Proof.
  refine (conj eq_refl (conj eq_refl _)).
  refine (proj1 (retention_sweep_eligibility
                   (Store.now_minus_days Scenario.day_100 90)
                   (Scenario.unused_item (4 # 10) 0) eq_refl eq_refl) _ eq_refl).
  reflexivity.
Defined.

(** The item of the scenario: confidence 0.6, never used, one hundred days
    old, not from [admin_input].  The sweep's selection rejects it, and it
    is still stored after the sweep, also after a sweep whose module binds
    [timedelta]. *)
Lemma retention_scenario_item_not_eligible :
  KnowledgeService.sweep_selects
    (Store.now_minus_days Scenario.day_100 KnowledgeService.default_days_threshold)
    (Scenario.unused_item (6 # 10) 0) = false
  /\ Store.knowledge_base
       (Store.committed
          (KnowledgeService.cleanup_old_knowledge
             (Store.open (Scenario.knowledge_only (Scenario.unused_item (6 # 10) 0)))
             Scenario.day_100 KnowledgeService.default_days_threshold))
     = [Scenario.unused_item (6 # 10) 0]
  /\ Store.knowledge_base
       (Store.committed
          (KnowledgeService.cleanup_old_knowledge_in
             ("timedelta" :: KnowledgeService.globals)
             (Store.open (Scenario.knowledge_only (Scenario.unused_item (6 # 10) 0)))
             Scenario.day_100 KnowledgeService.default_days_threshold))
     = [Scenario.unused_item (6 # 10) 0].
Proof.
  repeat split; reflexivity.
Qed.

(** ** FeedbackTriggerGate: the two triggers *)

Lemma json_unbound_in_feedback_service :
  existsb (String.eqb "json") FeedbackService.globals = false.
Proof. reflexivity. Qed.


Lemma message_feedback_after_insert (message_id : string) (s : Store.t)
  (f : list Store.LearningSession -> list Store.LearningSession) :
  LearningService.message_feedback message_id (Store.set_learning_sessions f s)
  = LearningService.message_feedback message_id s.
Proof. reflexivity. Qed.

(** Called with a [str], one evaluation at or above the threshold appends
    and commits a pending session and schedules its run. *)
Lemma trigger_above_threshold (e : LearningService.Env)
  (session : Store.Session) (message_id : string) :
  let rows := LearningService.message_feedback message_id (Store.working session) in
  let row :=
    Store.mkLearningSession (LearningService.uuid4 e 4) "model_optimization"
      Store.pending
      (Some (Store.JDict
         [("trigger_message_id", Store.JStr message_id);
          ("feedback_count", Store.JInt (Z.of_nat (List.length rows)));
          ("avg_rating", LearningService.float_or_0 (LearningService.AVG_rating rows))]))
      None (LearningService.now e) None None in
  LearningService.feedback_threshold <= Z.of_nat (List.length rows) ->
  LearningService._check_model_optimization_trigger e session (Py.Str message_id)
  = (Store.commit (Store.execute
       (Store.set_learning_sessions (fun l => (l ++ [row])%list)) session),
     [(LearningService.uuid4 e 4, "model_optimization")]).
Proof.
  intros rows row H. unfold LearningService._check_model_optimization_trigger.
  cbn [Py.rowkey_text Store.dumps_rowkey].
  fold rows. apply Z.leb_le in H. rewrite H. reflexivity.
Qed.

Lemma trigger_below_threshold (e : LearningService.Env)
  (session : Store.Session) (message_id : Py.rowkey) :
  Z.of_nat (List.length
    (LearningService.message_feedback (Py.rowkey_text message_id)
       (Store.working session)))
  < LearningService.feedback_threshold ->
  LearningService._check_model_optimization_trigger e session message_id
  = (session, []).
Proof.
  intros H. unfold LearningService._check_model_optimization_trigger.
  apply Z.leb_gt in H. rewrite H. reflexivity.
Qed.

Lemma references_trigger_row (message_id id : string) (n : Store.json)
  (a : Store.json) (t : Z) :
  Spec.references message_id
    (Store.mkLearningSession id "model_optimization" Store.pending
       (Some (Store.JDict [("trigger_message_id", Store.JStr message_id);
                           ("feedback_count", n); ("avg_rating", a)]))
       None t None None) = true.
Proof. unfold Spec.references. cbn. apply String.eqb_refl. Qed.

(** The function has no guard on sessions that are already pending or
    running.  Called with a [str], below the threshold an evaluation
    changes nothing; at or above it, every evaluation appends and commits
    one new pending [model_optimization] session that names the message,
    so two evaluations for the same message leave two more such
    sessions. *)
Lemma trigger_on_str_has_no_guard (e1 e2 : LearningService.Env)
  (session : Store.Session) (message_id : string) :
  let count :=
    Z.of_nat (List.length
      (LearningService.message_feedback message_id (Store.working session))) in
  let s1 :=
    fst (LearningService._check_model_optimization_trigger e1 session
           (Py.Str message_id)) in
  let s2 :=
    fst (LearningService._check_model_optimization_trigger e2 s1
           (Py.Str message_id)) in
  (count < LearningService.feedback_threshold -> s2 = session)
  /\ (LearningService.feedback_threshold <= count ->
      (exists r1 r2,
         Store.learning_sessions (Store.committed s2)
         = (Store.learning_sessions (Store.working session) ++ [r1; r2])%list
         /\ Store.ls_id r1 = LearningService.uuid4 e1 4
         /\ Store.ls_id r2 = LearningService.uuid4 e2 4
         /\ Store.status r1 = Store.pending
         /\ Store.status r2 = Store.pending
         /\ Spec.references message_id r1 = true
         /\ Spec.references message_id r2 = true)
      /\ List.length (Spec.pending_or_running_for message_id (Store.committed s2))
         = (List.length
              (Spec.pending_or_running_for message_id (Store.working session))
            + 2)%nat).
Proof.
  intros count s1 s2. split.
  - intros H. subst s2 s1.
    rewrite (trigger_below_threshold e1 session (Py.Str message_id) H).
    cbn [fst].
    now rewrite (trigger_below_threshold e2 session (Py.Str message_id) H).
  - intros H. subst s2 s1.
    rewrite (trigger_above_threshold e1 session message_id H). cbn [fst].
    rewrite trigger_above_threshold by exact H. cbn [fst].
    split.
    + eexists _, _. split.
      { cbn. rewrite <- app_assoc. reflexivity. }
      repeat split; try reflexivity; apply references_trigger_row.
    + unfold Spec.pending_or_running_for. cbn.
      rewrite <- app_assoc, filter_app, length_app. f_equal.
      cbn [app filter]. rewrite !references_trigger_row. reflexivity.
Qed.



(** ** LearningSessionManager: [LearningService.run_learning_session] *)

Lemma in_update_session (id : string)
  (f : Store.LearningSession -> Store.LearningSession) (s : Store.t)
  (r : Store.LearningSession) :
  (forall x, Store.ls_id (f x) = Store.ls_id x) ->
  In r (Store.learning_sessions (Store.update_session id f s)) ->
  Store.ls_id r = id ->
  exists r0, In r0 (Store.learning_sessions s) /\ Store.ls_id r0 = id /\ r = f r0.
Proof.
  intros Hf Hin Hid. cbn in Hin. apply in_map_iff in Hin.
  destruct Hin as (r0 & E & Hr0).
  destruct (String.eqb (Store.ls_id r0) id) eqn:Eid.
  - apply String.eqb_eq in Eid. exists r0. now repeat split.
  - apply String.eqb_neq in Eid. subst r. contradiction.
Qed.

(** A row of the given id after an UPDATE is the image of a row before. *)
Ltac row_before Hin Hid r0 :=
  apply in_update_session in Hin; [|reflexivity|exact Hid];
  destruct Hin as (r0 & ? & ? & ->).

Lemma find_session_update (id : string)
  (f : Store.LearningSession -> Store.LearningSession) (s : Store.t) :
  (forall x, Store.ls_id (f x) = Store.ls_id x) ->
  Store.find_session id (Store.update_session id f s)
  = option_map f (Store.find_session id s).
Proof.
  intros Hf. unfold Store.find_session. cbn.
  induction (Store.learning_sessions s) as [|r l IH]; [reflexivity|].
  cbn. destruct (String.eqb (Store.ls_id r) id) eqn:E.
  - rewrite Hf, E. reflexivity.
  - rewrite E. exact IH.
Qed.

(** The model-optimization handler only reads the store. *)
Lemma run_model_optimization_session (e : LearningService.Env)
  (v : LearningService.Service) (session : Store.Session) (id : string) :
  snd (fst (LearningService._run_model_optimization e v session id)) = session.
Proof.
  unfold LearningService._run_model_optimization.
  destruct (LearningService.AVG_rating _) as [avg|]; [|reflexivity].
  destruct (Py.Qltb avg 3 && _); [|destruct (Py.Qltb 4 avg && _)];
    destruct (5 <? _); reflexivity.
Qed.

Section RunnerFacts.
Import LearningService.

Variables kx ca : handler.
Variable e : Env.
Variable v : Service.
Variable db : Store.t.
Variables id ty : string.

(** The session handed to the handler, what the handler leaves, and the
    result it returns. *)
Let s1 := promote e (Store.open db) id.
Let s2 := snd (fst (dispatch kx ca e v s1 id ty)).
Let result := snd (dispatch kx ca e v s1 id ty).

Lemma promote_rows :
  Store.committed s1
  = Store.update_session id (mark_running (now e)) db.
Proof. reflexivity. Qed.

Lemma run_without_faults :
  snd (run_learning_session kx ca no_faults e v db id ty)
  = Store.update_session id (finalize (now e) result) (Store.working s2).
Proof.
  unfold run_learning_session. cbn [on_promote on_finalize no_faults].
  subst result s2 s1. destruct (dispatch _ _ _ _ _ _ _) as [[v1 s] res].
  reflexivity.
Qed.

Lemma run_promote_fault (err : Py.exn) (later : option Py.exn) :
  snd (run_learning_session kx ca (mkStoreFaults (Some err) later None)
         e v db id ty)
  = Store.update_session id (mark_failed (now e) (Py.str_of_exn err)) db.
Proof. reflexivity. Qed.

Lemma run_finalize_fault (err : Py.exn) :
  snd (run_learning_session kx ca (mkStoreFaults None (Some err) None)
         e v db id ty)
  = Store.update_session id (mark_failed (now e) (Py.str_of_exn err))
      (Store.committed s2).
Proof.
  unfold run_learning_session. cbn [on_promote on_finalize].
  subst s2 s1. destruct (dispatch _ _ _ _ _ _ _) as [[v1 s] res].
  reflexivity.
Qed.

(** For the session types the runner serves itself, the handler leaves the
    session as the promotion made it. *)
Lemma dispatch_keeps_session :
  String.eqb ty "knowledge_expansion" = false ->
  String.eqb ty "comprehensive_analysis" = false ->
  s2 = s1.
Proof.
  intros H1 H2. subst s2. unfold dispatch. rewrite H1, H2.
  destruct (String.eqb ty "model_optimization");
    [apply run_model_optimization_session | reflexivity].
Qed.

End RunnerFacts.

(** C2 (as amended). The runner does not look at the status on entry.  Its
    first statement sets the status of the session to [running] whatever it
    was, so a session that exists is found running after the promotion; and
    a run during which the store does not fail leaves every row of that id
    in a terminal state.  Within a run the status moves to [running] and
    then to [completed] or [failed]. *)
Theorem runner_promotes_without_check (kx ca : LearningService.handler)
  (e : LearningService.Env) (v : LearningService.Service) (db : Store.t)
  (id ty : string) :
  let s1 := LearningService.promote e (Store.open db) id in
  let final :=
    snd (LearningService.run_learning_session kx ca LearningService.no_faults
           e v db id ty) in
  (forall r0, Store.find_session id db = Some r0 ->
     Store.find_session id (Store.committed s1)
     = Some (LearningService.mark_running (LearningService.now e) r0))
  /\ (forall r, In r (Store.learning_sessions (Store.committed s1)) ->
        Store.ls_id r = id -> Store.status r = Store.running)
  /\ (forall r, In r (Store.learning_sessions final) ->
        Store.ls_id r = id -> Spec.terminal (Store.status r) = true).
Proof.
  cbv zeta. repeat split.
  - intros r0 H. rewrite promote_rows, find_session_update by reflexivity.
    now rewrite H.
  - intros r Hin Hid. rewrite promote_rows in Hin.
    row_before Hin Hid r0. reflexivity.
  - intros r Hin Hid. rewrite run_without_faults in Hin.
    row_before Hin Hid r0. cbn.
    destruct (Store.has_key _ _); reflexivity.
Qed.

(** A completed session is run again: the promotion makes it [running], and
    with no feedback in the window the run ends [failed]. *)
Lemma completed_session_runs_again :
  let db := Scenario.one_session Scenario.completed_session in
  let e := Scenario.env 100 "a" in
  option_map Store.status
    (Store.find_session "s1"
       (Store.committed (LearningService.promote e (Store.open db) "s1")))
  = Some Store.running
  /\ option_map Store.status
       (Store.find_session "s1"
          (snd (LearningService.run_learning_session Scenario.idle_handler
                  Scenario.idle_handler LearningService.no_faults e
                  Scenario.fresh_service db "s1" "model_optimization")))
     = Some Store.failed.
Proof.
  split; vm_compute; reflexivity.
Qed.

(** The handlers of the service leave the learning sessions as they
    were, in the working copy and in what they commit. *)
Lemma expand_knowledge_sessions (e : LearningService.Env)
  (rows : list LearningService.ProblematicResponse) :
  forall (i : nat) (v : LearningService.Service) (s : Store.Session)
         (gaps : list LearningService.Gap) (n : Z),
  Store.learning_sessions (Store.committed s)
  = Store.learning_sessions (Store.working s) ->
  let s' :=
    snd (fst (fst (LearningService.expand_knowledge e i rows (v, s, gaps, n)))) in
  Store.learning_sessions (Store.committed s')
  = Store.learning_sessions (Store.working s)
  /\ Store.learning_sessions (Store.working s')
     = Store.learning_sessions (Store.working s).
Proof.
  induction rows as [|[[c cnt] avg] rows IH]; intros i v s gaps n Hs.
  - cbn. now split.
  - cbn [LearningService.expand_knowledge].
    destruct (LearningService._identify_knowledge_gap c) as [gap|].
    + cbn [KnowledgeService.add_knowledge_item].
      match goal with
      | |- context [LearningService.expand_knowledge e (S i) rows
                      (?v', ?s', ?g', ?n')] =>
          destruct (IH (S i) v' s' g' n' eq_refl) as [H1 H2]
      end.
      cbv zeta in *. rewrite H1, H2. now split.
    + now apply IH.
Qed.

Lemma service_dispatch_sessions
  (order_responses : list LearningService.ProblematicResponse
                     -> list LearningService.ProblematicResponse)
  (order_topics : list LearningService.TopicRow
                  -> list LearningService.TopicRow)
  (e : LearningService.Env) (v : LearningService.Service)
  (s : Store.Session) (id ty : string) :
  Store.learning_sessions (Store.committed s)
  = Store.learning_sessions (Store.working s) ->
  let s' :=
    snd (fst (LearningService.dispatch
                (LearningService._run_knowledge_expansion order_responses)
                (LearningService._run_comprehensive_analysis order_topics)
                e v s id ty)) in
  Store.learning_sessions (Store.committed s')
  = Store.learning_sessions (Store.working s)
  /\ Store.learning_sessions (Store.working s')
     = Store.learning_sessions (Store.working s).
Proof.
  intros Hs. cbv zeta. unfold LearningService.dispatch.
  destruct (String.eqb ty "model_optimization").
  - rewrite run_model_optimization_session. now split.
  - destruct (String.eqb ty "knowledge_expansion").
    + unfold LearningService._run_knowledge_expansion.
      pose proof (expand_knowledge_sessions e
                    (LearningService.problematic_responses order_responses
                       (LearningService.now e) (Store.working s))
                    0 v s [] 0 Hs) as H.
      cbv zeta in H.
      destruct (LearningService.expand_knowledge _ _ _ _) as [[[v1 s1] g] n].
      exact H.
    + destruct (String.eqb ty "comprehensive_analysis"); cbn; now split.
Qed.

Lemma update_rows_compose (id : string)
  (f g : Store.LearningSession -> Store.LearningSession)
  (l : list Store.LearningSession) :
  (forall r, Store.ls_id (g r) = Store.ls_id r) ->
  map (fun r => if String.eqb (Store.ls_id r) id then f r else r)
      (map (fun r => if String.eqb (Store.ls_id r) id then g r else r) l)
  = map (fun r => if String.eqb (Store.ls_id r) id then f (g r) else r) l.
Proof.
  intros Hg. rewrite map_map. apply map_ext. intros r.
  destruct (String.eqb (Store.ls_id r) id) eqn:E.
  - now rewrite Hg, E.
  - now rewrite E.
Qed.

Lemma update_rows_none (id : string) (l : list Store.LearningSession) :
  map (fun r => if String.eqb (Store.ls_id r) id then r else r) l = l.
Proof.
  rewrite <- (map_id l) at 2. apply map_ext. intros r.
  now destruct (String.eqb _ _).
Qed.

(** C3 (as amended).  What a run of the service's runner leaves in the
    rows of its session id, for every choice of the store statements that
    raise.  When none raises, the row gets the handler's result as
    [output_data] and the status [failed] or [completed] as the result has
    an [error] key or not, and [error_message] keeps its value.  When the
    first or the final UPDATE raises and the recovery write succeeds, the
    row gets the status [failed] and the text of the exception as
    [error_message], and [output_data] keeps its value.  When the recovery
    write raises too, the row is as it was if the first UPDATE raised, and
    stays [running] if the final UPDATE raised.  Hence, whenever the run
    has written the row, the row is not left [pending], a [completed] row
    has a non-null [output_data], and a [failed] row has a non-null
    [output_data] or a non-null [error_message]. *)
Theorem runner_records_result_or_error
  (order_responses : list LearningService.ProblematicResponse
                     -> list LearningService.ProblematicResponse)
  (order_topics : list LearningService.TopicRow
                  -> list LearningService.TopicRow)
  (e : LearningService.Env) (v : LearningService.Service) (db : Store.t)
  (id ty : string) (faults : LearningService.StoreFaults) :
  let now := LearningService.now e in
  let s1 := LearningService.promote e (Store.open db) id in
  let result :=
    snd (LearningService.dispatch
           (LearningService._run_knowledge_expansion order_responses)
           (LearningService._run_comprehensive_analysis order_topics)
           e v s1 id ty) in
  let final :=
    snd (LearningService.run order_responses order_topics faults e v db id
           ty) in
  let written (r0 : Store.LearningSession) : Store.LearningSession :=
    match LearningService.on_promote faults,
          LearningService.on_finalize faults,
          LearningService.on_recovery faults with
    | None, None, _ =>
        LearningService.finalize now result
          (LearningService.mark_running now r0)
    | None, Some err, None =>
        LearningService.mark_failed now (Py.str_of_exn err)
          (LearningService.mark_running now r0)
    | None, Some _, Some _ => LearningService.mark_running now r0
    | Some err, _, None =>
        LearningService.mark_failed now (Py.str_of_exn err) r0
    | Some _, _, Some _ => r0
    end in
  Store.learning_sessions final
  = map (fun r0 => if String.eqb (Store.ls_id r0) id then written r0 else r0)
        (Store.learning_sessions db)
  /\ (forall r0,
        match LearningService.on_promote faults,
              LearningService.on_finalize faults,
              LearningService.on_recovery faults with
        | None, None, _ =>
            Store.status (written r0)
            = (if Store.has_key "error" result then Store.failed
               else Store.completed)
            /\ Store.output_data (written r0) = Some (Store.JDict result)
            /\ Store.error_message (written r0) = Store.error_message r0
        | None, Some err, None | Some err, _, None =>
            Store.status (written r0) = Store.failed
            /\ Store.error_message (written r0) = Some (Py.str_of_exn err)
            /\ Store.output_data (written r0) = Store.output_data r0
        | None, Some _, Some _ =>
            Store.status (written r0) = Store.running
            /\ Store.output_data (written r0) = Store.output_data r0
            /\ Store.error_message (written r0) = Store.error_message r0
        | Some _, _, Some _ => written r0 = r0
        end)
  /\ (LearningService.on_promote faults = None
      \/ LearningService.on_recovery faults = None ->
      forall r, In r (Store.learning_sessions final) -> Store.ls_id r = id ->
        (Store.status r = Store.running \/ Store.status r = Store.completed
         \/ Store.status r = Store.failed)
        /\ (Store.status r = Store.completed ->
            exists d, Store.output_data r = Some d)
        /\ (Store.status r = Store.failed ->
            (exists d, Store.output_data r = Some d)
            \/ (exists m, Store.error_message r = Some m))).
Proof.
  cbv zeta.
  set (kx := LearningService._run_knowledge_expansion order_responses).
  set (ca := LearningService._run_comprehensive_analysis order_topics).
  set (s1 := LearningService.promote e (Store.open db) id).
  destruct (service_dispatch_sessions order_responses order_topics e v s1 id
              ty eq_refl) as [Hc Hw].
  cbv zeta in Hc, Hw. fold kx ca in Hc, Hw.
  assert (Hrows :
    Store.learning_sessions
      (snd (LearningService.run order_responses order_topics faults e v db
              id ty))
    = map (fun r0 =>
             if String.eqb (Store.ls_id r0) id
             then match LearningService.on_promote faults,
                        LearningService.on_finalize faults,
                        LearningService.on_recovery faults with
                  | None, None, _ =>
                      LearningService.finalize (LearningService.now e)
                        (snd (LearningService.dispatch kx ca e v s1 id ty))
                        (LearningService.mark_running (LearningService.now e)
                           r0)
                  | None, Some err, None =>
                      LearningService.mark_failed (LearningService.now e)
                        (Py.str_of_exn err)
                        (LearningService.mark_running (LearningService.now e)
                           r0)
                  | None, Some _, Some _ =>
                      LearningService.mark_running (LearningService.now e) r0
                  | Some err, _, None =>
                      LearningService.mark_failed (LearningService.now e)
                        (Py.str_of_exn err) r0
                  | Some _, _, Some _ => r0
                  end
             else r0)
          (Store.learning_sessions db)).
  { unfold LearningService.run, LearningService.run_learning_session.
    fold kx ca s1. revert Hc Hw.
    destruct (LearningService.dispatch kx ca e v s1 id ty) as [[v1 s2] res].
    cbn [fst snd]. intros Hc Hw.
    destruct faults as [[perr|] [ferr|] [rerr|]];
      cbn [LearningService.on_promote LearningService.on_finalize
           LearningService.on_recovery LearningService.recover snd].
    - symmetry. apply update_rows_none.
    - reflexivity.
    - symmetry. apply update_rows_none.
    - reflexivity.
    - unfold Store.close. rewrite Hc. reflexivity.
    - unfold Store.close, Store.commit, Store.execute, Store.open.
      cbn [Store.committed Store.working Store.update_session
           Store.set_learning_sessions Store.learning_sessions].
      rewrite Hc. cbn. now apply update_rows_compose.
    - unfold Store.close, Store.commit, Store.execute.
      cbn [Store.committed Store.working Store.update_session
           Store.set_learning_sessions Store.learning_sessions].
      rewrite Hw. cbn. now apply update_rows_compose.
    - unfold Store.close, Store.commit, Store.execute.
      cbn [Store.committed Store.working Store.update_session
           Store.set_learning_sessions Store.learning_sessions].
      rewrite Hw. cbn. now apply update_rows_compose. }
  split; [exact Hrows|]. split.
  - intros r0. destruct faults as [[perr|] [ferr|] [rerr|]];
      cbn [LearningService.on_promote LearningService.on_finalize
           LearningService.on_recovery]; repeat split.
  - intros Hwrote r Hin Hid. rewrite Hrows in Hin.
    apply in_map_iff in Hin. destruct Hin as (r0 & Hr & _).
    assert (E : String.eqb (Store.ls_id r0) id = true).
    { destruct (String.eqb (Store.ls_id r0) id) eqn:E; [reflexivity|].
      subst r. apply String.eqb_neq in E. contradiction. }
    rewrite E in Hr. subst r.
    destruct faults as [[perr|] [ferr|] [rerr|]];
      cbn [LearningService.on_promote LearningService.on_finalize
           LearningService.on_recovery] in *;
      try (destruct Hwrote; discriminate);
      cbn [LearningService.finalize LearningService.mark_failed
           LearningService.mark_running Store.status Store.output_data
           Store.error_message];
      repeat split; try discriminate; eauto;
      try (destruct (Store.has_key _ _); eauto; discriminate).
Qed.

(** A pending session of a type the runner does not know ends [failed] with
    its [error_message] still null; a pending [model_optimization] session
    whose final UPDATE raises ends [failed] with its [output_data] still
    null. *)
Lemma failed_without_error_message :
  let db := Scenario.one_session Scenario.pending_session in
  let e := Scenario.env 100 "a" in
  let run faults ty :=
    Store.find_session "s1"
      (snd (LearningService.run_learning_session Scenario.idle_handler
              Scenario.idle_handler faults e Scenario.fresh_service db "s1" ty)) in
  option_map (fun r => (Store.status r, Store.error_message r))
    (run LearningService.no_faults "feedback_analysis")
  = Some (Store.failed, None)
  /\ option_map (fun r => (Store.status r, Store.output_data r))
       (run (LearningService.mkStoreFaults None
               (Some (Py.StoreError "connection is closed")) None)
            "model_optimization")
     = Some (Store.failed, None).
Proof.
  split; vm_compute; reflexivity.
Qed.

(** ** TrendAnalyzer: daily series and alerts *)

Lemma insert_day_In (d x : Z) (l : list Z) :
  In x (MetricsService.insert_day d l) <-> x = d \/ In x l.
Proof.
  induction l as [|y l IH]; cbn.
  - intuition congruence.
  - destruct (d <? y) eqn:E1; [cbn; intuition congruence|].
    destruct (d =? y) eqn:E2.
    + apply Z.eqb_eq in E2. subst. cbn. intuition congruence.
    + cbn. rewrite IH. intuition congruence.
Qed.

Lemma insert_day_HdRel (x d : Z) (l : list Z) :
  x < d -> HdRel Z.lt x l -> HdRel Z.lt x (MetricsService.insert_day d l).
Proof.
  intros Hxd Hl. destruct l as [|y l]; cbn.
  - now constructor.
  - inversion Hl; subst.
    destruct (d <? y); [now constructor|].
    destruct (d =? y); now constructor.
Qed.

Lemma insert_day_Sorted (d : Z) (l : list Z) :
  Sorted Z.lt l -> Sorted Z.lt (MetricsService.insert_day d l).
Proof.
  induction 1 as [|y l Hs IH Hhd]; cbn.
  - repeat constructor.
  - destruct (d <? y) eqn:E1.
    + apply Z.ltb_lt in E1. constructor; [now constructor | now constructor].
    + destruct (d =? y) eqn:E2; [now constructor|].
      apply Z.ltb_ge in E1. apply Z.eqb_neq in E2.
      constructor; [exact IH|]. apply insert_day_HdRel; [lia | exact Hhd].
Qed.

Lemma days_of_Sorted (stamps : list Z) :
  Sorted Z.lt (MetricsService.days_of stamps).
Proof.
  unfold MetricsService.days_of.
  induction (map Store.DATE stamps) as [|d l IH]; cbn.
  - constructor.
  - now apply insert_day_Sorted.
Qed.

Lemma days_of_StronglySorted (stamps : list Z) :
  StronglySorted Z.lt (MetricsService.days_of stamps).
Proof.
  apply Sorted_StronglySorted; [exact Z.lt_trans | apply days_of_Sorted].
Qed.

Lemma days_of_In (d : Z) (stamps : list Z) :
  In d (MetricsService.days_of stamps)
  <-> exists t, In t stamps /\ Store.DATE t = d.
Proof.
  unfold MetricsService.days_of. induction stamps as [|t l IH]; cbn.
  - split; [contradiction | now intros (t & [] & _)].
  - rewrite insert_day_In, IH. split.
    + intros [-> | (t' & Ht' & E)]; [exists t; auto | exists t'; auto].
    + intros (t' & [<- | Ht'] & E); [now left | right; now exists t'].
Qed.

Lemma response_time_dates (db_session : Store.Session) (now days : Z) :
  map MetricsService.rt_date
    (MetricsService.response_time
       (MetricsService.get_performance_trends db_session now days))
  = MetricsService.days_of
      (map Store.timestamp
         (filter (fun m => String.eqb (Store.metric_name m) "response_time"
                           && (Store.now_minus_days now days <=? Store.timestamp m))
                 (Store.performance_metrics (Store.working db_session)))).
Proof.
  unfold MetricsService.get_performance_trends. cbn.
  rewrite map_map. cbn. apply map_id.
Qed.

Lemma satisfaction_dates (db_session : Store.Session) (now days : Z) :
  map MetricsService.sat_date
    (MetricsService.user_satisfaction
       (MetricsService.get_performance_trends db_session now days))
  = MetricsService.days_of
      (map Store.f_created_at
         (filter (fun f => Store.now_minus_days now days <=? Store.f_created_at f)
                 (Store.feedback (Store.working db_session)))).
Proof.
  unfold MetricsService.get_performance_trends. cbn.
  rewrite map_map. cbn. apply map_id.
Qed.

Lemma response_time_alert (now : Z)
  (trend : list MetricsService.ResponseTimePoint) (session : Store.Session) :
  let avg_recent_time :=
    CeleryTasks.mean (map MetricsService.avg_response_time (Py.last_n 3 trend)) in
  (3 <= List.length trend)%nat -> (5 < avg_recent_time)%Q ->
  CeleryTasks.check_response_time now trend session
  = MetricsService.record_metric now session "system_alert" avg_recent_time
      "gauge" [("alert_type", Store.JStr "performance_degradation")]
      (CeleryTasks.performance_alert avg_recent_time).
Proof.
  intros avg Hlen Havg. unfold CeleryTasks.check_response_time.
  apply Nat.leb_le in Hlen. rewrite Hlen. fold avg.
  apply Qltb_true in Havg. now rewrite Havg.
Qed.

Lemma satisfaction_alert (now : Z)
  (trend : list MetricsService.SatisfactionPoint) (session : Store.Session) :
  let avg_recent :=
    CeleryTasks.mean (map MetricsService.avg_rating (Py.last_n 3 trend)) in
  (3 <= List.length trend)%nat -> (avg_recent < 3)%Q ->
  CeleryTasks.check_satisfaction now trend session
  = MetricsService.record_metric now session "system_alert" avg_recent
      "gauge" [("alert_type", Store.JStr "satisfaction_decline")]
      (CeleryTasks.satisfaction_alert avg_recent).
Proof.
  intros avg Hlen Havg. unfold CeleryTasks.check_satisfaction.
  apply Nat.leb_le in Hlen. rewrite Hlen. fold avg.
  apply Qltb_true in Havg. now rewrite Havg.
Qed.

(** The response-time half keeps the metrics that were committed. *)
Lemma check_response_time_keeps (now : Z)
  (trend : list MetricsService.ResponseTimePoint) (session : Store.Session)
  (m : Store.Metric) :
  Store.committed session = Store.working session ->
  In m (Store.performance_metrics (Store.committed session)) ->
  In m (Store.performance_metrics
          (Store.committed (CeleryTasks.check_response_time now trend session))).
Proof.
  intros Hc Hin. unfold CeleryTasks.check_response_time.
  destruct (3 <=? _)%nat; [destruct (Py.Qltb 5 _)|]; try exact Hin.
  cbn. rewrite <- Hc. apply in_or_app. now left.
Qed.

(** The coroutine, as it runs in a module that has loaded.  The two series
    are daily buckets in strictly ascending order of date.  When the
    response-time series has at least three days and the mean of its last
    three daily averages exceeds 5.0, the coroutine commits a metric
    [system_alert] of type [gauge] labelled [performance_degradation] whose
    context carries severity [medium]; when the satisfaction series has at
    least three days and the mean of its last three daily averages is
    below 3.0, it commits one labelled [satisfaction_decline] with severity
    [high]. *)
Lemma trend_analysis_alerts (now : Z) (db : Store.t) :
  let trends := MetricsService.get_performance_trends (Store.open db) now 7 in
  let response_time_trend := MetricsService.response_time trends in
  let satisfaction_trend := MetricsService.user_satisfaction trends in
  let avg_recent_time :=
    CeleryTasks.mean
      (map MetricsService.avg_response_time (Py.last_n 3 response_time_trend)) in
  let avg_recent :=
    CeleryTasks.mean
      (map MetricsService.avg_rating (Py.last_n 3 satisfaction_trend)) in
  let final := fst (CeleryTasks._analyze_performance_trends_async now db) in
  StronglySorted Z.lt (map MetricsService.rt_date response_time_trend)
  /\ StronglySorted Z.lt (map MetricsService.sat_date satisfaction_trend)
  /\ ((3 <= List.length response_time_trend)%nat -> (5 < avg_recent_time)%Q ->
      In (Store.mkMetric "system_alert" avg_recent_time "gauge"
            [("alert_type", Store.JStr "performance_degradation")] now
            (CeleryTasks.performance_alert avg_recent_time))
         (Store.performance_metrics final)
      /\ Store.lookup "severity" (CeleryTasks.performance_alert avg_recent_time)
         = Some (Store.JStr "medium"))
  /\ ((3 <= List.length satisfaction_trend)%nat -> (avg_recent < 3)%Q ->
      In (Store.mkMetric "system_alert" avg_recent "gauge"
            [("alert_type", Store.JStr "satisfaction_decline")] now
            (CeleryTasks.satisfaction_alert avg_recent))
         (Store.performance_metrics final)
      /\ Store.lookup "severity" (CeleryTasks.satisfaction_alert avg_recent)
         = Some (Store.JStr "high")).
Proof.
  cbv zeta. repeat apply conj.
  - rewrite response_time_dates. apply days_of_StronglySorted.
  - rewrite satisfaction_dates. apply days_of_StronglySorted.
  - intros Hlen Havg. split; [|reflexivity].
    unfold CeleryTasks._analyze_performance_trends_async. cbn [fst].
    rewrite (response_time_alert now _ _ Hlen Havg). cbn.
    apply in_or_app. right. now left.
  - intros Hlen Havg. split; [|reflexivity].
    unfold CeleryTasks._analyze_performance_trends_async. cbn [fst].
    rewrite (satisfaction_alert now _ _ Hlen Havg).
    unfold Store.close. apply check_response_time_keeps; [reflexivity|].
    cbn. apply in_or_app. right. now left.
Qed.

(** Daily averages 6.2, 5.8 and 6.5: the mean is 37/6, above 5.0, and the
    coroutine, in a module that has loaded, commits the alert with severity
    [medium]. *)
Lemma trend_analysis_alerts_witness :
  let trend :=
    MetricsService.response_time
      (MetricsService.get_performance_trends
         (Store.open Scenario.slow_days) Scenario.day_100 7) in
  let avg_recent_time :=
    CeleryTasks.mean (map MetricsService.avg_response_time (Py.last_n 3 trend)) in
  map MetricsService.rt_date trend = [97; 98; 99]
  /\ Forall2 Qeq (map MetricsService.avg_response_time trend)
       [62 # 10; 58 # 10; 65 # 10]
  /\ (avg_recent_time == 37 # 6)%Q
  /\ In (Store.mkMetric "system_alert" avg_recent_time "gauge"
           [("alert_type", Store.JStr "performance_degradation")]
           Scenario.day_100 (CeleryTasks.performance_alert avg_recent_time))
        (Store.performance_metrics
           (fst (CeleryTasks._analyze_performance_trends_async
                   Scenario.day_100 Scenario.slow_days))).
Proof.
  cbv zeta. split; [reflexivity|]. split.
  { repeat constructor. }
  split; [reflexivity|].
  refine (proj1 (proj1 (proj2 (proj2
            (trend_analysis_alerts Scenario.day_100 Scenario.slow_days))) _ _)).
  - apply Nat.leb_le. reflexivity.
  - reflexivity.
Defined.

(** C9 (at the failing input).  The trend analysis never runs in the
    program as shipped.  The class statement of metrics_service.py raises
    [NameError] on [Optional] when it evaluates the signature of
    [record_metric], so importing celery_tasks.py, which imports the
    class, raises too, and the task leaves every store as it found it.
    On daily response times of 6.2, 5.8 and 6.5 seconds, whose mean 37/6
    exceeds 5.0, the task writes no metric: the store holds no
    [system_alert] afterwards. *)
Theorem trend_analysis_never_loads :
  MetricsService.import_module = Py.Raise (Py.NameError "Optional")
  /\ CeleryTasks.import_module = Py.Raise (Py.NameError "Optional")
  /\ (forall now db,
        CeleryTasks.analyze_performance_trends now db
        = (db, Py.Raise (Py.NameError "Optional")))
  /\ (let trend :=
        MetricsService.response_time
          (MetricsService.get_performance_trends
             (Store.open Scenario.slow_days) Scenario.day_100 7) in
      let final :=
        fst (CeleryTasks.analyze_performance_trends Scenario.day_100
               Scenario.slow_days) in
      map MetricsService.rt_date trend = [97; 98; 99]
      /\ Forall2 Qeq (map MetricsService.avg_response_time trend)
           [62 # 10; 58 # 10; 65 # 10]
      /\ (5 < CeleryTasks.mean
                (map MetricsService.avg_response_time (Py.last_n 3 trend)))%Q
      /\ final = Scenario.slow_days
      /\ filter (fun m => String.eqb (Store.metric_name m) "system_alert")
                (Store.performance_metrics final) = []).
Proof.
  split; [reflexivity|]. split; [reflexivity|]. split; [reflexivity|].
  cbv zeta. split; [reflexivity|]. split; [repeat constructor|].
  split; [reflexivity|]. split; reflexivity.
Qed.

(** ** KnowledgeExtractor: positive and negative feedback *)

Lemma long_comment_truthy (c : string) :
  (20 < Py.len c)%nat -> Py.truthy (Some c) = true.
Proof. destruct c; [cbn; lia | reflexivity]. Qed.

Lemma trigger_keeps_knowledge (e : LearningService.Env)
  (session : Store.Session) (message_id : Py.rowkey) :
  Store.committed session = Store.working session ->
  Store.knowledge_base
    (Store.close
       (fst (LearningService._check_model_optimization_trigger e session message_id)))
  = Store.knowledge_base (Store.working session).
Proof.
  intros Hc. unfold LearningService._check_model_optimization_trigger.
  destruct (_ <=? _); [destruct (Store.dumps_rowkey message_id)|]; cbn;
    try reflexivity; now f_equal.
Qed.

(** What [_process_positive_feedback] adds for a comment of more than 20
    characters: the item from the response when it has more than 100
    characters, then the item from the comment; everything is committed. *)
Lemma positive_feedback_items (e : LearningService.Env)
  (v : LearningService.Service) (session : Store.Session)
  (message_content c conversation_id : string) :
  (20 < Py.len c)%nat ->
  let s' :=
    snd (LearningService._process_positive_feedback e v session
           message_content (Some c) conversation_id) in
  let from_response :=
    Store.mkKnowledgeItem (LearningService.uuid4 e 0)
      ("Resposta bem avaliada - " ++ LearningService.today e) message_content
      (Some "respostas_positivas") [] "feedback_positivo" (9 # 10) 0 None
      (LearningService.now e) (LearningService.now e) (LearningService.uuid4 e 1)
      [("created_by", Store.JStr "system");
       ("content_length", Store.JInt (Z.of_nat (Py.len message_content)));
       ("word_count", Store.JInt (Z.of_nat (Py.word_count message_content)))] in
  let from_comment :=
    Store.mkKnowledgeItem (LearningService.uuid4 e 2)
      ("Insight do usuário - " ++ LearningService.today e) c
      (Some "insights_usuarios") [] "comentario_positivo" (8 # 10) 0 None
      (LearningService.now e) (LearningService.now e) (LearningService.uuid4 e 3)
      [("created_by", Store.JStr "system");
       ("content_length", Store.JInt (Z.of_nat (Py.len c)));
       ("word_count", Store.JInt (Z.of_nat (Py.word_count c)))] in
  Store.committed s' = Store.working s'
  /\ Store.knowledge_base (Store.working s')
     = (Store.knowledge_base (Store.working session)
        ++ (if (100 <? Py.len message_content)%nat then [from_response] else [])
        ++ [from_comment])%list.
Proof.
  intros Hlen. cbv zeta. unfold LearningService._process_positive_feedback.
  rewrite (long_comment_truthy c Hlen).
  apply Nat.ltb_lt in Hlen. cbn [Py.dict_get andb]. rewrite Hlen.
  destruct (100 <? Py.len message_content)%nat; cbn.
  - split; [reflexivity | now rewrite <- app_assoc].
  - split; reflexivity.
Qed.

(** C6. Processing a feedback with rating >= 4 and a comment of more than
    20 characters adds to the knowledge base exactly one item of category
    [insights_usuarios] (user insights, confidence 0.8) holding the comment,
    preceded by one item of category [respostas_positivas] (positive
    responses, confidence 0.9) holding the response exactly when the
    response has more than 100 characters; nothing else is added and
    nothing is removed. *)
Theorem positive_feedback_creates_insight (methods : list string)
  (record : LearningService.bound_method) (e : LearningService.Env)
  (v : LearningService.Service) (db : Store.t) (feedback_id : string)
  (rating : Z) (c : string) (f : Store.Feedback) (msg : Store.Message)
  (Hf : find (fun x => String.eqb (Store.f_id x) feedback_id) (Store.feedback db)
        = Some f)
  (Hm : find (fun x => String.eqb (Store.m_id x) (Store.f_message_id f))
             (Store.messages db) = Some msg)
  (Hrating : 4 <= rating)
  (Hcomment : (20 < Py.len c)%nat) :
  let final :=
    snd (fst (LearningService.process_feedback_for_learning methods record e v
                db feedback_id rating (Some c))) in
  exists from_response insight,
    Store.knowledge_base final
    = (Store.knowledge_base db
       ++ (if (100 <? Py.len (Store.content msg))%nat then [from_response] else [])
       ++ [insight])%list
    /\ Store.category insight = Some "insights_usuarios"
    /\ Store.confidence_score insight = 8 # 10
    /\ Store.k_content insight = c
    /\ Store.source insight = "comentario_positivo"
    /\ Store.category from_response = Some "respostas_positivas"
    /\ Store.confidence_score from_response = 9 # 10
    /\ Store.k_content from_response = Store.content msg
    /\ Store.source from_response = "feedback_positivo".
Proof.
  cbv zeta. unfold LearningService.process_feedback_for_learning.
  cbn [Store.open Store.working]. rewrite Hf, Hm.
  apply Z.leb_le in Hrating. rewrite Hrating.
  destruct (positive_feedback_items e v (Store.open db) (Store.content msg) c
              (Store.f_conversation_id f) Hcomment) as [Hc Hkb].
  destruct (LearningService._process_positive_feedback _ _ _ _ _ _) as [v1 s1].
  cbn [snd] in Hc, Hkb.
  pose proof (trigger_keeps_knowledge e s1 (Py.UUID (Store.f_message_id f)) Hc)
    as Hk.
  destruct (LearningService._check_model_optimization_trigger _ _ _) as [s2 tasks].
  cbn [fst snd] in *. rewrite Hk, Hkb.
  eexists _, _. split; [reflexivity|]. repeat split.
Qed.

(** A rating of 5 with a comment of 44 characters on a short response: the
    knowledge base gets the item from the comment and nothing else. *)
Lemma positive_feedback_creates_insight_witness :
  4 <= 5 /\ (20 < Py.len Scenario.praise)%nat
  /\ exists from_response insight,
       Store.knowledge_base
         (snd (fst (LearningService.process_feedback_for_learning
                      MetricsService.methods Scenario.record_as_gauge
                      (Scenario.env 1301 "a") Scenario.fresh_service
                      (Scenario.third_rating 5 Scenario.praise) "f3" 5
                      (Some Scenario.praise))))
       = (Store.knowledge_base (Scenario.third_rating 5 Scenario.praise)
          ++ (if (100 <? Py.len (Store.content Scenario.message_1))%nat
              then [from_response] else [])
          ++ [insight])%list
       /\ Store.category insight = Some "insights_usuarios"
       /\ Store.confidence_score insight = 8 # 10
       /\ Store.k_content insight = Scenario.praise
       /\ Store.source insight = "comentario_positivo"
       /\ Store.category from_response = Some "respostas_positivas"
       /\ Store.confidence_score from_response = 9 # 10
       /\ Store.k_content from_response = Store.content Scenario.message_1
       /\ Store.source from_response = "feedback_positivo".
Proof.
  assert (H1 : 4 <= 5) by lia.
  assert (H2 : (20 < Py.len Scenario.praise)%nat) by (vm_compute; lia).
  refine (conj H1 (conj H2 _)).
  exact (positive_feedback_creates_insight MetricsService.methods
           Scenario.record_as_gauge (Scenario.env 1301 "a")
           Scenario.fresh_service (Scenario.third_rating 5 Scenario.praise)
           "f3" 5 Scenario.praise
           (Scenario.feedback_on_m1 "f3" 5 (Some Scenario.praise) 1300)
           Scenario.message_1 eq_refl eq_refl H1 H2).
Defined.

Lemma record_system_metric_undefined :
  existsb (String.eqb "record_system_metric") MetricsService.methods = false.
Proof. reflexivity. Qed.

(** On the metrics service of the repository the first identified area ends
    the loop with [AttributeError]: nothing is recorded and the message is
    not flagged.  In every case the knowledge base, the metrics and the
    committed store are as before. *)
Lemma negative_feedback_effects (record : LearningService.bound_method)
  (session : Store.Session) (message_content : string)
  (comment : option string) (conversation_id : string) :
  let s' :=
    LearningService._process_negative_feedback MetricsService.methods record
      session message_content comment conversation_id in
  Store.knowledge_base (Store.working s')
  = Store.knowledge_base (Store.working session)
  /\ Store.performance_metrics (Store.working s')
     = Store.performance_metrics (Store.working session)
  /\ Store.committed s' = Store.committed session
  /\ (LearningService.improvement_areas comment = [] \/ s' = session).
Proof.
  cbv zeta. unfold LearningService._process_negative_feedback.
  destruct (LearningService.improvement_areas comment) as [|a l].
  - cbn [LearningService.record_improvement_areas].
    unfold LearningService.flag_for_review.
    destruct (filter _ _) as [|f [|f' fs]]; cbn; auto.
  - cbn. auto.
Qed.

(** A metrics service that defined [record_system_metric] would get one
    call for each identified area. *)
Lemma record_improvement_areas_when_defined (areas : list string)
  (conversation_id : string) (session : Store.Session) :
  let labels :=
    [("conversation_id", Store.JStr conversation_id);
     ("source", Store.JStr "negative_feedback")] in
  LearningService.record_improvement_areas
    ("record_system_metric" :: MetricsService.methods)
    Scenario.record_as_gauge areas conversation_id session
  = (fold_left
       (fun s area =>
          Scenario.record_as_gauge ("improvement_needed_" ++ area) 1%Q labels s)
       areas session, None).
Proof.
  cbv zeta. revert session. induction areas as [|a l IH]; intros session.
  - reflexivity.
  - cbn [LearningService.record_improvement_areas fold_left].
    change (Py.getattr "MetricsService"
              ("record_system_metric" :: MetricsService.methods)
              "record_system_metric") with (Py.Ok tt).
    cbv iota. apply IH.
Qed.

(** The learning service labels a comment with every area whose keywords
    it contains, possibly none; the batch task gives one label, [general]
    when no keyword matches. *)
Example areas_of_comments :
  LearningService.improvement_areas (Some "Está errado, faltou o exemplo")
  = ["accuracy"; "completeness"]
  /\ LearningService.improvement_areas (Some "Ruim") = []
  /\ LearningService.improvement_areas None = []
  /\ CeleryTasks._extract_improvement_area "Está errado, faltou o exemplo"
     = "accuracy"
  /\ CeleryTasks._extract_improvement_area "Ruim" = "general".
Proof. repeat split; reflexivity. Qed.

Lemma improvement_areas_in_taxonomy (comment : option string) :
  Forall (fun a => In a Spec.taxonomy)
         (LearningService.improvement_areas comment).
Proof.
  unfold LearningService.improvement_areas.
  destruct (Py.truthy comment); [|constructor].
  repeat (apply Forall_app; split);
    match goal with |- Forall _ (if ?b then _ else _) => destruct b end;
    repeat constructor; cbn; tauto.
Qed.

Lemma extract_improvement_area_in_taxonomy (comment : string) :
  In (CeleryTasks._extract_improvement_area comment) Spec.taxonomy.
Proof.
  unfold CeleryTasks._extract_improvement_area.
  repeat match goal with |- In (if ?b then _ else _) _ => destruct b end;
    cbn; tauto.
Qed.

(** C7 (at the failing input). A rating of 1 with the comment "Muito lento e
    confuso": the areas identified are [performance] and [clarity], both in
    the taxonomy, and no knowledge item is created; but processing records
    no metric, because the metrics service has no [record_system_metric].
    On a service that defined it, one metric per area would be recorded. *)
Theorem negative_feedback_records_no_metric :
  let areas := LearningService.improvement_areas (Some Scenario.complaint) in
  let db := Scenario.third_rating 1 Scenario.complaint in
  let final methods :=
    snd (fst (LearningService.process_feedback_for_learning methods
                Scenario.record_as_gauge (Scenario.env 1301 "a")
                Scenario.fresh_service db "f3" 1 (Some Scenario.complaint))) in
  areas = ["performance"; "clarity"]
  /\ Forall (fun a => In a Spec.taxonomy) areas
  /\ Store.knowledge_base (final MetricsService.methods) = []
  /\ Store.performance_metrics (final MetricsService.methods) = []
  /\ map Store.metric_name
       (Store.performance_metrics
          (final ("record_system_metric" :: MetricsService.methods)))
     = ["improvement_needed_performance"; "improvement_needed_clarity"].
Proof.
  cbv zeta. split; [reflexivity|]. split; [apply improvement_areas_in_taxonomy|].
  repeat split; vm_compute; reflexivity.
Qed.

(** ** Model optimization: [LearningService._run_model_optimization] *)

Lemma filter_rating_length (p : Z -> bool) (rows : list Store.Feedback) :
  List.length (filter (fun f => p (Store.rating f)) rows)
  = List.length (filter p (map Store.rating rows)).
Proof.
  induction rows as [|f l IH]; [reflexivity|].
  cbn. destruct (p (Store.rating f)); cbn; now rewrite IH.
Qed.

Lemma AVG_rating_of_ratings (rows : list Store.Feedback) :
  LearningService.AVG_rating rows
  = match map Store.rating rows with
    | [] => None
    | _ :: _ => Some (MetricsService.AVG (map inject_Z (map Store.rating rows)))
    end.
Proof.
  destruct rows as [|f l]; [reflexivity|].
  unfold LearningService.AVG_rating. now rewrite map_map.
Qed.

(** With no feedback in the window the handler returns an error marker and
    leaves the service as it was. *)
Lemma model_optimization_without_feedback (e : LearningService.Env)
  (v : LearningService.Service) (session : Store.Session) (id : string) :
  LearningService.window_feedback (LearningService.now e) (Store.working session)
  = [] ->
  exists msg,
    LearningService._run_model_optimization e v session id
    = (v, session, [("error", Store.JStr msg)]).
Proof.
  intros H. unfold LearningService._run_model_optimization. rewrite H.
  eexists. reflexivity.
Qed.

(** Average below 3.0 over at least ten entries: the handler tunes in
    conservative mode and its result lists [conservative_tuning] first,
    without an error marker. *)
Lemma model_optimization_conservative (e : LearningService.Env)
  (v : LearningService.Service) (session : Store.Session) (id : string)
  (avg : Q) :
  let rows :=
    LearningService.window_feedback (LearningService.now e)
      (Store.working session) in
  LearningService.AVG_rating rows = Some avg ->
  (avg < 3)%Q -> 10 <= Z.of_nat (List.length rows) ->
  exists analysis tags extra,
    LearningService._run_model_optimization e v session id
    = (LearningService.incr_model_adjustments
         (LearningService.mkService (LearningService.learning_metrics v)
            (AIService.optimize_model_parameters
               (AIService.mkFeedbackAnalysis (Some avg)
                  (Some (Z.of_nat (List.length rows))) None (Some "conservative"))
               (LearningService.model_config v))),
       session,
       ([("session_id", Store.JStr id); ("analysis", analysis);
         ("optimizations_applied",
          Store.JList (Store.JStr "conservative_tuning" :: tags))]
        ++ extra)%list)
    /\ Store.has_key "error" extra = false.
Proof.
  intros rows Havg Hlt Hn. unfold LearningService._run_model_optimization.
  fold rows. rewrite Havg. apply Qltb_true in Hlt. apply Z.leb_le in Hn.
  rewrite Hlt, Hn. cbn [andb].
  destruct (5 <? _); eexists _, _, _; split; reflexivity.
Qed.

Lemma has_key_app (k : string) (a b : Store.dict) :
  Store.has_key k (a ++ b)%list = Store.has_key k a || Store.has_key k b.
Proof. apply existsb_app. Qed.

(** C8. Ten feedback entries in the 7-day window with ratings
    1,1,2,2,1,2,1,2,1,2 (average 1.5) and a temperature of 0.7: the run of
    a [model_optimization] session tunes in conservative mode, the
    temperature becomes max(0.3, 0.7 - 0.1) = 0.6, and the session is
    completed with an output whose applied optimizations include
    [conservative_tuning]. *)
Theorem low_ratings_conservative_tuning (kx ca : LearningService.handler)
  (e : LearningService.Env) (v : LearningService.Service) (db : Store.t)
  (id : string) (r0 : Store.LearningSession)
  (Hratings :
     map Store.rating (LearningService.window_feedback (LearningService.now e) db)
     = Scenario.low_ratings)
  (Htemp :
     (AIService.temperature (LearningService.model_config v) == 7 # 10)%Q)
  (Hsession : Store.find_session id db = Some r0) :
  let out :=
    LearningService.run_learning_session kx ca LearningService.no_faults e v
      db id "model_optimization" in
  (AIService.temperature (LearningService.model_config (fst out))
   == Qmax (3 # 10) ((7 # 10) - (1 # 10)))%Q
  /\ (AIService.temperature (LearningService.model_config (fst out)) == 6 # 10)%Q
  /\ exists r result tags,
       Store.find_session id (snd out) = Some r
       /\ Store.status r = Store.completed
       /\ Store.output_data r = Some (Store.JDict result)
       /\ Store.lookup "optimizations_applied" result = Some (Store.JList tags)
       /\ In (Store.JStr "conservative_tuning") tags.
Proof.
  set (s1 := LearningService.promote e (Store.open db) id).
  set (rows := LearningService.window_feedback (LearningService.now e)
                 (Store.working s1)).
  assert (Hr : map Store.rating rows = Scenario.low_ratings)
    by exact Hratings.
  assert (Hlen : List.length rows = 10%nat).
  { rewrite <- (length_map Store.rating), Hr. reflexivity. }
  assert (Havg : LearningService.AVG_rating rows
                 = Some (MetricsService.AVG
                           (map inject_Z Scenario.low_ratings))).
  { rewrite AVG_rating_of_ratings, Hr. reflexivity. }
  destruct (model_optimization_conservative e v s1 id _ Havg)
    as (analysis & tags & extra & Hrun & Hextra);
    [reflexivity | fold rows; rewrite Hlen; discriminate |].
  fold rows in Hrun. rewrite Hlen in Hrun.
  cbv zeta. unfold LearningService.run_learning_session.
  cbn [LearningService.on_promote LearningService.on_finalize
       LearningService.no_faults].
  fold s1. unfold LearningService.dispatch. rewrite String.eqb_refl, Hrun.
  rewrite has_key_app, Hextra. cbn [fst snd].
  assert (Ht : (AIService.temperature
                  (AIService.optimize_model_parameters
                     (AIService.mkFeedbackAnalysis
                        (Some (MetricsService.AVG
                                 (map inject_Z Scenario.low_ratings)))
                        (Some (Z.of_nat 10)) None (Some "conservative"))
                     (LearningService.model_config v)) == 6 # 10)%Q).
  { rewrite tuner_conservative; [|reflexivity|discriminate].
    unfold Py.max. destruct (Py.Qltb _ _) eqn:E.
    - rewrite Htemp. reflexivity.
    - apply Qltb_false in E. rewrite Htemp in E. now contradiction E. }
  split; [|split].
  - cbn. rewrite Ht. reflexivity.
  - cbn. exact Ht.
  - eexists _, _, _. split.
    + unfold Store.close. cbn [Store.commit Store.execute Store.committed
                               Store.working].
      rewrite find_session_update by reflexivity.
      subst s1. unfold LearningService.promote.
      cbn [Store.commit Store.execute Store.committed Store.working Store.open].
      rewrite find_session_update by reflexivity.
      rewrite Hsession. reflexivity.
    + split; [|split; [reflexivity|split; [reflexivity|now left]]].
      cbn [LearningService.finalize Store.status].
      now rewrite has_key_app, Hextra.
Qed.

(** The scenario on a store: the ratings of day 99 seen on day 100, the
    initial configuration, a pending session. *)
Lemma low_ratings_conservative_tuning_witness :
  let e := Scenario.env Scenario.day_100 "a" in
  let out :=
    LearningService.run_learning_session Scenario.idle_handler
      Scenario.idle_handler LearningService.no_faults e Scenario.fresh_service
      Scenario.low_rated_week "s1" "model_optimization" in
  map Store.rating
    (LearningService.window_feedback (LearningService.now e)
       Scenario.low_rated_week) = Scenario.low_ratings
  /\ (AIService.temperature (LearningService.model_config Scenario.fresh_service)
      == 7 # 10)%Q
  /\ Store.find_session "s1" Scenario.low_rated_week
     = Some Scenario.pending_session
  /\ (AIService.temperature (LearningService.model_config (fst out)) == 6 # 10)%Q
  /\ option_map Store.status (Store.find_session "s1" (snd out))
     = Some Store.completed
  /\ option_map (fun r =>
        match Store.output_data r with
        | Some (Store.JDict d) => Store.lookup "optimizations_applied" d
        | _ => None
        end) (Store.find_session "s1" (snd out))
     = Some (Some (Store.JList [Store.JStr "conservative_tuning"])).
Proof.
  cbv zeta.
  refine (conj eq_refl (conj (Qeq_refl _) (conj eq_refl (conj _ _)))).
  - exact (proj1 (proj2 (low_ratings_conservative_tuning Scenario.idle_handler
             Scenario.idle_handler (Scenario.env Scenario.day_100 "a")
             Scenario.fresh_service Scenario.low_rated_week "s1"
             Scenario.pending_session eq_refl (Qeq_refl _) eq_refl))).
  - split; vm_compute; reflexivity.
Defined.

(** * Further properties of the services *)

(** ** knowledge_service.py: reading an item *)

Lemma find_item_after_touch (now : Z) (id : string)
  (l : list Store.KnowledgeItem) :
  find (fun k => String.eqb (Store.k_id k) id)
       (map (fun k => if String.eqb (Store.k_id k) id
                      then KnowledgeService.touch now k else k) l)
  = option_map (KnowledgeService.touch now)
      (find (fun k => String.eqb (Store.k_id k) id) l).
Proof.
  induction l as [|k l IH]; [reflexivity|].
  cbn. destruct (String.eqb (Store.k_id k) id) eqn:E; cbn; rewrite E.
  - reflexivity.
  - exact IH.
Qed.

(** X1. Reading an item that exists returns the row as it was before the
    read was counted: the usage count and the last use in the answer are
    the old ones, while the stored row, committed, has the count raised by
    one and the time of this read as its last use. *)
Theorem get_knowledge_item_answers_before_counting (now : Z)
  (db_session : Store.Session) (knowledge_id : string)
  (k : Store.KnowledgeItem)
  (Hfound : find (fun x => String.eqb (Store.k_id x) knowledge_id)
                 (Store.knowledge_base (Store.working db_session)) = Some k) :
  let out := KnowledgeService.get_knowledge_item now db_session knowledge_id in
  (exists d, snd out = Some d
     /\ Store.lookup "usage_count" d = Some (Store.JInt (Store.usage_count k))
     /\ Store.lookup "last_used_at" d
        = Some (KnowledgeService.json_of_option Store.JInt (Store.last_used_at k)))
  /\ (exists k',
        find (fun x => String.eqb (Store.k_id x) knowledge_id)
             (Store.knowledge_base (Store.committed (fst out))) = Some k'
        /\ Store.usage_count k' = Store.usage_count k + 1
        /\ Store.last_used_at k' = Some now
        /\ Store.confidence_score k' = Store.confidence_score k
        /\ Store.source k' = Store.source k).
Proof.
  cbv zeta. unfold KnowledgeService.get_knowledge_item. rewrite Hfound.
  cbn [fst snd]. split.
  - eexists. split; [reflexivity|]. split; reflexivity.
  - exists (KnowledgeService.touch now k). split; [|repeat split].
    cbn. rewrite find_item_after_touch, Hfound. reflexivity.
Qed.

Lemma get_knowledge_item_answers_before_counting_witness :
  let s := Store.open (Scenario.knowledge_only (Scenario.unused_item (4 # 10) 0)) in
  let out := KnowledgeService.get_knowledge_item Scenario.day_100 s "k1" in
  option_map (Store.lookup "usage_count") (snd out)
  = Some (Some (Store.JInt 0))
  /\ exists k',
       find (fun x => String.eqb (Store.k_id x) "k1")
            (Store.knowledge_base (Store.committed (fst out))) = Some k'
       /\ Store.usage_count k' = 0 + 1
       /\ Store.last_used_at k' = Some Scenario.day_100
       /\ Store.confidence_score k' = 4 # 10
       /\ Store.source k' = "learning_session".
Proof.
  cbv zeta. split; [reflexivity|].
  exact (proj2 (get_knowledge_item_answers_before_counting Scenario.day_100
                  (Store.open (Scenario.knowledge_only
                                 (Scenario.unused_item (4 # 10) 0)))
                  "k1" (Scenario.unused_item (4 # 10) 0) eq_refl)).
Defined.

(** Reading an id that is not stored answers [None] and changes nothing. *)
Lemma get_knowledge_item_missing (now : Z) (db_session : Store.Session)
  (knowledge_id : string) :
  find (fun x => String.eqb (Store.k_id x) knowledge_id)
       (Store.knowledge_base (Store.working db_session)) = None ->
  KnowledgeService.get_knowledge_item now db_session knowledge_id
  = (db_session, None).
Proof.
  intros H. unfold KnowledgeService.get_knowledge_item. now rewrite H.
Qed.

(** After reads at the given times the stored row has been counted once
    per read; confidence and source are as they were. *)
Lemma read_at_counts (times : list Z) (db_session : Store.Session)
  (knowledge_id : string) (k : Store.KnowledgeItem) :
  find (fun x => String.eqb (Store.k_id x) knowledge_id)
       (Store.knowledge_base (Store.working db_session)) = Some k ->
  exists k',
    find (fun x => String.eqb (Store.k_id x) knowledge_id)
         (Store.knowledge_base
            (Store.working (Calls.read_at times db_session knowledge_id)))
    = Some k'
    /\ Store.usage_count k' = Store.usage_count k + Z.of_nat (List.length times)
    /\ Store.confidence_score k' = Store.confidence_score k
    /\ Store.source k' = Store.source k.
Proof.
  revert db_session k. induction times as [|t ts IH]; intros s k Hk.
  - exists k. cbn. rewrite Z.add_0_r. now repeat split.
  - unfold Calls.read_at. cbn [fold_left].
    assert (Hk1 : find (fun x => String.eqb (Store.k_id x) knowledge_id)
                    (Store.knowledge_base
                       (Store.working
                          (fst (KnowledgeService.get_knowledge_item t s
                                  knowledge_id))))
                  = Some (KnowledgeService.touch t k)).
    { unfold KnowledgeService.get_knowledge_item. rewrite Hk. cbn.
      now rewrite find_item_after_touch, Hk. }
    destruct (IH _ _ Hk1) as (k' & Hf & Hu & Hc & Hs).
    exists k'. split; [exact Hf|]. cbn [List.length] in *.
    rewrite Hu, Hc, Hs. cbn. repeat split. lia.
Qed.

(** X2. An item that has been read five times or more is out of reach of
    the retention sweep: whatever its confidence, its age and the cutoff,
    the selection of the sweep rejects the stored row. *)
Theorem item_read_five_times_is_kept (times : list Z)
  (db_session : Store.Session) (knowledge_id : string)
  (k : Store.KnowledgeItem)
  (Hfound : find (fun x => String.eqb (Store.k_id x) knowledge_id)
                 (Store.knowledge_base (Store.working db_session)) = Some k)
  (Hcount : 0 <= Store.usage_count k)
  (Hreads : (5 <= List.length times)%nat) :
  exists k',
    find (fun x => String.eqb (Store.k_id x) knowledge_id)
         (Store.knowledge_base
            (Store.working (Calls.read_at times db_session knowledge_id)))
    = Some k'
    /\ Store.usage_count k' = Store.usage_count k + Z.of_nat (List.length times)
    /\ forall cutoff, KnowledgeService.sweep_selects cutoff k' = false.
Proof.
  destruct (read_at_counts times db_session knowledge_id k Hfound)
    as (k' & Hf & Hu & _ & _).
  exists k'. repeat split; try assumption.
  intros cutoff. unfold KnowledgeService.sweep_selects.
  assert (E : (Store.usage_count k' <? 5) = false) by (apply Z.ltb_ge; lia).
  rewrite E. now rewrite andb_false_r.
Qed.

Lemma item_read_five_times_is_kept_witness :
  let s := Store.open (Scenario.knowledge_only (Scenario.unused_item (4 # 10) 0)) in
  KnowledgeService.sweep_selects 0 (Scenario.unused_item (4 # 10) 0) = true
  /\ exists k',
       find (fun x => String.eqb (Store.k_id x) "k1")
            (Store.knowledge_base
               (Store.working (Calls.read_at [1; 2; 3; 4; 5] s "k1")))
       = Some k'
       /\ Store.usage_count k' = 0 + Z.of_nat 5
       /\ forall cutoff, KnowledgeService.sweep_selects cutoff k' = false.
Proof.
  cbv zeta. split; [reflexivity|].
  refine (item_read_five_times_is_kept [1; 2; 3; 4; 5]
            (Store.open (Scenario.knowledge_only
                           (Scenario.unused_item (4 # 10) 0)))
            "k1" (Scenario.unused_item (4 # 10) 0) eq_refl _ _).
  - discriminate.
  - apply Nat.leb_le. reflexivity.
Defined.

(** ** What the pipeline stores and what the sweep selects *)

Lemma confident_item_not_selected (cutoff : Z) (k : Store.KnowledgeItem) :
  (5 # 10 <= Store.confidence_score k)%Q ->
  KnowledgeService.sweep_selects cutoff k = false.
Proof.
  intros H. unfold KnowledgeService.sweep_selects.
  apply Qltb_false in H. rewrite H. now rewrite andb_false_r.
Qed.

Lemma add_knowledge_item_appends (id chroma : string) (now : Z)
  (s : Store.Session) (title content : string) (category : option string)
  (tags : list string) (source : string) (confidence : Q) :
  exists row,
    Store.knowledge_base
      (Store.working
         (fst (KnowledgeService.add_knowledge_item id chroma now s title
                 content category tags source confidence)))
    = (Store.knowledge_base (Store.working s) ++ [row])%list
    /\ Store.confidence_score row = confidence
    /\ Store.source row = source
    /\ Store.category row = category
    /\ Store.k_content row = content.
Proof. eexists. cbn. repeat split. Qed.

Lemma expand_knowledge_appends (e : LearningService.Env)
  (rows : list LearningService.ProblematicResponse) :
  forall (i : nat) (v : LearningService.Service) (s : Store.Session)
         (gaps : list LearningService.Gap) (n : Z),
  let out := LearningService.expand_knowledge e i rows (v, s, gaps, n) in
  exists added more,
    Store.knowledge_base (Store.working (snd (fst (fst out))))
    = (Store.knowledge_base (Store.working s) ++ added)%list
    /\ snd (fst out) = (gaps ++ more)%list
    /\ snd out = n + Z.of_nat (List.length added)
    /\ List.length more = List.length added
    /\ (List.length added <= List.length rows)%nat
    /\ Forall (fun k => Store.confidence_score k = 6 # 10
                        /\ Store.source k = "learning_session"
                        /\ Store.category k = Some "lacunas_identificadas")
              added.
Proof.
  induction rows as [|[[c cnt] avg] rows IH]; intros i v s gaps n.
  - exists [], []. cbn. rewrite !app_nil_r, Z.add_0_r. repeat split; auto.
  - cbn [LearningService.expand_knowledge].
    destruct (LearningService._identify_knowledge_gap c) as [gap|].
    + cbn [KnowledgeService.add_knowledge_item].
      match goal with
      | |- context [LearningService.expand_knowledge e (S i) rows (?v', ?s', ?g', ?n')] =>
          destruct (IH (S i) v' s' g' n')
            as (added & more & Hkb & Hg & Hn & Hl & Hle & Hall)
      end.
      cbv zeta in Hkb, Hg, Hn.
      eexists (_ :: added), (gap :: more). cbv zeta.
      rewrite Hkb, Hg, Hn. cbn [Store.commit Store.execute Store.working
                                Store.set_knowledge_base Store.knowledge_base].
      rewrite <- !app_assoc. cbn [app List.length].
      repeat split; try reflexivity; try lia.
      constructor; [repeat split | exact Hall].
    + destruct (IH (S i) v s gaps n)
        as (added & more & Hkb & Hg & Hn & Hl & Hle & Hall).
      exists added, more. cbv zeta in *. cbn [List.length].
      repeat split; try assumption. lia.
Qed.

Lemma expand_knowledge_frame (e : LearningService.Env)
  (rows : list LearningService.ProblematicResponse) :
  forall (i : nat) (v : LearningService.Service) (s : Store.Session)
         (gaps : list LearningService.Gap) (n : Z),
  let s' :=
    snd (fst (fst (LearningService.expand_knowledge e i rows (v, s, gaps, n)))) in
  Store.feedback (Store.working s') = Store.feedback (Store.working s)
  /\ Store.messages (Store.working s') = Store.messages (Store.working s)
  /\ Store.performance_metrics (Store.working s')
     = Store.performance_metrics (Store.working s)
  /\ Store.learning_sessions (Store.working s')
     = Store.learning_sessions (Store.working s).
Proof.
  induction rows as [|[[c cnt] avg] rows IH]; intros i v s gaps n.
  - cbn. auto.
  - cbn [LearningService.expand_knowledge].
    destruct (LearningService._identify_knowledge_gap c) as [gap|].
    + cbn [KnowledgeService.add_knowledge_item].
      match goal with
      | |- context [LearningService.expand_knowledge e (S i) rows (?v', ?s', ?g', ?n')] =>
          destruct (IH (S i) v' s' g' n') as (H1 & H2 & H3 & H4)
      end.
      cbv zeta in *. rewrite H1, H2, H3, H4. cbn. auto.
    + apply IH.
Qed.

Lemma positive_feedback_appends (e : LearningService.Env)
  (v : LearningService.Service) (session : Store.Session)
  (message_content : string) (comment : option string)
  (conversation_id : string) :
  exists added,
    Store.knowledge_base
      (Store.working
         (snd (LearningService._process_positive_feedback e v session
                 message_content comment conversation_id)))
    = (Store.knowledge_base (Store.working session) ++ added)%list
    /\ (List.length added <= 2)%nat
    /\ Forall (fun k => (8 # 10 <= Store.confidence_score k)%Q) added.
Proof.
  unfold LearningService._process_positive_feedback.
  destruct (100 <? Py.len message_content)%nat;
    destruct (Py.truthy comment && _); cbn.
  - eexists [_; _]. rewrite <- app_assoc. cbn.
    repeat split; [lia|]. repeat constructor; cbn; discriminate.
  - eexists [_]. repeat split; [cbn; lia|]. repeat constructor; cbn; discriminate.
  - eexists [_]. repeat split; [cbn; lia|]. repeat constructor; cbn; discriminate.
  - exists []. rewrite app_nil_r. repeat split; [cbn; lia | constructor].
Qed.

(** X3. Nothing the pipeline stores can be selected by the retention
    sweep.  The rows that positive feedback, feedback-derived knowledge and
    knowledge expansion add to the knowledge base carry a confidence of
    0.9, 0.8 or 0.6, and the sweep only selects rows below 0.5: for every
    cutoff the selection rejects each added row. *)
Theorem pipeline_knowledge_is_never_swept :
  (forall e v session message_content comment conversation_id,
     exists added,
       Store.knowledge_base
         (Store.working
            (snd (LearningService._process_positive_feedback e v session
                    message_content comment conversation_id)))
       = (Store.knowledge_base (Store.working session) ++ added)%list
       /\ Forall (fun k => forall cutoff,
                    KnowledgeService.sweep_selects cutoff k = false) added)
  /\ (forall id chroma now session feedback_data,
        exists added,
          Store.knowledge_base
            (Store.working
               (KnowledgeService.update_knowledge_from_feedback id chroma now
                  session feedback_data))
          = (Store.knowledge_base (Store.working session) ++ added)%list
          /\ Forall (fun k => forall cutoff,
                       KnowledgeService.sweep_selects cutoff k = false) added)
  /\ (forall order e v session session_id,
        exists added,
          Store.knowledge_base
            (Store.working
               (snd (fst (LearningService._run_knowledge_expansion order e v
                            session session_id))))
          = (Store.knowledge_base (Store.working session) ++ added)%list
          /\ Forall (fun k => forall cutoff,
                       KnowledgeService.sweep_selects cutoff k = false) added).
Proof.
  repeat apply conj.
  - intros e v session mc c conv.
    destruct (positive_feedback_appends e v session mc c conv)
      as (added & Hkb & _ & Hall).
    exists added. split; [exact Hkb|].
    eapply Forall_impl; [|exact Hall]. intros k Hk cutoff.
    cbv beta in Hk. apply confident_item_not_selected.
    apply Qle_trans with (8 # 10)%Q; [discriminate | exact Hk].
  - intros id chroma now session fd.
    unfold KnowledgeService.update_knowledge_from_feedback. cbv zeta.
    destruct ((4 <=? _) && _);
      [destruct (50 <? _)%nat|];
      [ | exists []; rewrite app_nil_r; split; [reflexivity | constructor] ..].
    eexists [_]. split; [reflexivity|]. constructor; [|constructor].
    intros cutoff. apply confident_item_not_selected. cbn. discriminate.
  - intros order e v session sid.
    unfold LearningService._run_knowledge_expansion.
    destruct (expand_knowledge_appends e
                (LearningService.problematic_responses order
                   (LearningService.now e) (Store.working session))
                0 v session [] 0)
      as (added & more & Hkb & _ & _ & _ & _ & Hall).
    cbv zeta in Hkb.
    destruct (LearningService.expand_knowledge _ _ _ _) as [[[v1 s1] gaps] n].
    cbn [fst snd] in *. exists added. split; [exact Hkb|].
    eapply Forall_impl; [|exact Hall]. intros k (Hc & _ & _) cutoff.
    apply confident_item_not_selected. rewrite Hc. discriminate.
Qed.

(** X4. A knowledge-expansion run reports what it did: the counter
    [new_knowledge_items] of its result is the number of rows it added to
    the knowledge base, which is also the number of gaps it lists and is
    at most 10; every added row is a placeholder of category
    [lacunas_identificadas], confidence 0.6 and source [learning_session];
    the result has no [error] key and no other table changes. *)
Theorem knowledge_expansion_reports_its_insertions
  (order : list LearningService.ProblematicResponse
           -> list LearningService.ProblematicResponse)
  (e : LearningService.Env) (v : LearningService.Service)
  (session : Store.Session) (session_id : string) :
  let out :=
    LearningService._run_knowledge_expansion order e v session session_id in
  let s' := snd (fst out) in
  let result := snd out in
  exists added gaps,
    Store.knowledge_base (Store.working s')
    = (Store.knowledge_base (Store.working session) ++ added)%list
    /\ Store.lookup "new_knowledge_items" result
       = Some (Store.JInt (Z.of_nat (List.length added)))
    /\ Store.lookup "knowledge_gaps_identified" result
       = Some (Store.JList (map LearningService.gap_json gaps))
    /\ List.length gaps = List.length added
    /\ (List.length added <= 10)%nat
    /\ Forall (fun k => Store.confidence_score k = 6 # 10
                        /\ Store.source k = "learning_session"
                        /\ Store.category k = Some "lacunas_identificadas")
              added
    /\ Store.has_key "error" result = false
    /\ Store.feedback (Store.working s') = Store.feedback (Store.working session)
    /\ Store.messages (Store.working s') = Store.messages (Store.working session)
    /\ Store.learning_sessions (Store.working s')
       = Store.learning_sessions (Store.working session).
Proof.
  cbv zeta. unfold LearningService._run_knowledge_expansion.
  set (rows := LearningService.problematic_responses order
                 (LearningService.now e) (Store.working session)).
  assert (Hrows : (List.length rows <= 10)%nat)
    by (subst rows; apply firstn_le_length).
  destruct (expand_knowledge_appends e rows 0 v session [] 0)
    as (added & more & Hkb & Hg & Hn & Hl & Hle & Hall).
  destruct (expand_knowledge_frame e rows 0 v session [] 0)
    as (Hf & Hm & _ & Hs).
  cbv zeta in *.
  destruct (LearningService.expand_knowledge _ _ _ _) as [[[v1 s1] gaps] n].
  cbn [fst snd] in *. subst gaps n. exists added, more.
  repeat split; try assumption; lia.
Qed.

(** ** Retention of metrics and the trend series *)

Lemma filter_and {A} (P Q : A -> bool) (l : list A) :
  filter (fun x => P x && Q x) l = filter Q (filter P l).
Proof.
  induction l as [|x l IH]; [reflexivity|]. cbn.
  destruct (P x); cbn; [destruct (Q x)|]; now rewrite IH.
Qed.

Lemma filter_filter_impl {A} (P Q : A -> bool) (l : list A) :
  (forall x, P x = true -> Q x = true) ->
  filter P (filter Q l) = filter P l.
Proof.
  intros H. induction l as [|x l IH]; [reflexivity|]. cbn.
  destruct (Q x) eqn:Hq; cbn.
  - now rewrite IH.
  - destruct (P x) eqn:Hp; [|exact IH].
    apply H in Hp. congruence.
Qed.

(** The trend series read the feedback and the [response_time] metrics and
    nothing else. *)
Lemma trends_of_response_times (s s' : Store.Session) (now days : Z) :
  Store.feedback (Store.working s) = Store.feedback (Store.working s') ->
  filter (fun m => String.eqb (Store.metric_name m) "response_time")
         (Store.performance_metrics (Store.working s))
  = filter (fun m => String.eqb (Store.metric_name m) "response_time")
           (Store.performance_metrics (Store.working s')) ->
  MetricsService.get_performance_trends s now days
  = MetricsService.get_performance_trends s' now days.
Proof.
  intros Hf Hm. unfold MetricsService.get_performance_trends. cbv zeta.
  rewrite Hf.
  rewrite !(filter_and
              (fun m => String.eqb (Store.metric_name m) "response_time")
              (fun m => Store.now_minus_days now days <=? Store.timestamp m)).
  now rewrite Hm.
Qed.

(** X5. The retention sweep of the metrics never changes a trend report
    of 30 days or less: for [days <= 30], the series read at or after the
    time of the sweep are the same with and without it, since every row
    the report reads is younger than the sweep's cutoff. *)
Theorem cleanup_old_metrics_keeps_trends (swept_at read_at days : Z)
  (db_session : Store.Session) :
  days <= MetricsService.metrics_retention_days ->
  swept_at <= read_at ->
  MetricsService.get_performance_trends
    (MetricsService.cleanup_old_metrics swept_at db_session) read_at days
  = MetricsService.get_performance_trends db_session read_at days.
Proof.
  intros Hdays Htime.
  unfold MetricsService.get_performance_trends,
    MetricsService.cleanup_old_metrics. cbn.
  f_equal. rewrite filter_filter_impl; [reflexivity|].
  intros m Hm. apply andb_prop in Hm. destruct Hm as [_ Hm].
  apply Z.leb_le in Hm. apply negb_true_iff, Z.ltb_ge.
  unfold Store.now_minus_days, MetricsService.metrics_retention_days,
    Store.seconds_per_day in *. lia.
Qed.

Lemma cleanup_old_metrics_keeps_trends_witness :
  7 <= MetricsService.metrics_retention_days
  /\ Scenario.day_100 <= Scenario.day_100
  /\ List.length
       (Store.performance_metrics
          (Store.close
             (MetricsService.cleanup_old_metrics Scenario.day_100
                (Store.open Calls.old_and_recent_metrics)))) = 1%nat
  /\ MetricsService.get_performance_trends
       (MetricsService.cleanup_old_metrics Scenario.day_100
          (Store.open Calls.old_and_recent_metrics)) Scenario.day_100 7
     = MetricsService.get_performance_trends
         (Store.open Calls.old_and_recent_metrics) Scenario.day_100 7.
Proof.
  split; [unfold MetricsService.metrics_retention_days; lia|].
  split; [lia|]. split; [reflexivity|].
  apply (cleanup_old_metrics_keeps_trends Scenario.day_100 Scenario.day_100 7).
  - unfold MetricsService.metrics_retention_days; lia.
  - lia.
Defined.

(** ** Running the trend analysis again *)

Lemma checks_append (now : Z)
  (satisfaction_trend : list MetricsService.SatisfactionPoint)
  (response_time_trend : list MetricsService.ResponseTimePoint) :
  exists alerts,
    (List.length alerts <= 2)%nat
    /\ Forall (fun m => Store.metric_name m = "system_alert"
                        /\ Store.timestamp m = now) alerts
    /\ forall db,
         Store.close
           (CeleryTasks.check_response_time now response_time_trend
              (CeleryTasks.check_satisfaction now satisfaction_trend
                 (Store.open db)))
         = Store.set_performance_metrics (fun ms => (ms ++ alerts)%list) db.
Proof.
  unfold CeleryTasks.check_response_time, CeleryTasks.check_satisfaction.
  destruct (3 <=? List.length satisfaction_trend)%nat;
    [destruct (Py.Qltb _ 3)|];
    (destruct (3 <=? List.length response_time_trend)%nat;
     [destruct (Py.Qltb 5 _)|]);
    cbv zeta;
    try (exists []; split; [cbn; lia|]; split; [constructor|];
         intros [f m k p l]; cbn; unfold Store.set_performance_metrics; cbn;
         now rewrite app_nil_r).
  - eexists [_; _]. split; [|split]; cycle 2.
    + intros db. cbn. unfold Store.set_performance_metrics. cbn.
      rewrite <- app_assoc. reflexivity.
    + cbn; lia.
    + repeat constructor.
  - eexists [_]. split; [|split]; cycle 2;
      [intros db; reflexivity | cbn; lia | repeat constructor].
  - eexists [_]. split; [|split]; cycle 2;
      [intros db; reflexivity | cbn; lia | repeat constructor].
  - eexists [_]. split; [|split]; cycle 2;
      [intros db; reflexivity | cbn; lia | repeat constructor].
  - eexists [_]. split; [|split]; cycle 2;
      [intros db; reflexivity | cbn; lia | repeat constructor].
Qed.

Lemma analyze_store (now : Z) (db : Store.t) :
  fst (CeleryTasks._analyze_performance_trends_async now db)
  = Store.close
      (CeleryTasks.check_response_time now
         (MetricsService.response_time
            (MetricsService.get_performance_trends (Store.open db) now 7))
         (CeleryTasks.check_satisfaction now
            (MetricsService.user_satisfaction
               (MetricsService.get_performance_trends (Store.open db) now 7))
            (Store.open db))).
Proof. reflexivity. Qed.

(** X6. The alerts of the trend analysis never enter the series it reads
    and are not remembered: running the analysis again on the store it left
    adds the same alerts a second time.  One run adds at most two rows, all
    named [system_alert]; after it every trend report is what it was
    before; after two runs the metrics are the old rows followed by the
    alerts twice, and no other table has changed. *)
Theorem trend_alerts_repeat_on_every_run (now : Z) (db : Store.t) :
  let db1 := fst (CeleryTasks._analyze_performance_trends_async now db) in
  let db2 := Calls.analyze_twice now db in
  exists alerts,
    Store.performance_metrics db1
    = (Store.performance_metrics db ++ alerts)%list
    /\ Store.performance_metrics db2
       = (Store.performance_metrics db ++ alerts ++ alerts)%list
    /\ (List.length alerts <= 2)%nat
    /\ Forall (fun m => Store.metric_name m = "system_alert") alerts
    /\ (forall read_at days,
          MetricsService.get_performance_trends (Store.open db1) read_at days
          = MetricsService.get_performance_trends (Store.open db) read_at days)
    /\ Store.feedback db2 = Store.feedback db
    /\ Store.messages db2 = Store.messages db
    /\ Store.knowledge_base db2 = Store.knowledge_base db
    /\ Store.learning_sessions db2 = Store.learning_sessions db.
Proof.
  cbv zeta. unfold Calls.analyze_twice.
  rewrite (analyze_store now db).
  destruct (checks_append now
              (MetricsService.user_satisfaction
                 (MetricsService.get_performance_trends (Store.open db) now 7))
              (MetricsService.response_time
                 (MetricsService.get_performance_trends (Store.open db) now 7)))
    as (alerts & Hlen & Hall & Hrun).
  rewrite (Hrun db).
  set (db1 := Store.set_performance_metrics (fun ms => (ms ++ alerts)%list) db).
  assert (Htrends : forall read_at days,
             MetricsService.get_performance_trends (Store.open db1) read_at days
             = MetricsService.get_performance_trends (Store.open db) read_at days).
  { intros read_at days. apply trends_of_response_times; [reflexivity|].
    cbn. rewrite filter_app.
    replace (filter _ alerts) with (@nil Store.Metric);
      [now rewrite app_nil_r|].
    clear - Hall. induction Hall as [|m l [Hm _] _ IH]; [reflexivity|].
    cbn. rewrite Hm. cbn. exact IH. }
  rewrite (analyze_store now db1), (Htrends now 7), (Hrun db1).
  exists alerts. subst db1. cbn. rewrite <- app_assoc.
  repeat split; try reflexivity; try assumption.
  eapply Forall_impl; [|exact Hall]. now intros m [Hm _].
Qed.

(** ** The counters of the AI service *)



Lemma account_counts (gs : list AIService.generation) :
  forall m,
    AIService.total_requests (fold_left AIService.account gs m)
    = AIService.total_requests m + Z.of_nat (List.length gs)
    /\ AIService.error_count (fold_left AIService.account gs m)
       = AIService.error_count m + Z.of_nat (Calls.raised_in gs).
Proof.
  unfold Calls.raised_in.
  induction gs as [|g gs IH]; intros m.
  - cbn. lia.
  - cbn [fold_left]. destruct (IH (AIService.account m g)) as [Ht He].
    rewrite Ht, He. destruct g; cbn -[Z.of_nat]; lia.
Qed.

Lemma rate_bounds (s n : Z) :
  0 <= s <= n -> 0 < n ->
  (inject_Z s / inject_Z n * inject_Z n == inject_Z s)%Q
  /\ (0 <= inject_Z s / inject_Z n)%Q /\ (inject_Z s / inject_Z n <= 1)%Q.
Proof.
  intros Hs Hn.
  assert (Hpos : (0 < inject_Z n)%Q) by (unfold Qlt; cbn; lia).
  repeat split.
  - field. intros H. rewrite H in Hpos. discriminate.
  - apply Qle_shift_div_l; [exact Hpos|]. rewrite Qmult_0_l.
    unfold Qle; cbn; lia.
  - apply Qle_shift_div_r; [exact Hpos|]. rewrite Qmult_1_l.
    unfold Qle; cbn; lia.
Qed.

Lemma account_consistent (m : AIService.PerformanceMetrics)
  (g : AIService.generation) :
  Calls.counters_consistent m -> Calls.counters_consistent (AIService.account m g).
Proof.
  intros (He & _). unfold Calls.counters_consistent.
  destruct g; cbn [AIService.account AIService._update_performance_metrics
                   AIService.total_requests AIService.error_count
                   AIService.success_rate];
    (split; [lia|]); apply rate_bounds; lia.
Qed.

Lemma after_generations_consistent (gs : list AIService.generation) :
  forall m, Calls.counters_consistent m ->
            Calls.counters_consistent (fold_left AIService.account gs m).
Proof.
  induction gs as [|g gs IH]; intros m Hm; [exact Hm|].
  cbn. apply IH, account_consistent, Hm.
Qed.

(** X7. After any sequence of generations the counters of the AI service
    agree with each other: [total_requests] is the number of generations,
    [error_count] the number that raised, [success_rate] times the total
    is the number that answered, and the rate lies between 0 and 1. *)
Theorem performance_counters_are_consistent
  (gs : list AIService.generation) :
  let m := AIService.after_generations gs in
  AIService.total_requests m = Z.of_nat (List.length gs)
  /\ AIService.error_count m = Z.of_nat (Calls.raised_in gs)
  /\ (AIService.success_rate m * inject_Z (Z.of_nat (List.length gs))
      == inject_Z (Z.of_nat (List.length gs - Calls.raised_in gs)))%Q
  /\ (0 <= AIService.success_rate m)%Q
  /\ (AIService.success_rate m <= 1)%Q.
Proof.
  cbv zeta. unfold AIService.after_generations.
  destruct (account_counts gs AIService.initial_performance_metrics)
    as [Ht He].
  destruct (after_generations_consistent gs
              AIService.initial_performance_metrics)
    as (Hb & Hr & H0 & H1).
  { unfold Calls.counters_consistent. cbn. repeat split; try lia; discriminate. }
  cbn in Ht, He. rewrite Ht, He in *.
  repeat split; try assumption.
  rewrite Hr. apply inject_Z_injective. lia.
Qed.




(** ** Saving feedback *)




(** A rating of 6, and a rating by a user the table [users] does not hold,
    on a stored message: the INSERT is refused and nothing is stored; a
    rating of 5 by a known user is stored. *)
Example save_feedback_on_m1 :
  let save users user_id rating :=
    FeedbackService.save_feedback "f3" "s" 1300 users
      (Store.open Scenario.two_ratings) "m1" user_id rating None "general" in
  Store.close (fst (save [] None 6)) = Scenario.two_ratings
  /\ snd (save [] None 6)
     = Py.Raise
         (Py.StoreError "violates check constraint feedback_rating_check")
  /\ Store.close (fst (save ["u1"] (Some "u2") 5)) = Scenario.two_ratings
  /\ snd (save ["u1"] (Some "u2") 5)
     = Py.Raise
         (Py.StoreError
            "violates foreign key constraint feedback_user_id_fkey")
  /\ snd (save ["u1"] (Some "u1") 5) = Py.Ok "f3"
  /\ List.length
       (Store.feedback (Store.close (fst (save ["u1"] (Some "u1") 5))))
     = 3%nat.
Proof. repeat split; vm_compute; reflexivity. Qed.

(** ** Marking feedback as processed *)







(** ** The two classifiers of negative comments *)

(** X11. The batch job and the learning service classify a negative
    comment by different keyword lists.  They agree, the batch label being
    the first area the learning service finds (or [general] when it finds
    none), on every comment that contains none of the four keywords only
    the batch job knows: [tempo], [erro], [unclear] and [mais detalhes]. *)
Theorem improvement_classifiers_agree (comment : string) :
  Py.any_in ["tempo"; "erro"; "unclear"; "mais detalhes"] (Py.lower comment)
  = false ->
  CeleryTasks._extract_improvement_area comment
  = hd "general" (LearningService.improvement_areas (Some comment)).
Proof.
  intros H. unfold Py.any_in in H. cbn [existsb] in H.
  apply orb_false_elim in H. destruct H as [H1 H].
  apply orb_false_elim in H. destruct H as [H2 H].
  apply orb_false_elim in H. destruct H as [H3 H].
  apply orb_false_elim in H. destruct H as [H4 _].
  destruct comment as [|a comment]; [reflexivity|].
  unfold CeleryTasks._extract_improvement_area,
    LearningService.improvement_areas.
  cbn [Py.truthy Py.dict_get]. cbv zeta.
  set (l := Py.lower (String a comment)) in *.
  unfold Py.any_in. cbn [existsb].
  rewrite H1, H2, H3, H4. cbn [orb].
  destruct (Py.contains "lento" l || _); [reflexivity|].
  destruct (Py.contains "errado" l || _); [reflexivity|].
  destruct (Py.contains "confuso" l || _); [reflexivity|].
  destruct (Py.contains "incompleto" l || _); reflexivity.
Qed.

Lemma improvement_classifiers_agree_witness :
  Py.any_in ["tempo"; "erro"; "unclear"; "mais detalhes"]
    (Py.lower Scenario.complaint) = false
  /\ CeleryTasks._extract_improvement_area Scenario.complaint = "performance"
  /\ LearningService.improvement_areas (Some Scenario.complaint)
     = ["performance"; "clarity"]
  /\ CeleryTasks._extract_improvement_area Scenario.complaint
     = hd "general" (LearningService.improvement_areas (Some Scenario.complaint)).
Proof.
  split; [reflexivity|]. split; [reflexivity|]. split; [reflexivity|].
  apply (improvement_classifiers_agree Scenario.complaint). reflexivity.
Defined.

(** ** Running the knowledge expansion again *)

Lemma expand_knowledge_titles (e : LearningService.Env)
  (rows : list LearningService.ProblematicResponse) :
  forall (i : nat) (v : LearningService.Service) (s : Store.Session)
         (gaps : list LearningService.Gap) (n : Z),
  exists added,
    Store.knowledge_base
      (Store.working
         (snd (fst (fst (LearningService.expand_knowledge e i rows
                           (v, s, gaps, n))))))
    = (Store.knowledge_base (Store.working s) ++ added)%list
    /\ map (fun k => (Store.title k, Store.k_content k)) added
       = map (fun g => ("Lacuna identificada: " ++ LearningService.topic g,
                        LearningService.suggested_content g))
             (flat_map (fun r : LearningService.ProblematicResponse =>
                          match LearningService._identify_knowledge_gap
                                  (fst (fst r)) with
                          | Some g => [g]
                          | None => []
                          end) rows).
Proof.
  induction rows as [|[[c cnt] avg] rows IH]; intros i v s gaps n.
  - exists []. cbn. now rewrite app_nil_r.
  - cbn [LearningService.expand_knowledge flat_map fst].
    destruct (LearningService._identify_knowledge_gap c) as [gap|].
    + cbn [KnowledgeService.add_knowledge_item].
      match goal with
      | |- context [LearningService.expand_knowledge e (S i) rows
                      (?v', ?s', ?g', ?n')] =>
          destruct (IH (S i) v' s' g' n') as (added & Hkb & Ht)
      end.
      eexists (_ :: added). rewrite Hkb.
      cbn [Store.commit Store.execute Store.working
           Store.set_knowledge_base Store.knowledge_base].
      rewrite <- app_assoc. split; [reflexivity|].
      cbn [map app]. now rewrite Ht.
    + destruct (IH (S i) v s gaps n) as (added & Hkb & Ht).
      exists added. now split.
Qed.

Lemma problematic_responses_reads
  (order : list LearningService.ProblematicResponse
           -> list LearningService.ProblematicResponse)
  (now now' : Z) (s s' : Store.t) :
  Store.DATE now' = Store.DATE now ->
  Store.messages s' = Store.messages s ->
  Store.feedback s' = Store.feedback s ->
  LearningService.problematic_responses order now' s'
  = LearningService.problematic_responses order now s.
Proof.
  intros Hd Hm Hf. unfold LearningService.problematic_responses,
    Store.current_date_minus. now rewrite Hd, Hm, Hf.
Qed.

(** X12. The knowledge expansion does not remember what it has added.
    Run again on the same day on the store the first run left, it finds
    the same problematic responses and adds placeholders with the same
    titles and contents a second time: the knowledge base is the old rows,
    the rows of the first run, and as many rows again. *)
Theorem knowledge_expansion_repeats_itself
  (order : list LearningService.ProblematicResponse
           -> list LearningService.ProblematicResponse)
  (e1 e2 : LearningService.Env) (v : LearningService.Service)
  (session : Store.Session) (id1 id2 : string) :
  Store.DATE (LearningService.now e2) = Store.DATE (LearningService.now e1) ->
  exists added1 added2,
    Store.knowledge_base
      (Store.working
         (snd (fst (LearningService._run_knowledge_expansion order e1 v
                      session id1))))
    = (Store.knowledge_base (Store.working session) ++ added1)%list
    /\ Store.knowledge_base
         (Store.working
            (snd (fst (Calls.expand_twice order e1 e2 v session id1 id2))))
       = (Store.knowledge_base (Store.working session)
          ++ added1 ++ added2)%list
    /\ map Store.title added2 = map Store.title added1
    /\ map Store.k_content added2 = map Store.k_content added1.
Proof.
  intros Hd. unfold Calls.expand_twice. cbv zeta.
  unfold LearningService._run_knowledge_expansion.
  set (rows := LearningService.problematic_responses order
                 (LearningService.now e1) (Store.working session)).
  destruct (expand_knowledge_titles e1 rows 0 v session [] 0)
    as (added1 & Hkb1 & Ht1).
  destruct (expand_knowledge_frame e1 rows 0 v session [] 0)
    as (Hf & Hm & _ & _).
  cbv zeta in Hf, Hm.
  destruct (LearningService.expand_knowledge e1 0 rows (v, session, [], 0))
    as [[[v1 s1] gaps1] n1].
  cbn [fst snd] in *.
  rewrite (problematic_responses_reads order (LearningService.now e1)
             (LearningService.now e2) (Store.working session)
             (Store.working s1) Hd Hm Hf).
  fold rows.
  destruct (expand_knowledge_titles e2 rows 0 v1 s1 [] 0)
    as (added2 & Hkb2 & Ht2).
  destruct (LearningService.expand_knowledge e2 0 rows (v1, s1, [], 0))
    as [[[v2 s2] gaps2] n2].
  cbn [fst snd] in *.
  exists added1, added2. rewrite Hkb2, Hkb1, <- app_assoc.
  assert (E : map (fun k => (Store.title k, Store.k_content k)) added2
              = map (fun k => (Store.title k, Store.k_content k)) added1)
    by congruence.
  split; [reflexivity|]. split; [reflexivity|]. split.
  - apply (f_equal (map fst)) in E. rewrite !map_map in E. exact E.
  - apply (f_equal (map snd)) in E. rewrite !map_map in E. exact E.
Qed.

Lemma knowledge_expansion_repeats_itself_witness :
  Store.DATE (LearningService.now (Scenario.env 3000 "b"))
  = Store.DATE (LearningService.now (Scenario.env 2000 "a"))
  /\ map Store.title
       (Store.knowledge_base
          (Store.working
             (snd (fst (Calls.expand_twice (fun l => l)
                          (Scenario.env 2000 "a") (Scenario.env 3000 "b")
                          Scenario.fresh_service
                          (Store.open Calls.poorly_rated_response)
                          "s1" "s2")))))
     = ["Lacuna identificada: api"; "Lacuna identificada: api"]
  /\ exists added1 added2,
       Store.knowledge_base
         (Store.working
            (snd (fst (LearningService._run_knowledge_expansion (fun l => l)
                         (Scenario.env 2000 "a") Scenario.fresh_service
                         (Store.open Calls.poorly_rated_response) "s1"))))
       = (Store.knowledge_base
            (Store.working (Store.open Calls.poorly_rated_response))
          ++ added1)%list
       /\ Store.knowledge_base
            (Store.working
               (snd (fst (Calls.expand_twice (fun l => l)
                            (Scenario.env 2000 "a") (Scenario.env 3000 "b")
                            Scenario.fresh_service
                            (Store.open Calls.poorly_rated_response)
                            "s1" "s2"))))
          = (Store.knowledge_base
               (Store.working (Store.open Calls.poorly_rated_response))
             ++ added1 ++ added2)%list
       /\ map Store.title added2 = map Store.title added1
       /\ map Store.k_content added2 = map Store.k_content added1.
Proof.
  split; [reflexivity|]. split; [vm_compute; reflexivity|].
  apply (knowledge_expansion_repeats_itself (fun l => l)
           (Scenario.env 2000 "a") (Scenario.env 3000 "b")).
  reflexivity.
Defined.

(** ** The comprehensive analysis *)

Lemma StronglySorted_app {A} (R : A -> A -> Prop) (l1 l2 : list A) :
  StronglySorted R l1 -> StronglySorted R l2 ->
  (forall a b, In a l1 -> In b l2 -> R a b) ->
  StronglySorted R (l1 ++ l2).
Proof.
  intros H1 H2 H. induction H1 as [|x l1 Hs IH Hx]; [exact H2|].
  cbn. constructor.
  - apply IH. intros a b Ha Hb. apply H; [now right | exact Hb].
  - apply Forall_app. split; [exact Hx|].
    apply Forall_forall. intros b Hb. apply H; [now left | exact Hb].
Qed.

Lemma StronglySorted_rev_lt (l : list Z) :
  StronglySorted Z.lt l -> StronglySorted (fun d d' => d' < d) (rev l).
Proof.
  intros H. induction H as [|x l Hs IH Hx]; [constructor|].
  cbn. apply StronglySorted_app; [exact IH | repeat constructor |].
  intros a b Ha [<- | []]. apply in_rev in Ha.
  rewrite Forall_forall in Hx. now apply Hx.
Qed.

Lemma StronglySorted_firstn {A} (R : A -> A -> Prop) (n : nat) (l : list A) :
  StronglySorted R l -> StronglySorted R (firstn n l).
Proof.
  intros H. revert n. induction H as [|x l Hs IH Hx]; intros [|n]; cbn;
    try constructor.
  - apply IH.
  - rewrite Forall_forall in *. intros y Hy. apply Hx.
    rewrite <- (firstn_skipn n l). apply in_or_app. now left.
Qed.

Lemma oldest_last {A} (key : A -> Z) (l : list A) :
  StronglySorted (fun d d' => d' < d) (map key l) ->
  forall (k : nat) (a b : A),
    In a (skipn k l) -> In b l -> key b < key a -> In b (skipn k l).
Proof.
  induction l as [|x l IH]; intros Hs k a b Ha Hb Hlt.
  - destruct k; exact Hb.
  - destruct k as [|k]; [exact Hb|]. cbn [skipn] in *.
    cbn [map] in Hs. apply StronglySorted_inv in Hs. destruct Hs as [Hs Hx].
    destruct Hb as [<- | Hb].
    + exfalso. rewrite Forall_forall in Hx.
      assert (Hin : In (key a) (map key l)).
      { apply in_map. rewrite <- (firstn_skipn k l). apply in_or_app.
        now right. }
      apply Hx in Hin. lia.
    + now apply (IH Hs k a b).
Qed.

Lemma performance_trend_dates (now : Z) (s : Store.t) :
  StronglySorted (fun d d' => d' < d)
    (map LearningService.pd_date
       (LearningService.performance_trend_query now s)).
Proof.
  unfold LearningService.performance_trend_query. cbv zeta.
  rewrite <- firstn_map, map_rev, map_map. cbn [LearningService.pd_date].
  rewrite map_id. apply StronglySorted_firstn, StronglySorted_rev_lt,
    days_of_StronglySorted.
Qed.

Lemma satisfaction_trend_dates (now : Z) (s : Store.t) :
  StronglySorted (fun d d' => d' < d)
    (map LearningService.sd_date
       (LearningService.satisfaction_trend_query now s)).
Proof.
  unfold LearningService.satisfaction_trend_query. cbv zeta.
  rewrite <- firstn_map, map_rev, map_map. cbn [LearningService.sd_date].
  rewrite map_id. apply StronglySorted_firstn, StronglySorted_rev_lt,
    days_of_StronglySorted.
Qed.

(** X13. The comprehensive analysis reads its two daily series newest
    day first, so the slices [[-3:]] it averages for its insights and
    [[-7:]] it reports are the oldest days of the series, not the latest:
    the dates of each series strictly decrease, and any day of a series
    that is older than a day of the slice is in the slice too. *)
Theorem comprehensive_analysis_slices_are_the_oldest_days (now : Z)
  (s : Store.t) :
  let performance_trend := LearningService.performance_trend_query now s in
  let satisfaction_trend := LearningService.satisfaction_trend_query now s in
  StronglySorted (fun d d' => d' < d)
    (map LearningService.pd_date performance_trend)
  /\ StronglySorted (fun d d' => d' < d)
       (map LearningService.sd_date satisfaction_trend)
  /\ (forall n a b,
        In a (Py.last_n n performance_trend) -> In b performance_trend ->
        LearningService.pd_date b < LearningService.pd_date a ->
        In b (Py.last_n n performance_trend))
  /\ (forall n a b,
        In a (Py.last_n n satisfaction_trend) -> In b satisfaction_trend ->
        LearningService.sd_date b < LearningService.sd_date a ->
        In b (Py.last_n n satisfaction_trend)).
Proof.
  cbv zeta. split; [apply performance_trend_dates|].
  split; [apply satisfaction_trend_dates|]. split.
  - intros n. unfold Py.last_n.
    apply (oldest_last LearningService.pd_date), performance_trend_dates.
  - intros n. unfold Py.last_n.
    apply (oldest_last LearningService.sd_date), satisfaction_trend_dates.
Qed.

Lemma recommendations_of_insights (recommendation : string)
  (insights : list string) :
  (exists i, In i insights
             /\ LearningService.recommendation_for i = [recommendation]) ->
  In recommendation (LearningService._generate_recommendations insights).
Proof.
  intros (i & Hi & Hr). unfold LearningService._generate_recommendations.
  assert (H : In recommendation
                (flat_map LearningService.recommendation_for insights)).
  { apply in_flat_map. exists i. split; [exact Hi|]. rewrite Hr. now left. }
  destruct (flat_map _ _); [contradiction | exact H].
Qed.

(** X14. When the three oldest days the comprehensive analysis has read
    average more than 3.0 seconds, its result carries the insight of a
    degraded performance and, among its recommendations, the one to
    optimise the infrastructure or the model; it has no [error] key and
    the handler writes nothing. *)
Theorem degraded_days_recommend_optimization
  (order : list LearningService.TopicRow -> list LearningService.TopicRow)
  (e : LearningService.Env) (v : LearningService.Service)
  (session : Store.Session) (session_id : string) :
  let performance_trend :=
    LearningService.performance_trend_query (LearningService.now e)
      (Store.working session) in
  let recent_times :=
    map LearningService.pd_avg_response_time (Py.last_n 3 performance_trend) in
  (3 <= List.length performance_trend)%nat ->
  (3 < Py.sum recent_times
       / inject_Z (Z.of_nat (List.length recent_times)))%Q ->
  let out :=
    LearningService._run_comprehensive_analysis order e v session session_id in
  exists insights recommendations,
    Store.lookup "insights" (snd out)
    = Some (Store.JList (map Store.JStr insights))
    /\ In "Performance degradada nos últimos dias - considerar otimização"
          insights
    /\ Store.lookup "recommendations" (snd out)
       = Some (Store.JList (map Store.JStr recommendations))
    /\ In "Otimizar infraestrutura ou modelo para melhorar tempo de resposta"
          recommendations
    /\ Store.has_key "error" (snd out) = false
    /\ fst out = (v, session).
Proof.
  cbv zeta. intros Hlen Havg.
  unfold LearningService._run_comprehensive_analysis. cbn [fst snd].
  eexists _, _. split; [reflexivity|]. split; [|split; [reflexivity|split]].
  - unfold LearningService._generate_system_insights.
    apply Nat.leb_le in Hlen. rewrite Hlen.
    apply Qltb_true in Havg. rewrite Havg.
    apply in_or_app. left. now left.
  - apply recommendations_of_insights.
    exists "Performance degradada nos últimos dias - considerar otimização".
    split; [|reflexivity].
    unfold LearningService._generate_system_insights.
    apply Nat.leb_le in Hlen. rewrite Hlen.
    apply Qltb_true in Havg. rewrite Havg.
    apply in_or_app. left. now left.
  - split; reflexivity.
Qed.

Lemma degraded_days_recommend_optimization_witness :
  let e := Scenario.env Scenario.day_100 "a" in
  let session := Store.open Calls.recovered_days in
  let performance_trend :=
    LearningService.performance_trend_query (LearningService.now e)
      (Store.working session) in
  let recent_times :=
    map LearningService.pd_avg_response_time (Py.last_n 3 performance_trend) in
  map LearningService.pd_date performance_trend = [99; 98; 97; 96; 95]
  /\ (3 <= List.length performance_trend)%nat
  /\ (3 < Py.sum recent_times
          / inject_Z (Z.of_nat (List.length recent_times)))%Q
  /\ exists insights recommendations,
       Store.lookup "insights"
         (snd (LearningService._run_comprehensive_analysis (fun l => l) e
                 Scenario.fresh_service session "s1"))
       = Some (Store.JList (map Store.JStr insights))
       /\ In "Performance degradada nos últimos dias - considerar otimização"
             insights
       /\ Store.lookup "recommendations"
            (snd (LearningService._run_comprehensive_analysis (fun l => l) e
                    Scenario.fresh_service session "s1"))
          = Some (Store.JList (map Store.JStr recommendations))
       /\ In "Otimizar infraestrutura ou modelo para melhorar tempo de resposta"
             recommendations
       /\ Store.has_key "error"
            (snd (LearningService._run_comprehensive_analysis (fun l => l) e
                    Scenario.fresh_service session "s1")) = false
       /\ fst (LearningService._run_comprehensive_analysis (fun l => l) e
                 Scenario.fresh_service session "s1")
          = (Scenario.fresh_service, session).
Proof.
  cbv zeta. split; [vm_compute; reflexivity|].
  split; [vm_compute; lia|]. split; [vm_compute; reflexivity|].
  apply (degraded_days_recommend_optimization (fun l => l)
           (Scenario.env Scenario.day_100 "a") Scenario.fresh_service
           (Store.open Calls.recovered_days) "s1").
  - vm_compute. lia.
  - vm_compute. reflexivity.
Defined.

(** ** A run for a session that has no row *)

Lemma update_session_missing (id : string)
  (f : Store.LearningSession -> Store.LearningSession) (s : Store.t) :
  Store.find_session id s = None -> Store.update_session id f s = s.
Proof.
  destruct s as [fb ms kb pm ls]. unfold Store.find_session,
    Store.update_session, Store.set_learning_sessions. cbn.
  intros H. f_equal. induction ls as [|r ls IH]; [reflexivity|].
  cbn in *. destruct (String.eqb (Store.ls_id r) id); [discriminate|].
  now rewrite IH.
Qed.

Lemma knowledge_expansion_frame
  (order : list LearningService.ProblematicResponse
           -> list LearningService.ProblematicResponse)
  (e : LearningService.Env) (v : LearningService.Service)
  (session : Store.Session) (session_id : string) :
  let s' :=
    snd (fst (LearningService._run_knowledge_expansion order e v session
                session_id)) in
  exists added,
    Store.knowledge_base (Store.working s')
    = (Store.knowledge_base (Store.working session) ++ added)%list
    /\ Store.feedback (Store.working s') = Store.feedback (Store.working session)
    /\ Store.messages (Store.working s') = Store.messages (Store.working session)
    /\ Store.performance_metrics (Store.working s')
       = Store.performance_metrics (Store.working session)
    /\ Store.learning_sessions (Store.working s')
       = Store.learning_sessions (Store.working session).
Proof.
  cbv zeta. unfold LearningService._run_knowledge_expansion.
  set (rows := LearningService.problematic_responses order
                 (LearningService.now e) (Store.working session)).
  destruct (expand_knowledge_titles e rows 0 v session [] 0)
    as (added & Hkb & _).
  destruct (expand_knowledge_frame e rows 0 v session [] 0)
    as (Hf & Hm & Hp & Hs).
  cbv zeta in *.
  destruct (LearningService.expand_knowledge _ _ _ _) as [[[v1 s1] gaps] n].
  cbn [fst snd] in *. exists added. repeat split; assumption.
Qed.

Lemma dispatch_frame
  (order_responses : list LearningService.ProblematicResponse
                     -> list LearningService.ProblematicResponse)
  (order_topics : list LearningService.TopicRow
                  -> list LearningService.TopicRow)
  (e : LearningService.Env) (v : LearningService.Service)
  (s : Store.Session) (id ty : string) :
  let s' :=
    snd (fst (LearningService.dispatch
                (LearningService._run_knowledge_expansion order_responses)
                (LearningService._run_comprehensive_analysis order_topics)
                e v s id ty)) in
  Store.learning_sessions (Store.working s')
  = Store.learning_sessions (Store.working s)
  /\ Store.feedback (Store.working s') = Store.feedback (Store.working s)
  /\ Store.messages (Store.working s') = Store.messages (Store.working s)
  /\ Store.performance_metrics (Store.working s')
     = Store.performance_metrics (Store.working s)
  /\ exists added,
       Store.knowledge_base (Store.working s')
       = (Store.knowledge_base (Store.working s) ++ added)%list
       /\ (String.eqb ty "knowledge_expansion" = false -> added = []).
Proof.
  cbv zeta. unfold LearningService.dispatch.
  destruct (String.eqb ty "model_optimization") eqn:E1.
  - rewrite run_model_optimization_session. repeat split.
    exists []. now rewrite app_nil_r.
  - destruct (String.eqb ty "knowledge_expansion") eqn:E2.
    + destruct (knowledge_expansion_frame
                  order_responses e v s id)
        as (added & Hkb & Hf & Hm & Hp & Hs).
      repeat split; try assumption. exists added. now split.
    + destruct (String.eqb ty "comprehensive_analysis"); cbn;
        repeat split; exists []; now rewrite app_nil_r.
Qed.

(** X15. A run for an id that has no row leaves no trace in the store.
    Both UPDATE statements of the runner match nothing, so after the run
    the learning sessions are what they were, and so are the feedback, the
    messages and the metrics; the handler has run all the same, and the
    knowledge base has grown only if the type is [knowledge_expansion]. *)
Theorem run_without_row_leaves_no_trace
  (order_responses : list LearningService.ProblematicResponse
                     -> list LearningService.ProblematicResponse)
  (order_topics : list LearningService.TopicRow
                  -> list LearningService.TopicRow)
  (e : LearningService.Env) (v : LearningService.Service) (db : Store.t)
  (id ty : string) :
  Store.find_session id db = None ->
  let out :=
    LearningService.run order_responses order_topics
      LearningService.no_faults e v db id ty in
  Store.learning_sessions (snd out) = Store.learning_sessions db
  /\ Store.feedback (snd out) = Store.feedback db
  /\ Store.messages (snd out) = Store.messages db
  /\ Store.performance_metrics (snd out) = Store.performance_metrics db
  /\ exists added,
       Store.knowledge_base (snd out)
       = (Store.knowledge_base db ++ added)%list
       /\ (String.eqb ty "knowledge_expansion" = false -> added = []).
Proof.
  intros Hnone. cbv zeta. unfold LearningService.run.
  rewrite run_without_faults.
  assert (Hrun : LearningService.promote e (Store.open db) id
                 = Store.mkSession db db).
  { unfold LearningService.promote, Store.commit, Store.execute, Store.open.
    cbn [Store.working]. now rewrite (update_session_missing id _ db Hnone). }
  rewrite Hrun.
  destruct (dispatch_frame order_responses order_topics e v
              (Store.mkSession db db) id ty)
    as (Hs & Hf & Hm & Hp & added & Hkb & Hty).
  cbv zeta in *. cbn [Store.working] in *.
  rewrite update_session_missing.
  - repeat split; try assumption. exists added. now split.
  - unfold Store.find_session in *. now rewrite Hs.
Qed.

Lemma run_without_row_leaves_no_trace_witness :
  let out :=
    LearningService.run (fun l => l) (fun l => l) LearningService.no_faults
      (Scenario.env (99 * Store.seconds_per_day + 40000) "a")
      Scenario.fresh_service Scenario.low_rated_week "zz"
      "model_optimization" in
  Store.find_session "zz" Scenario.low_rated_week = None
  /\ (AIService.temperature (LearningService.model_config (fst out))
      == 6 # 10)%Q
  /\ Store.learning_sessions (snd out)
     = Store.learning_sessions Scenario.low_rated_week
  /\ Store.feedback (snd out) = Store.feedback Scenario.low_rated_week
  /\ Store.messages (snd out) = Store.messages Scenario.low_rated_week
  /\ Store.performance_metrics (snd out)
     = Store.performance_metrics Scenario.low_rated_week
  /\ exists added,
       Store.knowledge_base (snd out)
       = (Store.knowledge_base Scenario.low_rated_week ++ added)%list
       /\ (String.eqb "model_optimization" "knowledge_expansion" = false ->
           added = []).
Proof.
  cbv zeta. split; [reflexivity|]. split; [vm_compute; reflexivity|].
  apply (run_without_row_leaves_no_trace (fun l => l) (fun l => l)
           (Scenario.env (99 * Store.seconds_per_day + 40000) "a")
           Scenario.fresh_service Scenario.low_rated_week "zz"
           "model_optimization").
  reflexivity.
Defined.

(** ** What a model optimization can change *)

Lemma tuner_without_negative_rate (avg : Q) (total : Z) (mode : string)
  (c : AIService.ModelConfig) :
  AIService.within_bounds c ->
  let c' :=
    AIService.optimize_model_parameters
      (AIService.mkFeedbackAnalysis (Some avg) (Some total) None (Some mode))
      c in
  AIService.max_tokens c' = AIService.max_tokens c
  /\ AIService.top_p c' = AIService.top_p c
  /\ AIService.frequency_penalty c' = AIService.frequency_penalty c
  /\ AIService.presence_penalty c' = AIService.presence_penalty c
  /\ (AIService.temperature c - (1 # 10) <= AIService.temperature c')%Q
  /\ (AIService.temperature c' <= AIService.temperature c + (1 # 10))%Q.
Proof.
  intros (Hlo & Hhi & _ & _). cbv zeta.
  unfold AIService.optimize_model_parameters.
  cbn [AIService.negative_feedback_rate AIService.average_rating
       AIService.total_feedback Py.dict_get].
  change (Py.Qltb (3 # 10) 0) with false. cbv iota.
  destruct (Py.Qltb avg 3 && _); [|destruct (Py.Qltb 4 avg && _)];
    cbn [AIService.set_temperature AIService.max_tokens AIService.top_p
         AIService.frequency_penalty AIService.presence_penalty
         AIService.temperature];
    repeat split; try apply Qle_refl.
  - unfold Py.max. destruct (Py.Qltb _ _) eqn:E; [apply Qle_refl|].
    apply Qltb_false in E. lra.
  - unfold Py.max. destruct (Py.Qltb _ _) eqn:E; lra.
  - unfold Py.min. destruct (Py.Qltb _ _) eqn:E; lra.
  - unfold Py.min. destruct (Py.Qltb _ _) eqn:E; [apply Qle_refl|].
    apply Qltb_false in E. lra.
  - lra.
  - lra.
Qed.

Lemma model_optimization_cases (e : LearningService.Env)
  (v : LearningService.Service) (session : Store.Session) (id : string) :
  let out := LearningService._run_model_optimization e v session id in
  let total :=
    Z.of_nat
      (List.length
         (LearningService.window_feedback (LearningService.now e)
            (Store.working session))) in
  (fst (fst out) = v /\ snd (fst out) = session)
  \/ exists avg mode,
       10 <= total
       /\ fst (fst out)
          = LearningService.incr_model_adjustments
              (LearningService.mkService (LearningService.learning_metrics v)
                 (AIService.optimize_model_parameters
                    (AIService.mkFeedbackAnalysis (Some avg) (Some total) None
                       (Some mode))
                    (LearningService.model_config v)))
       /\ snd (fst out) = session.
Proof.
  cbv zeta. unfold LearningService._run_model_optimization.
  destruct (LearningService.AVG_rating _) as [avg|]; [|left; now split].
  destruct (10 <=? _) eqn:Htotal.
  - apply Z.leb_le in Htotal. rewrite !andb_true_r.
    destruct (Py.Qltb avg 3); [|destruct (Py.Qltb 4 avg)];
      destruct (5 <? _); cbn [fst snd];
      try (left; now split);
      right; exists avg; eexists; (split; [exact Htotal|]);
      split; reflexivity.
  - rewrite !andb_false_r. destruct (5 <? _); left; now split.
Qed.

(** X16. A model-optimization run can move the temperature and nothing
    else.  From a configuration within the bounds, the configuration it
    leaves has the same [max_tokens], [top_p], [frequency_penalty] and
    [presence_penalty], a temperature at most 0.1 away, and is within the
    bounds; with fewer than ten ratings in the window the service is left
    as it was; the handler never writes to the store. *)
Theorem model_optimization_moves_only_temperature
  (e : LearningService.Env) (v : LearningService.Service)
  (session : Store.Session) (session_id : string) :
  AIService.within_bounds (LearningService.model_config v) ->
  let out := LearningService._run_model_optimization e v session session_id in
  let c := LearningService.model_config v in
  let c' := LearningService.model_config (fst (fst out)) in
  AIService.max_tokens c' = AIService.max_tokens c
  /\ AIService.top_p c' = AIService.top_p c
  /\ AIService.frequency_penalty c' = AIService.frequency_penalty c
  /\ AIService.presence_penalty c' = AIService.presence_penalty c
  /\ (AIService.temperature c - (1 # 10) <= AIService.temperature c')%Q
  /\ (AIService.temperature c' <= AIService.temperature c + (1 # 10))%Q
  /\ AIService.within_bounds c'
  /\ (Z.of_nat
        (List.length
           (LearningService.window_feedback (LearningService.now e)
              (Store.working session))) < 10 ->
      fst (fst out) = v)
  /\ snd (fst out) = session.
Proof.
  intros Hb. cbv zeta.
  destruct (model_optimization_cases e v session session_id)
    as [(E & Es) | (avg & mode & Htotal & E & Es)]; rewrite E, Es.
  - repeat split; try apply Hb; lra.
  - cbn [LearningService.incr_model_adjustments LearningService.model_config].
    destruct (tuner_without_negative_rate avg
                (Z.of_nat
                   (List.length
                      (LearningService.window_feedback (LearningService.now e)
                         (Store.working session))))
                mode (LearningService.model_config v) Hb)
      as (H1 & H2 & H3 & H4 & H5 & H6).
    repeat split; try assumption; try lia.
    all: now apply tuner_keeps_bounds.
Qed.

Lemma model_optimization_moves_only_temperature_witness :
  let e := Scenario.env Scenario.day_100 "a" in
  let out :=
    LearningService._run_model_optimization e Scenario.fresh_service
      (Store.open Scenario.low_rated_week) "s1" in
  let c := LearningService.model_config Scenario.fresh_service in
  let c' := LearningService.model_config (fst (fst out)) in
  AIService.within_bounds c
  /\ (AIService.temperature c' == 6 # 10)%Q
  /\ AIService.max_tokens c' = AIService.max_tokens c
  /\ AIService.top_p c' = AIService.top_p c
  /\ AIService.frequency_penalty c' = AIService.frequency_penalty c
  /\ AIService.presence_penalty c' = AIService.presence_penalty c
  /\ (AIService.temperature c - (1 # 10) <= AIService.temperature c')%Q
  /\ (AIService.temperature c' <= AIService.temperature c + (1 # 10))%Q
  /\ AIService.within_bounds c'
  /\ (Z.of_nat
        (List.length
           (LearningService.window_feedback (LearningService.now e)
              (Store.working (Store.open Scenario.low_rated_week)))) < 10 ->
      fst (fst out) = Scenario.fresh_service)
  /\ snd (fst out) = Store.open Scenario.low_rated_week.
Proof.
  cbv zeta.
  assert (H : AIService.within_bounds
                (LearningService.model_config Scenario.fresh_service)).
  { unfold AIService.within_bounds, Qle. cbn. lia. }
  split; [exact H|]. split; [vm_compute; reflexivity|].
  exact (model_optimization_moves_only_temperature
           (Scenario.env Scenario.day_100 "a") Scenario.fresh_service
           (Store.open Scenario.low_rated_week) "s1" H).
Defined.

(** ** The scheduled jobs *)

(** X17. The batch analysis of feedback and the daily cleanup stop at
    their first statement: [celery_tasks.py] does not bind [text], so each
    raises [NameError] before anything is written.  Whatever the store
    holds, the batch marks no feedback as processed and adds no knowledge,
    and the cleanup archives no conversation, deletes no metric and no
    learning session. *)
Theorem scheduled_jobs_stop_at_unbound_text
  (order : list Store.Feedback -> list Store.Feedback)
  (e : LearningService.Env) (now : Z)
  (conversations : list CeleryTasks.Conversation) (db : Store.t) :
  CeleryTasks._analyze_feedback_batch_async order e db
  = (db, Py.Raise (Py.NameError "text"))
  /\ CeleryTasks._cleanup_old_data_async now conversations db
     = (conversations, db, Py.Raise (Py.NameError "text")).
Proof. split; reflexivity. Qed.
